(** * Timetable generation engine: model and verification

    A shallow embedding of the generation engine of the timetable
    application (validator, lab allocator, scheduler, workload calculator
    and the sub-batch splitter of the academic store), followed by the
    properties proved about it.

    Conventions.
    - JavaScript numbers that hold counts, capacities, days and periods
      are integers here ([Z]); array indices and lengths are [nat].
      The designation limits, one of which is 1.5, are rationals ([Q]).
    - [uuidv4()] and [Date.now()] read an outside source.  The source is
      a [World]: an arbitrary answer for every successive call.  Code that
      calls them lives in the state monad [Gen].
    - [String.prototype.localeCompare] depends on the platform; it is the
      one operation of the class [Locale]. [Array.prototype.sort] is the
      stable sort [sortBy]. *)

From Stdlib Require Import String Ascii List ZArith QArith Bool Lia.
From Stdlib Require Import Permutation Sorted DecimalString DecimalZ.
Import ListNotations.

Close Scope Q_scope.
Open Scope string_scope.
Open Scope list_scope.
Open Scope Z_scope.

Set Implicit Arguments.

(* ================================================================== *)
(** * Part I: the model *)
(* ================================================================== *)

(** ** Strings and numbers *)

Infix "+++" := String.append (at level 60, right associativity).

(** The double-quote character of the message templates. *)
Definition dquote : string := String (ascii_of_nat 34) EmptyString.

(** [`"${s}"`] *)
Definition quoted (s : string) : string := dquote +++ s +++ dquote.

(** [`${n}`] for an integer [n]. *)
Definition showZ (n : Z) : string := NilEmpty.string_of_int (Z.to_int n).

(** Digits after the decimal point of [r / d], for [0 <= r < d]. *)
Fixpoint fracDigits (fuel : nat) (r d : Z) : string :=
  match fuel with
  | O => EmptyString
  | S fuel' =>
      if r =? 0 then EmptyString
      else showZ ((10 * r) / d) +++ fracDigits fuel' ((10 * r) mod d) d
  end.

(** [`${x}`] for a number with a short decimal expansion (5, 1.5, ...). *)
Definition showNumber (q : Q) : string :=
  let n := Qnum q in
  let d := Zpos (Qden q) in
  let a := Z.abs n in
  (if n <? 0 then "-" else EmptyString) +++ showZ (a / d) +++
  (if a mod d =? 0 then EmptyString else "." +++ fracDigits 17 (a mod d) d).

(** [x > y] on numbers. *)
Definition Qgtb (x y : Q) : bool := negb (Qle_bool x y).

(** [Array.prototype.includes] on string arrays. *)
Definition includes (l : list string) (x : string) : bool :=
  existsb (String.eqb x) l.

(** ** The platform: locale comparison and stable sort *)

Class Locale := { localeCompare : string -> string -> Z }.

Section Sort.
Variable A : Type.
Variable cmp : A -> A -> Z.

(** [x] goes before the first element it does not follow. *)
Fixpoint insertBy (x : A) (l : list A) : list A :=
  match l with
  | [] => [x]
  | y :: ys => if cmp x y <=? 0 then x :: y :: ys else y :: insertBy x ys
  end.

(** [Array.prototype.sort(cmp)]: stable, equal elements keep their order. *)
Fixpoint sortBy (l : list A) : list A :=
  match l with
  | [] => []
  | x :: xs => insertBy x (sortBy xs)
  end.

(** [Array.prototype.findIndex], -1 when nothing matches. *)
Fixpoint findIndexFrom (p : A -> bool) (l : list A) (i : Z) : Z :=
  match l with
  | [] => -1
  | x :: xs => if p x then i else findIndexFrom p xs (i + 1)
  end.

Definition findIndex (p : A -> bool) (l : list A) : Z := findIndexFrom p l 0.
End Sort.

(** ** The outside source of identifiers and time *)

Record World := mkWorld {
  uuidAt : nat -> string;   (* what the n-th call returns, if it asks for an id *)
  timeAt : nat -> Z;        (* what the n-th call returns, if it asks the time *)
  calls : nat               (* calls made so far *)
}.

Definition Gen (A : Type) : Type := World -> A * World.

Definition ret {A} (a : A) : Gen A := fun w => (a, w).

Definition bind {A B} (c : Gen A) (k : A -> Gen B) : Gen B :=
  fun w => let (a, w') := c w in k a w'.

Notation "x <- c ;; k" := (bind c (fun x => k))
  (at level 61, c at next level, right associativity).

Definition uuidv4 : Gen string :=
  fun w => (uuidAt w (calls w), mkWorld (uuidAt w) (timeAt w) (S (calls w))).

Definition Date_now : Gen Z :=
  fun w => (timeAt w (calls w), mkWorld (uuidAt w) (timeAt w) (S (calls w))).

(** [Array.prototype.forEach((x, index) => ...)], the variables the callback
    updates being the state [St]. *)
Fixpoint forEachFrom {A St} (f : nat -> A -> St -> Gen St) (l : list A) (i : nat)
    (s : St) : Gen St :=
  match l with
  | [] => ret s
  | x :: xs => s' <- f i x s ;; forEachFrom f xs (S i) s'
  end.

Definition forEach {A St} (f : nat -> A -> St -> Gen St) (l : list A) (s : St) : Gen St :=
  forEachFrom f l 0%nat s.

(** ** Data model (src/types) *)

Inductive FacultyDesignation := PROFESSOR | ASSOCIATE_PROFESSOR | ASSISTANT_PROFESSOR.

Inductive SubjectType := THEORY | LAB | MANDATORY | OPEN_ELECTIVE | LIBRARY.

Definition SubjectType_eqb (a b : SubjectType) : bool :=
  match a, b with
  | THEORY, THEORY | LAB, LAB | MANDATORY, MANDATORY
  | OPEN_ELECTIVE, OPEN_ELECTIVE | LIBRARY, LIBRARY => true
  | _, _ => false
  end.

Definition designationName (d : FacultyDesignation) : string :=
  match d with
  | PROFESSOR => "PROFESSOR"
  | ASSOCIATE_PROFESSOR => "ASSOCIATE_PROFESSOR"
  | ASSISTANT_PROFESSOR => "ASSISTANT_PROFESSOR"
  end.

Record SubjectConstraints := mkConstraints {
  allowedPeriods : option (list Z);
  allowedDays : option (list Z);
  maxPerWeek : option Z
}.

Module Subject.
Record t := mk {
  id : string;
  name : string;
  code : string;
  type : SubjectType;
  periodsPerWeek : Z;
  departmentId : string;
  semester : Z;
  constraints : SubjectConstraints;
  createdAt : Z
}.
End Subject.

Module SubBatch.
Record t := mk {
  id : string;
  name : string;
  studentCount : Z
}.
End SubBatch.

Module Batch.
Record t := mk {
  id : string;
  name : string;
  semester : Z;
  section : string;
  departmentId : string;
  totalStudents : Z;
  subBatches : list SubBatch.t;
  createdAt : Z
}.
End Batch.

Module Faculty.
Record t := mk {
  id : string;
  name : string;
  employeeId : string;
  designation : FacultyDesignation;
  departmentId : string;
  assignedTheorySubjects : list string;
  assignedLabSubjects : list string;
  createdAt : Z
}.
End Faculty.

Record WorkloadLimits := mkLimits { limTheoryPeriods : Q; limLabSessions : Q }.

Definition FACULTY_WORKLOAD_LIMITS (d : FacultyDesignation) : WorkloadLimits :=
  match d with
  | PROFESSOR => mkLimits (5 # 1) (1 # 1)
  | ASSOCIATE_PROFESSOR => mkLimits (5 # 1) (3 # 2)
  | ASSISTANT_PROFESSOR => mkLimits (10 # 1) (2 # 1)
  end.

Record AcademicState := mkAcademic {
  batches : list Batch.t;
  subjects : list Subject.t;
  faculty : list Faculty.t
}.

Module Block.
Record t := mk { id : string; name : string; createdAt : Z }.
End Block.

Module Department.
Record t := mk { id : string; name : string; blockId : string; createdAt : Z }.
End Department.

Module Classroom.
Record t := mk {
  id : string; name : string; capacity : Z; departmentId : string; createdAt : Z
}.
End Classroom.

Module Lab.
Record t := mk {
  id : string; name : string; capacity : Z; departmentId : string; createdAt : Z
}.
End Lab.

Record InfrastructureState := mkInfrastructure {
  blocks : list Block.t;
  departments : list Department.t;
  classrooms : list Classroom.t;
  labs : list Lab.t
}.

Inductive LabSlot := SlotA | SlotB.

Definition LabSlot_eqb (a b : LabSlot) : bool :=
  match a, b with
  | SlotA, SlotA | SlotB, SlotB => true
  | _, _ => false
  end.

(** [`${slot}`] for a lab slot. *)
Definition slotName (s : LabSlot) : string :=
  match s with SlotA => "A" | SlotB => "B" end.

Module Entry.
(** [TimetableEntry] *)
Record t := mk {
  id : string;
  slotId : string;
  day : Z;
  period : Z;
  subjectId : string;
  facultyId : string;
  roomId : string;
  batchId : string;
  subBatchId : option string;
  isLabSession : bool;
  labSlot : option LabSlot;
  createdAt : Z
}.
End Entry.

Module Timetable.
Record t := mk {
  id : string;
  batchId : string;
  entries : list Entry.t;
  generatedAt : Z;
  isValid : bool
}.
End Timetable.

Module LabRotation.
Record t := mk {
  batchId : string;
  subBatchId : string;
  sessionNumber : Z;
  labId : string
}.
End LabRotation.

Inductive ExplanationLevel := INFO | WARNING | ERROR.
Inductive ExplanationSource := VALIDATOR | LAB_ALLOCATOR | SCHEDULER | WORKLOAD.

Definition isERROR (l : ExplanationLevel) : bool :=
  match l with ERROR => true | _ => false end.

Module Explanation.
Record t := mk {
  level : ExplanationLevel;
  source : ExplanationSource;
  message : string;
  relatedEntityId : option string;
  step : option Z
}.
End Explanation.

Module GenerationResult.
Record t := mk {
  success : bool;
  timetable : option Timetable.t;
  explanations : list Explanation.t
}.
End GenerationResult.

(** ** Constants (the locked time structure) *)

Definition LAB_SLOT_A : list Z := [2; 3; 4].
Definition LAB_SLOT_B : list Z := [5; 6; 7].
Definition WORKING_DAYS : list Z := [0; 1; 2; 3; 4; 5].
Definition MIN_LAB_SESSIONS_PER_WEEK : nat := 2.

(* ------------------------------------------------------------------ *)
(** ** Validator (src/engine/validator.ts) *)

Definition explain (l : ExplanationLevel) (src : ExplanationSource) (msg : string)
    (related : option string) (step : Z) : Explanation.t :=
  Explanation.mk l src msg related (Some step).

Definition isEmpty {A} (l : list A) : bool := (length l =? 0)%nat.

Definition validateInfrastructure (state : InfrastructureState) : list Explanation.t :=
  (if isEmpty (blocks state)
   then [explain ERROR VALIDATOR "No blocks defined. At least one block is required." None 1]
   else []) ++
  (if isEmpty (departments state)
   then [explain ERROR VALIDATOR
           "No departments defined. At least one department is required." None 1]
   else []) ++
  (if isEmpty (classrooms state)
   then [explain ERROR VALIDATOR
           "No classrooms defined. At least one classroom is required." None 1]
   else []) ++
  flat_map (fun classroom =>
    if Classroom.capacity classroom <=? 0
    then [explain ERROR VALIDATOR
            ("Classroom " +++ quoted (Classroom.name classroom) +++
             " has invalid capacity (" +++ showZ (Classroom.capacity classroom) +++
             "). Capacity must be > 0.")
            (Some (Classroom.id classroom)) 1]
    else []) (classrooms state) ++
  (if isEmpty (labs state)
   then [explain ERROR VALIDATOR "No labs defined. At least one lab is required." None 1]
   else []) ++
  flat_map (fun lab =>
    if Lab.capacity lab <=? 0
    then [explain ERROR VALIDATOR
            ("Lab " +++ quoted (Lab.name lab) +++
             " has invalid capacity (" +++ showZ (Lab.capacity lab) +++
             "). Capacity must be > 0.")
            (Some (Lab.id lab)) 1]
    else []) (labs state).

Definition validateAcademic (academic : AcademicState) (infrastructure : InfrastructureState)
  : list Explanation.t :=
  (if isEmpty (batches academic)
   then [explain ERROR VALIDATOR "No batches defined. At least one batch is required." None 1]
   else []) ++
  flat_map (fun batch =>
    (if Batch.totalStudents batch <=? 0
     then [explain ERROR VALIDATOR
             ("Batch " +++ quoted (Batch.name batch) +++ " has invalid student count (" +++
              showZ (Batch.totalStudents batch) +++ ").")
             (Some (Batch.id batch)) 1]
     else []) ++
    (match find (fun d => String.eqb (Department.id d) (Batch.departmentId batch))
                (departments infrastructure) with
     | Some _ => []
     | None =>
         [explain ERROR VALIDATOR
            ("Batch " +++ quoted (Batch.name batch) +++ " references non-existent department.")
            (Some (Batch.id batch)) 1]
     end)) (batches academic) ++
  (if isEmpty (subjects academic)
   then [explain ERROR VALIDATOR
           "No subjects defined. At least one subject is required." None 1]
   else []) ++
  (let labSubjects :=
     filter (fun s => SubjectType_eqb (Subject.type s) LAB) (subjects academic) in
   if isEmpty labSubjects
   then [explain WARNING VALIDATOR
           "No lab subjects defined. Students need at least 2 lab sessions per week." None 1]
   else []) ++
  (if isEmpty (faculty academic)
   then [explain ERROR VALIDATOR
           "No faculty defined. At least one faculty is required." None 1]
   else []).

Definition validateFacultyWorkload (faculty : list Faculty.t) (subjects : list Subject.t)
  : list Explanation.t :=
  flat_map (fun f =>
    let limits := FACULTY_WORKLOAD_LIMITS (Faculty.designation f) in
    let theoryPeriods :=
      fold_left (fun acc subjectId =>
        match find (fun s => String.eqb (Subject.id s) subjectId) subjects with
        | Some subject => acc + Subject.periodsPerWeek subject
        | None => acc
        end) (Faculty.assignedTheorySubjects f) 0 in
    (if Qgtb (inject_Z theoryPeriods) (limTheoryPeriods limits)
     then [explain ERROR WORKLOAD
             (Faculty.name f +++ " (" +++ designationName (Faculty.designation f) +++
              ") has " +++ showZ theoryPeriods +++
              " theory periods assigned, exceeds limit of " +++
              showNumber (limTheoryPeriods limits) +++ ".")
             (Some (Faculty.id f)) 8]
     else []) ++
    (let labSessions := Z.of_nat (length (Faculty.assignedLabSubjects f)) in
     if Qgtb (inject_Z labSessions) (limLabSessions limits)
     then [explain ERROR WORKLOAD
             (Faculty.name f +++ " (" +++ designationName (Faculty.designation f) +++
              ") has " +++ showZ labSessions +++
              " lab sessions assigned, exceeds limit of " +++
              showNumber (limLabSessions limits) +++ ".")
             (Some (Faculty.id f)) 8]
     else [])) faculty.

Definition validateSubjectAssignments (subjects : list Subject.t) (faculty : list Faculty.t)
  : list Explanation.t :=
  flat_map (fun subject =>
    let assigned :=
      if SubjectType_eqb (Subject.type subject) LAB
      then existsb (fun f => includes (Faculty.assignedLabSubjects f) (Subject.id subject))
                   faculty
      else existsb (fun f => includes (Faculty.assignedTheorySubjects f) (Subject.id subject))
                   faculty in
    if negb assigned
    then [explain ERROR VALIDATOR
            ("Subject " +++ quoted (Subject.name subject) +++ " (" +++
             Subject.code subject +++ ") has no faculty assigned.")
            (Some (Subject.id subject)) 1]
    else []) subjects.

Record ValidationResult := mkValidation {
  isValid : bool;
  vExplanations : list Explanation.t
}.

Definition validateAll (infrastructure : InfrastructureState) (academic : AcademicState)
  : ValidationResult :=
  let explanations :=
    validateInfrastructure infrastructure ++
    validateAcademic academic infrastructure ++
    (if (0 <? length (subjects academic))%nat && (0 <? length (faculty academic))%nat
     then validateSubjectAssignments (subjects academic) (faculty academic)
     else []) ++
    (if (0 <? length (faculty academic))%nat && (0 <? length (subjects academic))%nat
     then validateFacultyWorkload (faculty academic) (subjects academic)
     else []) in
  let hasErrors := existsb (fun e => isERROR (Explanation.level e)) explanations in
  mkValidation (negb hasErrors) explanations.

(* ------------------------------------------------------------------ *)
(** ** Lab allocator (src/engine/labAllocator.ts) *)

(** [e.X === x && e.day === day && e.period === period] for the three
    occupancy tests. *)
Definition occupies (key : Entry.t -> string) (x : string) (day period : Z) (e : Entry.t)
  : bool :=
  String.eqb (key e) x && (Entry.day e =? day) && (Entry.period e =? period).

Definition isFacultyAvailableForSlot (entries : list Entry.t) (facultyId : string)
    (day : Z) (periods : list Z) : bool :=
  negb (existsb (fun period =>
          existsb (occupies Entry.facultyId facultyId day period) entries) periods).

Record LabAllocationResult := mkLabResult {
  labEntries : list Entry.t;
  labRotations : list LabRotation.t;
  labExplanations : list Explanation.t;
  labSuccess : bool
}.

Record LabSession := mkLabSession {
  sessionDay : Z;
  sessionSlot : LabSlot;
  sessionPeriods : list Z
}.

Definition getAvailableLabSlots (existingEntries : list Entry.t) (batchId : string)
  : list LabSession :=
  let sortedDays := sortBy (fun a b => a - b) WORKING_DAYS in
  flat_map (fun day =>
    let slotAUsed :=
      existsb (fun period =>
        existsb (occupies Entry.batchId batchId day period) existingEntries) LAB_SLOT_A in
    let slotBUsed :=
      existsb (fun period =>
        existsb (occupies Entry.batchId batchId day period) existingEntries) LAB_SLOT_B in
    (if negb slotAUsed then [mkLabSession day SlotA LAB_SLOT_A] else []) ++
    (if negb slotBUsed then [mkLabSession day SlotB LAB_SLOT_B] else [])) sortedDays.

(** [`${s.day}-${s.slot}`], the key of the set [usedSlots]. *)
Definition slotKey (s : LabSession) : string :=
  showZ (sessionDay s) +++ "-" +++ slotName (sessionSlot s).

(** One entry of a lab session: the object literal pushed for a period. *)
Definition labEntry (batch : Batch.t) (subject : Subject.t) (assignedFaculty : Faculty.t)
    (lab : Lab.t) (subBatchId : option string) (slot : LabSession) (period : Z)
  : Gen Entry.t :=
  i <- uuidv4 ;;
  now <- Date_now ;;
  ret (Entry.mk i (showZ (sessionDay slot) +++ "-" +++ showZ period)
         (sessionDay slot) period (Subject.id subject) (Faculty.id assignedFaculty)
         (Lab.id lab) (Batch.id batch) subBatchId true (Some (sessionSlot slot)) now).

(** [slot.periods.forEach(period => entries.push({...}))] *)
Definition pushLabEntries (batch : Batch.t) (subject : Subject.t)
    (assignedFaculty : Faculty.t) (lab : Lab.t) (subBatchId : option string)
    (slot : LabSession) (entries : list Entry.t) : Gen (list Entry.t) :=
  forEach (fun _ period entries =>
             e <- labEntry batch subject assignedFaculty lab subBatchId slot period ;;
             ret (entries ++ [e]))
          (sessionPeriods slot) entries.

(** The three arrays the allocator fills. *)
Record LabAcc := mkLabAcc {
  accEntries : list Entry.t;
  accRotations : list LabRotation.t;
  accExplanations : list Explanation.t
}.

Section LabSessionBody.
Context {L : Locale}.
Variable batch : Batch.t.
Variable deptLabs : list Lab.t.
Variable lab0 : Lab.t.                (* deptLabs[0]; deptLabs is not empty *)
Variable existingEntries : list Entry.t.
Variable existingRotations : list LabRotation.t.
Variable subject : Subject.t.
Variable labFaculty : list Faculty.t.
Variable faculty0 : Faculty.t.        (* labFaculty[0]; labFaculty is not empty *)
Variable slot : LabSession.
Variable sessionNumber : nat.

(** The callback of [sortedSubBatches.forEach]. *)
Definition allocateSubBatch (subBatchIndex : nat) (subBatch : SubBatch.t) (acc : LabAcc)
  : Gen LabAcc :=
  let previousRotation :=
    find (fun r => String.eqb (LabRotation.batchId r) (Batch.id batch) &&
                   String.eqb (LabRotation.subBatchId r) (SubBatch.id subBatch))
         existingRotations in
  let labIndex :=
    match previousRotation with
    | Some previous =>
        let prevLabIndex :=
          findIndex (fun l => String.eqb (Lab.id l) (LabRotation.labId previous))
                    deptLabs in
        Z.to_nat ((prevLabIndex + 1) mod Z.of_nat (length deptLabs))
    | None => (subBatchIndex mod length deptLabs)%nat
    end in
  let lab := nth labIndex deptLabs lab0 in
  let candidateFaculty :=
    nth (subBatchIndex mod length labFaculty)%nat labFaculty faculty0 in
  let currentEntriesForCheck := existingEntries ++ accEntries acc in
  let assignedFaculty :=
    if isFacultyAvailableForSlot currentEntriesForCheck (Faculty.id candidateFaculty)
         (sessionDay slot) (sessionPeriods slot)
    then Some candidateFaculty
    else find (fun f => isFacultyAvailableForSlot currentEntriesForCheck (Faculty.id f)
                          (sessionDay slot) (sessionPeriods slot)) labFaculty in
  match assignedFaculty with
  | None =>
      ret (mkLabAcc (accEntries acc) (accRotations acc)
             (accExplanations acc ++
              [explain WARNING LAB_ALLOCATOR
                 ("No available faculty for " +++ Subject.name subject +++
                  " sub-batch " +++ SubBatch.name subBatch +++ " at Slot " +++
                  slotName (sessionSlot slot) +++ ", Day " +++
                  showZ (sessionDay slot + 1) +++ ".")
                 (Some (Subject.id subject)) 3]))
  | Some assignedFaculty =>
      entries <- pushLabEntries batch subject assignedFaculty lab
                   (Some (SubBatch.id subBatch)) slot (accEntries acc) ;;
      ret (mkLabAcc entries
             (accRotations acc ++
              [LabRotation.mk (Batch.id batch) (SubBatch.id subBatch)
                 (Z.of_nat sessionNumber) (Lab.id lab)])
             (accExplanations acc ++
              [explain INFO LAB_ALLOCATOR
                 ("Allocated " +++ Subject.name subject +++ " for " +++
                  Batch.name batch +++ "-" +++ SubBatch.name subBatch +++ " in " +++
                  Lab.name lab +++ " (Slot " +++ slotName (sessionSlot slot) +++
                  ", Day " +++ showZ (sessionDay slot + 1) +++ ").")
                 (Some (Batch.id batch)) 3]))
  end.

(** The body of one session once the subject has lab faculty: parallel
    sub-batches with rotation, or the whole batch in the first lab. *)
Definition allocateSession (acc : LabAcc) : Gen LabAcc :=
  if (1 <? length (Batch.subBatches batch))%nat then
    let sortedSubBatches :=
      sortBy (fun a b => localeCompare (SubBatch.id a) (SubBatch.id b))
             (Batch.subBatches batch) in
    forEach allocateSubBatch sortedSubBatches acc
  else
    let lab := lab0 in
    let assignedFaculty := faculty0 in
    entries <- pushLabEntries batch subject assignedFaculty lab None slot
                 (accEntries acc) ;;
    ret (mkLabAcc entries (accRotations acc)
           (accExplanations acc ++
            [explain INFO LAB_ALLOCATOR
               ("Allocated " +++ Subject.name subject +++ " for " +++
                Batch.name batch +++ " in " +++ Lab.name lab +++ " (Slot " +++
                slotName (sessionSlot slot) +++ ", Day " +++
                showZ (sessionDay slot + 1) +++ ").")
               (Some (Batch.id batch)) 3])).
End LabSessionBody.

(** The variables of the allocation loop. *)
Record LabLoopState := mkLabLoop {
  sessionNumber : nat;
  usedSlots : list string;      (* Set<string>: only [has] and [add] are used *)
  subjectIndex : nat;
  loopAcc : LabAcc
}.

Section LabLoop.
Context {L : Locale}.
Variable batch : Batch.t.
Variable sortedLabSubjects : list Subject.t.
Variable subject0 : Subject.t.        (* sortedLabSubjects[0] *)
Variable deptLabs : list Lab.t.
Variable lab0 : Lab.t.
Variable faculty : list Faculty.t.
Variable existingEntries : list Entry.t.
Variable existingRotations : list LabRotation.t.

(** The [while] loop. Every iteration that does not leave the loop adds a
    new key to [usedSlots], so [fuel] above the number of (day, slot)
    pairs is never used up (lemma [labLoop_fuel] below). *)
Fixpoint labLoop (fuel : nat) (st : LabLoopState) : Gen LabLoopState :=
  match fuel with
  | O => ret st
  | S fuel' =>
      if (subjectIndex st <? length sortedLabSubjects)%nat &&
         (sessionNumber st <?
            Nat.max (length sortedLabSubjects) MIN_LAB_SESSIONS_PER_WEEK)%nat
      then
        let acc := loopAcc st in
        let currentEntries := existingEntries ++ accEntries acc in
        let availableSlots := getAvailableLabSlots currentEntries (Batch.id batch) in
        match find (fun s => negb (includes (usedSlots st) (slotKey s))) availableSlots with
        | None => ret st                                     (* break *)
        | Some slot =>
            let usedSlots' := slotKey slot :: usedSlots st in
            let subject :=
              nth (subjectIndex st mod length sortedLabSubjects)%nat
                  sortedLabSubjects subject0 in
            let labFaculty :=
              sortBy (fun a b => localeCompare (Faculty.id a) (Faculty.id b))
                (filter (fun f => includes (Faculty.assignedLabSubjects f)
                                           (Subject.id subject)) faculty) in
            match labFaculty with
            | [] =>                                          (* continue *)
                labLoop fuel'
                  (mkLabLoop (sessionNumber st) usedSlots' (subjectIndex st)
                     (mkLabAcc (accEntries acc) (accRotations acc)
                        (accExplanations acc ++
                         [explain ERROR LAB_ALLOCATOR
                            ("No faculty assigned to lab subject " +++
                             quoted (Subject.name subject) +++ ".")
                            (Some (Subject.id subject)) 3])))
            | faculty0 :: _ =>
                acc' <- allocateSession batch deptLabs lab0 existingEntries
                          existingRotations subject labFaculty faculty0 slot
                          (sessionNumber st) acc ;;
                let sessionNumber' := S (sessionNumber st) in
                let subjectIndex' := S (subjectIndex st) in
                let st' := mkLabLoop sessionNumber' usedSlots' subjectIndex' acc' in
                if (MIN_LAB_SESSIONS_PER_WEEK <=? sessionNumber')%nat &&
                   (length sortedLabSubjects <=? subjectIndex')%nat
                then ret st'                                 (* break *)
                else labLoop fuel' st'
            end
        end
      else ret st
  end.
End LabLoop.

(** More than the twelve (day, slot) pairs of a week. *)
Definition labLoopFuel : nat := S (2 * length WORKING_DAYS).

Definition allocateLabsForBatch {L : Locale} (batch : Batch.t)
    (labSubjects : list Subject.t) (labs : list Lab.t) (faculty : list Faculty.t)
    (existingEntries : list Entry.t) (existingRotations : list LabRotation.t)
  : Gen LabAllocationResult :=
  let sortedLabSubjects :=
    sortBy (fun a b => localeCompare (Subject.id a) (Subject.id b))
      (filter (fun s => String.eqb (Subject.departmentId s) (Batch.departmentId batch) &&
                        (Subject.semester s =? Batch.semester batch)) labSubjects) in
  match sortedLabSubjects with
  | [] =>
      ret (mkLabResult [] []
             [explain ERROR LAB_ALLOCATOR
                ("No lab subjects found for batch " +++ quoted (Batch.name batch) +++ ".")
                (Some (Batch.id batch)) 3] false)
  | subject0 :: _ =>
      let deptLabs :=
        sortBy (fun a b => localeCompare (Lab.id a) (Lab.id b))
          (filter (fun l => String.eqb (Lab.departmentId l) (Batch.departmentId batch))
                  labs) in
      match deptLabs with
      | [] =>
          ret (mkLabResult [] []
                 [explain ERROR LAB_ALLOCATOR
                    ("No labs available for batch " +++ quoted (Batch.name batch) +++
                     " in its department.")
                    (Some (Batch.id batch)) 3] false)
      | lab0 :: _ =>
          let combinedEntries := existingEntries ++ [] in
          let availableSlots := getAvailableLabSlots combinedEntries (Batch.id batch) in
          if (length availableSlots <? MIN_LAB_SESSIONS_PER_WEEK)%nat then
            ret (mkLabResult [] []
                   [explain ERROR LAB_ALLOCATOR
                      ("Not enough lab slots available for batch " +++
                       quoted (Batch.name batch) +++ ". Need " +++
                       showZ (Z.of_nat MIN_LAB_SESSIONS_PER_WEEK) +++ ", found " +++
                       showZ (Z.of_nat (length availableSlots)) +++ ".")
                      (Some (Batch.id batch)) 3] false)
          else
            st <- labLoop batch sortedLabSubjects subject0 deptLabs lab0 faculty
                    existingEntries existingRotations labLoopFuel
                    (mkLabLoop 0 [] 0 (mkLabAcc [] [] [])) ;;
            let acc := loopAcc st in
            if (sessionNumber st <? MIN_LAB_SESSIONS_PER_WEEK)%nat then
              ret (mkLabResult (accEntries acc) (accRotations acc)
                     (accExplanations acc ++
                      [explain ERROR LAB_ALLOCATOR
                         ("Could only allocate " +++ showZ (Z.of_nat (sessionNumber st)) +++
                          " lab sessions for batch " +++ quoted (Batch.name batch) +++
                          ". Minimum required: " +++
                          showZ (Z.of_nat MIN_LAB_SESSIONS_PER_WEEK) +++ ".")
                         (Some (Batch.id batch)) 3])
                     false)
            else
              ret (mkLabResult (accEntries acc) (accRotations acc) (accExplanations acc)
                     true)
      end
  end.

(* ------------------------------------------------------------------ *)
(** ** Workload calculator (src/engine/workloadCalculator.ts) *)

Record WorkloadStats := mkStats {
  facultyId : string;
  facultyName : string;
  designation : string;
  theoryPeriods : Z;
  theoryLimit : Q;
  labSessions : Z;
  labLimit : Q;
  isOverloaded : bool
}.

(** [`${e.labSlot}`]: an absent field prints as undefined. *)
Definition labSlotText (s : option LabSlot) : string :=
  match s with Some s => slotName s | None => "undefined" end.

(** [`${e.day}-${e.labSlot}`] *)
Definition labSessionKey (e : Entry.t) : string :=
  showZ (Entry.day e) +++ "-" +++ labSlotText (Entry.labSlot e).

(** [new Set(keys).size] *)
Definition setSize (keys : list string) : Z :=
  Z.of_nat (length (nodup string_dec keys)).

Definition calculateWorkload {L : Locale} (faculty : list Faculty.t)
    (subjects : list Subject.t) (entries : list Entry.t) : list WorkloadStats :=
  let sortedFaculty :=
    sortBy (fun a b => localeCompare (Faculty.id a) (Faculty.id b)) faculty in
  map (fun f =>
    let limits := FACULTY_WORKLOAD_LIMITS (Faculty.designation f) in
    let theoryEntries :=
      filter (fun e => String.eqb (Entry.facultyId e) (Faculty.id f) &&
                       negb (Entry.isLabSession e)) entries in
    let theoryPeriods := Z.of_nat (length theoryEntries) in
    let labEntries :=
      filter (fun e => String.eqb (Entry.facultyId e) (Faculty.id f) &&
                       Entry.isLabSession e) entries in
    let labSessionKeys := map labSessionKey labEntries in
    let labSessions := setSize labSessionKeys in
    mkStats (Faculty.id f) (Faculty.name f) (designationName (Faculty.designation f))
      theoryPeriods (limTheoryPeriods limits) labSessions (limLabSessions limits)
      (Qgtb (inject_Z theoryPeriods) (limTheoryPeriods limits) ||
       Qgtb (inject_Z labSessions) (limLabSessions limits))) sortedFaculty.

Definition validateWorkload {L : Locale} (faculty : list Faculty.t)
    (subjects : list Subject.t) (entries : list Entry.t) : list Explanation.t :=
  let stats := calculateWorkload faculty subjects entries in
  flat_map (fun stat =>
    (if Qgtb (inject_Z (theoryPeriods stat)) (theoryLimit stat)
     then [explain ERROR WORKLOAD
             (facultyName stat +++ " (" +++ designation stat +++ ") has " +++
              showZ (theoryPeriods stat) +++ " theory periods, exceeds limit of " +++
              showNumber (theoryLimit stat) +++ ".")
             (Some (facultyId stat)) 8]
     else []) ++
    (if Qgtb (inject_Z (labSessions stat)) (labLimit stat)
     then [explain ERROR WORKLOAD
             (facultyName stat +++ " (" +++ designation stat +++ ") has " +++
              showZ (labSessions stat) +++ " lab sessions, exceeds limit of " +++
              showNumber (labLimit stat) +++ ".")
             (Some (facultyId stat)) 8]
     else []) ++
    (if negb (isOverloaded stat)
     then [explain INFO WORKLOAD
             (facultyName stat +++ ": " +++ showZ (theoryPeriods stat) +++ "/" +++
              showNumber (theoryLimit stat) +++ " theory, " +++
              showZ (labSessions stat) +++ "/" +++ showNumber (labLimit stat) +++
              " labs.")
             (Some (facultyId stat)) 8]
     else [])) stats.

Definition hasWorkloadViolation {L : Locale} (faculty : list Faculty.t)
    (subjects : list Subject.t) (entries : list Entry.t) : bool :=
  let stats := calculateWorkload faculty subjects entries in
  existsb isOverloaded stats.

(* ------------------------------------------------------------------ *)
(** ** Scheduler (src/engine/scheduler.ts) *)

Definition isSlotAvailable (entries : list Entry.t) (batchId : string) (day period : Z)
  : bool :=
  negb (existsb (occupies Entry.batchId batchId day period) entries).

Definition isFacultyAvailable (entries : list Entry.t) (facultyId : string)
    (day period : Z) : bool :=
  negb (existsb (occupies Entry.facultyId facultyId day period) entries).

Definition isRoomAvailable (entries : list Entry.t) (roomId : string) (day period : Z)
  : bool :=
  negb (existsb (occupies Entry.roomId roomId day period) entries).

Definition placeTheoryEntry (batch : Batch.t) (subject : Subject.t)
    (facultyId classroomId : string) (day period : Z) : Gen Entry.t :=
  i <- uuidv4 ;;
  now <- Date_now ;;
  ret (Entry.mk i (showZ day +++ "-" +++ showZ period) day period (Subject.id subject)
         facultyId classroomId (Batch.id batch) None false None now).

(** What every placement phase returns. *)
Record Placement := mkPlacement {
  placed : list Entry.t;
  notes : list Explanation.t
}.

Definition note (p : Placement) (e : Explanation.t) : Placement :=
  mkPlacement (placed p) (notes p ++ [e]).

(** [subjects.filter(s => s.type === ty && <scoped to the batch>).sort(by id)] *)
Definition scopedSubjects {L : Locale} (ty : SubjectType) (batch : Batch.t)
    (subjects : list Subject.t) : list Subject.t :=
  sortBy (fun a b => localeCompare (Subject.id a) (Subject.id b))
    (filter (fun s => SubjectType_eqb (Subject.type s) ty &&
                      String.eqb (Subject.departmentId s) (Batch.departmentId batch) &&
                      (Subject.semester s =? Batch.semester batch)) subjects).

(** [faculty.filter(f => f.assignedTheorySubjects.includes(subject.id)).sort(by id)[0]] *)
Definition firstTheoryFaculty {L : Locale} (faculty : list Faculty.t)
    (subject : Subject.t) : option Faculty.t :=
  hd_error
    (sortBy (fun a b => localeCompare (Faculty.id a) (Faculty.id b))
       (filter (fun f => includes (Faculty.assignedTheorySubjects f) (Subject.id subject))
               faculty)).

Section Phases.
Context {L : Locale}.
Variable batch : Batch.t.
Variable faculty : list Faculty.t.
Variable classrooms : list Classroom.t.
Variable existingEntries : list Entry.t.

(** Step 4, the callback of [mandatorySubjects.forEach]. *)
Definition placeMandatorySubject (index : nat) (subject : Subject.t) (acc : Placement)
  : Gen Placement :=
  let allowedDays : list Z := [0; 1] in
  let period := 3 in
  if (length allowedDays <=? index)%nat then
    ret (note acc (explain WARNING SCHEDULER
           ("Cannot place mandatory subject " +++ quoted (Subject.name subject) +++
            " - no available slots (Period 3, Mon/Tue).")
           (Some (Subject.id subject)) 4))
  else
    let day := nth index allowedDays 0 in
    let combinedEntries := existingEntries ++ placed acc in
    if negb (isSlotAvailable combinedEntries (Batch.id batch) day period) then
      ret (note acc (explain WARNING SCHEDULER
             ("Slot for mandatory " +++ quoted (Subject.name subject) +++ " (Day " +++
              showZ (day + 1) +++ ", Period 3) is occupied.")
             (Some (Subject.id subject)) 4))
    else
      match firstTheoryFaculty faculty subject with
      | None =>
          ret (note acc (explain ERROR SCHEDULER
                 ("No faculty assigned to mandatory subject " +++
                  quoted (Subject.name subject) +++ ".")
                 (Some (Subject.id subject)) 4))
      | Some assignedFaculty =>
          if negb (isFacultyAvailable combinedEntries (Faculty.id assignedFaculty)
                     day period) then
            ret (note acc (explain WARNING SCHEDULER
                   ("Faculty " +++ quoted (Faculty.name assignedFaculty) +++
                    " is unavailable for mandatory " +++
                    quoted (Subject.name subject) +++ " (Day " +++ showZ (day + 1) +++
                    ", Period 3).")
                   (Some (Subject.id subject)) 4))
          else
            let classroom :=
              find (fun c => isRoomAvailable combinedEntries (Classroom.id c) day period)
                (sortBy (fun a b => localeCompare (Classroom.id a) (Classroom.id b))
                   (filter (fun c =>
                      String.eqb (Classroom.departmentId c) (Batch.departmentId batch) &&
                      (Batch.totalStudents batch <=? Classroom.capacity c))
                      classrooms)) in
            match classroom with
            | None =>
                ret (note acc (explain ERROR SCHEDULER
                       ("No available classroom with sufficient capacity for batch " +++
                        quoted (Batch.name batch) +++ " at Day " +++ showZ (day + 1) +++
                        ", Period 3.")
                       (Some (Batch.id batch)) 4))
            | Some classroom =>
                e <- placeTheoryEntry batch subject (Faculty.id assignedFaculty)
                       (Classroom.id classroom) day period ;;
                ret (mkPlacement (placed acc ++ [e])
                       (notes acc ++
                        [explain INFO SCHEDULER
                           ("Placed mandatory " +++ quoted (Subject.name subject) +++
                            " on Day " +++ showZ (day + 1) +++ ", Period 3.")
                           (Some (Subject.id subject)) 4]))
            end
      end.

Definition placeMandatorySubjects (subjects : list Subject.t) : Gen Placement :=
  let mandatorySubjects := scopedSubjects MANDATORY batch subjects in
  forEach placeMandatorySubject mandatorySubjects (mkPlacement [] []).

(** Step 6, the callback of [openElectives.forEach]. *)
Definition placeOpenElective (index : nat) (subject : Subject.t) (acc : Placement)
  : Gen Placement :=
  let allowedDays : list Z := [0; 1; 2] in
  let period := 1 in
  if (length allowedDays <=? index)%nat then
    ret (note acc (explain WARNING SCHEDULER
           ("Cannot place open elective " +++ quoted (Subject.name subject) +++
            " - no available slots (Period 1, Mon-Wed).")
           (Some (Subject.id subject)) 6))
  else
    let day := nth index allowedDays 0 in
    let combinedEntries := existingEntries ++ placed acc in
    if negb (isSlotAvailable combinedEntries (Batch.id batch) day period) then
      ret (note acc (explain WARNING SCHEDULER
             ("Slot for open elective " +++ quoted (Subject.name subject) +++ " (Day " +++
              showZ (day + 1) +++ ", Period 1) is occupied.")
             (Some (Subject.id subject)) 6))
    else
      match firstTheoryFaculty faculty subject with
      | None => ret acc
      | Some assignedFaculty =>
          if negb (isFacultyAvailable combinedEntries (Faculty.id assignedFaculty)
                     day period) then
            ret (note acc (explain WARNING SCHEDULER
                   ("Faculty unavailable for open elective " +++
                    quoted (Subject.name subject) +++ " (Day " +++ showZ (day + 1) +++
                    ", Period 1).")
                   (Some (Subject.id subject)) 6))
          else
            let classroom :=
              find (fun c => isRoomAvailable combinedEntries (Classroom.id c) day period)
                (sortBy (fun a b => localeCompare (Classroom.id a) (Classroom.id b))
                   (filter (fun c =>
                      String.eqb (Classroom.departmentId c) (Batch.departmentId batch))
                      classrooms)) in
            match classroom with
            | None => ret acc
            | Some classroom =>
                e <- placeTheoryEntry batch subject (Faculty.id assignedFaculty)
                       (Classroom.id classroom) day period ;;
                ret (mkPlacement (placed acc ++ [e])
                       (notes acc ++
                        [explain INFO SCHEDULER
                           ("Placed open elective " +++ quoted (Subject.name subject) +++
                            " on Day " +++ showZ (day + 1) +++ ", Period 1.")
                           (Some (Subject.id subject)) 6]))
            end
      end.

Definition placeOpenElectives (subjects : list Subject.t) : Gen Placement :=
  let openElectives := scopedSubjects OPEN_ELECTIVE batch subjects in
  forEach placeOpenElective openElectives (mkPlacement [] []).
End Phases.

(** The variables of the round-robin [while] loop of step 5. *)
Record TheoryCursor := mkCursor {
  placedCount : nat;
  periodIndex : nat;
  dayIndex : nat;
  attempts : nat;
  cursorEntries : list Entry.t
}.

(** What [theorySubjects.forEach] carries from subject to subject. *)
Record TheoryState := mkTheoryState {
  globalDayIndex : nat;
  theoryPlacement : Placement
}.

Definition sortedWorkingDays : list Z := sortBy (fun a b => a - b) WORKING_DAYS.

Section Theory.
Context {L : Locale}.
Variable batch : Batch.t.
Variable faculty : list Faculty.t.
Variable classrooms : list Classroom.t.
Variable existingEntries : list Entry.t.

Definition theoryPeriodList : list Z := [2; 4; 5; 6; 7].

(** The [while] loop. [attempts] grows by one per iteration and the loop
    stops at [maxAttempts], so [fuel = maxAttempts] is never used up
    (lemma [theoryLoop_fuel] below). *)
Fixpoint theoryLoop (fuel : nat) (subject : Subject.t) (assignedFaculty : Faculty.t)
    (classroom : Classroom.t) (periodsToPlace : Z) (maxAttempts : nat)
    (st : TheoryCursor) : Gen TheoryCursor :=
  match fuel with
  | O => ret st
  | S fuel' =>
      if (Z.of_nat (placedCount st) <? periodsToPlace) &&
         (attempts st <? maxAttempts)%nat
      then
        let sortedDays := sortedWorkingDays in
        let day := nth (dayIndex st mod length sortedDays)%nat sortedDays 0 in
        let period :=
          nth (periodIndex st mod length theoryPeriodList)%nat theoryPeriodList 0 in
        let combinedEntries := existingEntries ++ cursorEntries st in
        st1 <-
          (if isSlotAvailable combinedEntries (Batch.id batch) day period &&
              isFacultyAvailable combinedEntries (Faculty.id assignedFaculty) day period &&
              isRoomAvailable combinedEntries (Classroom.id classroom) day period
           then
             e <- placeTheoryEntry batch subject (Faculty.id assignedFaculty)
                    (Classroom.id classroom) day period ;;
             ret (mkCursor (S (placedCount st)) (periodIndex st) (S (dayIndex st))
                    (attempts st) (cursorEntries st ++ [e]))
           else ret st) ;;
        let periodIndex' := S (periodIndex st1) in
        let dayIndex' :=
          if (periodIndex' mod length theoryPeriodList =? 0)%nat
          then S (dayIndex st1) else dayIndex st1 in
        theoryLoop fuel' subject assignedFaculty classroom periodsToPlace maxAttempts
          (mkCursor (placedCount st1) periodIndex' dayIndex' (S (attempts st1))
             (cursorEntries st1))
      else ret st
  end.

(** Step 5, the callback of [theorySubjects.forEach]. *)
Definition distributeTheorySubject (_ : nat) (subject : Subject.t) (st : TheoryState)
  : Gen TheoryState :=
  let acc := theoryPlacement st in
  let periodsToPlace := Subject.periodsPerWeek subject in
  match firstTheoryFaculty faculty subject with
  | None =>
      ret (mkTheoryState (globalDayIndex st)
             (note acc (explain ERROR SCHEDULER
                ("No faculty assigned to theory subject " +++
                 quoted (Subject.name subject) +++ ".")
                (Some (Subject.id subject)) 5)))
  | Some assignedFaculty =>
      let classroom :=
        hd_error
          (sortBy (fun a b => localeCompare (Classroom.id a) (Classroom.id b))
             (filter (fun c =>
                String.eqb (Classroom.departmentId c) (Batch.departmentId batch) &&
                (Batch.totalStudents batch <=? Classroom.capacity c)) classrooms)) in
      match classroom with
      | None => ret st
      | Some classroom =>
          let maxAttempts :=
            (length sortedWorkingDays * length theoryPeriodList * 2)%nat in
          cur <- theoryLoop maxAttempts subject assignedFaculty classroom periodsToPlace
                   maxAttempts (mkCursor 0 0 (globalDayIndex st) 0 (placed acc)) ;;
          let placedCount := Z.of_nat (placedCount cur) in
          ret (mkTheoryState (dayIndex cur)
                 (mkPlacement (cursorEntries cur)
                    (notes acc ++
                     [if placedCount <? periodsToPlace
                      then explain WARNING SCHEDULER
                             ("Could only place " +++ showZ placedCount +++ "/" +++
                              showZ periodsToPlace +++ " periods for " +++
                              quoted (Subject.name subject) +++ ".")
                             (Some (Subject.id subject)) 5
                      else explain INFO SCHEDULER
                             ("Placed " +++ showZ placedCount +++
                              " periods for theory " +++
                              quoted (Subject.name subject) +++ ".")
                             (Some (Subject.id subject)) 5])))
      end
  end.

Definition distributeTheorySubjects (subjects : list Subject.t) : Gen Placement :=
  let theorySubjects := scopedSubjects THEORY batch subjects in
  st <- forEach distributeTheorySubject theorySubjects
          (mkTheoryState 0 (mkPlacement [] [])) ;;
  ret (theoryPlacement st).

(** Step 7. The two nested [for] loops return at the first free slot:
    the first free pair of the days-by-periods product, days outermost. *)
Definition autoFillLibrary (subjects : list Subject.t) : Gen Placement :=
  match hd_error (scopedSubjects LIBRARY batch subjects) with
  | None => ret (mkPlacement [] [])
  | Some librarySubject =>
      let sortedDays := sortedWorkingDays in
      let periods : list Z := [1; 2; 4; 5; 6; 7] in
      match find (fun dp => isSlotAvailable existingEntries (Batch.id batch)
                              (fst dp) (snd dp))
                 (list_prod sortedDays periods) with
      | Some (day, period) =>
          i <- uuidv4 ;;
          now <- Date_now ;;
          ret (mkPlacement
                 [Entry.mk i (showZ day +++ "-" +++ showZ period) day period
                    (Subject.id librarySubject) EmptyString EmptyString (Batch.id batch)
                    None false None now]
                 [explain INFO SCHEDULER
                    ("Auto-filled Library on Day " +++ showZ (day + 1) +++ ", Period " +++
                     showZ period +++ ".")
                    (Some (Subject.id librarySubject)) 7])
      | None => ret (mkPlacement [] [])
      end
  end.
End Theory.

(** What steps 3 to 7 of [generateTimetable] leave behind. *)
Record Accumulated := mkAccumulated {
  labsAllocated : bool;                 (* labResult.success *)
  allEntries : list Entry.t;
  allRotations : list LabRotation.t;
  stepExplanations : list Explanation.t (* pushed by these steps, in order *)
}.

(** Steps 3 to 7 of [generateTimetable] for the batch found: every step
    extends [allEntries] and sees what the steps before it placed. When the
    lab allocator fails the later steps do not run. *)
Definition accumulateEntries {L : Locale} (infrastructure : InfrastructureState)
    (academic : AcademicState) (batch : Batch.t) (existingRotations : list LabRotation.t)
  : Gen Accumulated :=
  let allEntries : list Entry.t := [] in
  let allRotations := existingRotations in
  (* Step 3 *)
  let labSubjects :=
    filter (fun s => SubjectType_eqb (Subject.type s) LAB) (subjects academic) in
  let deptLabs :=
    filter (fun l => String.eqb (Lab.departmentId l) (Batch.departmentId batch))
           (labs infrastructure) in
  labResult <- allocateLabsForBatch batch labSubjects deptLabs (faculty academic)
                 allEntries allRotations ;;
  let allEntries := allEntries ++ labEntries labResult in
  let allRotations := allRotations ++ labRotations labResult in
  let explanations := labExplanations labResult in
  if negb (labSuccess labResult) then
    ret (mkAccumulated false allEntries allRotations explanations)
  else
    (* Step 4 *)
    mandatoryResult <- placeMandatorySubjects batch (faculty academic)
                         (classrooms infrastructure) allEntries (subjects academic) ;;
    let allEntries := allEntries ++ placed mandatoryResult in
    let explanations := explanations ++ notes mandatoryResult in
    (* Step 5 *)
    theoryResult <- distributeTheorySubjects batch (faculty academic)
                      (classrooms infrastructure) allEntries (subjects academic) ;;
    let allEntries := allEntries ++ placed theoryResult in
    let explanations := explanations ++ notes theoryResult in
    (* Step 6 *)
    electiveResult <- placeOpenElectives batch (faculty academic)
                        (classrooms infrastructure) allEntries (subjects academic) ;;
    let allEntries := allEntries ++ placed electiveResult in
    let explanations := explanations ++ notes electiveResult in
    (* Step 7 *)
    libraryResult <- autoFillLibrary batch allEntries (subjects academic) ;;
    let allEntries := allEntries ++ placed libraryResult in
    let explanations := explanations ++ notes libraryResult in
    ret (mkAccumulated true allEntries allRotations explanations).

(** The comparator of the final sort: by day, then by period. *)
Definition byDayThenPeriod (a b : Entry.t) : Z :=
  if negb (Entry.day a =? Entry.day b) then Entry.day a - Entry.day b
  else Entry.period a - Entry.period b.

Definition generateTimetable {L : Locale} (infrastructure : InfrastructureState)
    (academic : AcademicState) (batchId : string) (existingRotations : list LabRotation.t)
  : Gen GenerationResult.t :=
  (* Step 1 *)
  let validation := validateAll infrastructure academic in
  let explanations := vExplanations validation in
  if negb (isValid validation) then
    ret (GenerationResult.mk false None explanations)
  else
    let explanations :=
      explanations ++
      [explain INFO VALIDATOR "All inputs validated successfully." None 1] in
    match find (fun b => String.eqb (Batch.id b) batchId) (batches academic) with
    | None =>
        ret (GenerationResult.mk false None
               (explanations ++
                [explain ERROR SCHEDULER
                   ("Batch with ID " +++ quoted batchId +++ " not found.") None 2]))
    | Some batch =>
        (* Step 2 *)
        let explanations :=
          explanations ++
          [explain INFO SCHEDULER "Academic time structure locked." None 2] in
        (* Steps 3 to 7 *)
        acc <- accumulateEntries infrastructure academic batch existingRotations ;;
        let explanations := explanations ++ stepExplanations acc in
        if negb (labsAllocated acc) then
          ret (GenerationResult.mk false None explanations)
        else
          let allEntries := allEntries acc in
          (* Step 8 *)
          let workloadExplanations :=
            validateWorkload (faculty academic) (subjects academic) allEntries in
          let explanations := explanations ++ workloadExplanations in
          if hasWorkloadViolation (faculty academic) (subjects academic) allEntries then
            ret (GenerationResult.mk false None
                   (explanations ++
                    [explain ERROR WORKLOAD
                       "Faculty workload limits exceeded. Generation failed." None 8]))
          else
            (* Step 9 *)
            let explanations :=
              explanations ++
              [explain INFO SCHEDULER
                 "Final validation passed. No constraint violations." None 9] in
            (* Step 10 *)
            i <- uuidv4 ;;
            let sorted := sortBy byDayThenPeriod allEntries in
            now <- Date_now ;;
            let timetable := Timetable.mk i (Batch.id batch) sorted now true in
            ret (GenerationResult.mk true (Some timetable)
                   (explanations ++
                    [explain INFO SCHEDULER
                       ("Timetable generated successfully for batch " +++
                        quoted (Batch.name batch) +++ " with " +++
                        showZ (Z.of_nat (length sorted)) +++ " entries.")
                       None 10]))
    end.

(* ------------------------------------------------------------------ *)
(** ** Sub-batch splitting (src/store/slices/academicSlice.ts) *)

(** [Math.ceil(a / b)] for integers and [b] not zero. *)
Definition ceilDiv (a b : Z) : Z := - ((- a) / b).

(** The [for] loop: [n] iterations are left, [i] is the loop variable. *)
Fixpoint subBatchLoop (n i : nat) (labCapacity remainingStudents : Z)
    (subBatches : list SubBatch.t) : Gen (list SubBatch.t) :=
  match n with
  | O => ret subBatches
  | S n' =>
      let count := Z.min labCapacity remainingStudents in
      u <- uuidv4 ;;
      subBatchLoop n' (S i) labCapacity (remainingStudents - count)
        (subBatches ++ [SubBatch.mk u ("A" +++ showZ (Z.of_nat i + 1)) count])
  end.

(** [None] stands for the call that never returns: with a capacity of 0
    below the student count, [numSubBatches] is Infinity and the loop
    pushes sub-batches for ever. *)
Definition calculateSubBatches (totalStudents labCapacity : Z)
  : Gen (option (list SubBatch.t)) :=
  if totalStudents <=? labCapacity then
    u <- uuidv4 ;;
    ret (Some [SubBatch.mk u "A" totalStudents])
  else if labCapacity =? 0 then ret None
  else
    let numSubBatches := ceilDiv totalStudents labCapacity in
    subBatches <- subBatchLoop (Z.to_nat numSubBatches) 0 labCapacity totalStudents [] ;;
    ret (Some subBatches).

(* ------------------------------------------------------------------ *)
(** ** Time structure (src/constants/timeStructure.ts) *)

Module PeriodInfo.
Record t := mk {
  period : Z;
  startTime : string;
  endTime : string;
  isBreak : option bool;
  isLunch : option bool;
  isSpecial : option bool      (* period 8: Honors/Minors only *)
}.
End PeriodInfo.

Definition PERIOD_SCHEDULE : list PeriodInfo.t :=
  [ PeriodInfo.mk 1 "08:30" "09:20" None None None;
    PeriodInfo.mk 2 "09:20" "10:10" None None None;
    PeriodInfo.mk 3 "10:25" "11:15" None None None;
    PeriodInfo.mk 4 "11:15" "12:05" None None None;
    PeriodInfo.mk 5 "12:45" "13:35" None None None;
    PeriodInfo.mk 6 "13:35" "14:25" None None None;
    PeriodInfo.mk 7 "14:25" "15:15" None None None;
    PeriodInfo.mk 8 "15:15" "16:15" None None (Some true) ].

(** [{ startTime, endTime }] *)
Definition BREAK_TIME : string * string := ("10:10", "10:25").
Definition LUNCH_TIME : string * string := ("12:05", "12:45").

Definition getPeriodInfo (period : Z) : option PeriodInfo.t :=
  find (fun p => PeriodInfo.period p =? period) PERIOD_SCHEDULE.

(** [xs[i] === ys[i]], an index out of range reading as undefined. *)
Definition sameAt (i : nat) (xs ys : list Z) : bool :=
  match nth_error xs i, nth_error ys i with
  | Some x, Some y => x =? y
  | None, None => true
  | _, _ => false
  end.

Definition isLabSlotA (periods : list Z) : bool :=
  (length periods =? 3)%nat &&
  sameAt 0 periods LAB_SLOT_A && sameAt 1 periods LAB_SLOT_A && sameAt 2 periods LAB_SLOT_A.

Definition isLabSlotB (periods : list Z) : bool :=
  (length periods =? 3)%nat &&
  sameAt 0 periods LAB_SLOT_B && sameAt 1 periods LAB_SLOT_B && sameAt 2 periods LAB_SLOT_B.

Definition formatPeriodTime (period : Z) : string :=
  match getPeriodInfo period with
  | Some info => PeriodInfo.startTime info +++ " - " +++ PeriodInfo.endTime info
  | None => EmptyString
  end.

(** [getPeriodInfo(periods[i])]; no period at [i], no info. *)
Definition periodInfoAt (periods : list Z) (i : nat) : option PeriodInfo.t :=
  match nth_error periods i with
  | Some period => getPeriodInfo period
  | None => None
  end.

Definition getLabSlotLabel (slot : LabSlot) : string :=
  let periods := match slot with SlotA => LAB_SLOT_A | SlotB => LAB_SLOT_B end in
  let start := periodInfoAt periods 0 in
  let end_ := periodInfoAt periods (length periods - 1) in
  match start, end_ with
  | Some start, Some end_ => PeriodInfo.startTime start +++ " - " +++ PeriodInfo.endTime end_
  | _, _ => EmptyString
  end.

(* ------------------------------------------------------------------ *)
(** ** Placement constraints (src/constants/constraints.ts) *)

Definition MANDATORY_COURSE_CONSTRAINTS : SubjectConstraints :=
  mkConstraints (Some [3]) (Some [0; 1]) None.

Definition OPEN_ELECTIVE_CONSTRAINTS : SubjectConstraints :=
  mkConstraints (Some [1]) (Some [0; 1; 2]) None.

Definition LIBRARY_CONSTRAINTS : SubjectConstraints :=
  mkConstraints None None (Some 1).

Definition getDefaultConstraints (type : SubjectType) : SubjectConstraints :=
  match type with
  | MANDATORY => MANDATORY_COURSE_CONSTRAINTS
  | OPEN_ELECTIVE => OPEN_ELECTIVE_CONSTRAINTS
  | LIBRARY => LIBRARY_CONSTRAINTS
  | _ => mkConstraints None None None
  end.

(** [Array.prototype.includes] on number arrays. *)
Definition includesZ (l : list Z) (x : Z) : bool := existsb (Z.eqb x) l.

(** [constraints] is the optional fourth argument: left out, it is the
    default of the type. *)
Definition isValidSlotForSubject (type : SubjectType) (day period : Z)
    (constraints : option SubjectConstraints) : bool :=
  let constraints :=
    match constraints with
    | Some given => given
    | None => getDefaultConstraints type
    end in
  if match allowedPeriods constraints with
     | Some periods => negb (includesZ periods period)
     | None => false
     end
  then false
  else if match allowedDays constraints with
          | Some days => negb (includesZ days day)
          | None => false
          end
  then false
  else if period =? 8 then false
  else true.

(* ================================================================== *)
(** * Part II: notions used by the statements *)
(* ================================================================== *)

(** ** Results of [Gen] computations *)

(** [P] holds of the result whatever the outside source answers. *)
Definition post {A} (c : Gen A) (P : A -> Prop) : Prop := forall w, P (fst (c w)).

(** ** Conflicts between entries *)

Definition sameSlot (e1 e2 : Entry.t) : Prop :=
  Entry.day e1 = Entry.day e2 /\ Entry.period e1 = Entry.period e2.

Definition batchClash (e1 e2 : Entry.t) : Prop :=
  Entry.batchId e1 = Entry.batchId e2 /\ sameSlot e1 e2.

Definition facultyClash (e1 e2 : Entry.t) : Prop :=
  Entry.facultyId e1 <> EmptyString /\
  Entry.facultyId e1 = Entry.facultyId e2 /\ sameSlot e1 e2.

Definition roomClash (e1 e2 : Entry.t) : Prop :=
  Entry.roomId e1 <> EmptyString /\
  Entry.roomId e1 = Entry.roomId e2 /\ sameSlot e1 e2.

(** [P] holds of every two entries at different positions of the list. *)
Definition everyTwo (es : list Entry.t) (P : Entry.t -> Entry.t -> Prop) : Prop :=
  forall i j e1 e2, i <> j -> nth_error es i = Some e1 -> nth_error es j = Some e2 ->
    P e1 e2.

Definition conflictFree (es : list Entry.t) : Prop :=
  everyTwo es (fun e1 e2 =>
    ~ batchClash e1 e2 /\ ~ facultyClash e1 e2 /\ ~ roomClash e1 e2).

(** Entries of one lab session held in parallel for several sub-batches. *)
Definition parallelLab (e1 e2 : Entry.t) : Prop :=
  Entry.isLabSession e1 = true /\ Entry.isLabSession e2 = true /\
  Entry.subjectId e1 = Entry.subjectId e2 /\ Entry.labSlot e1 = Entry.labSlot e2.

(** The batch generation runs for is split into more than one sub-batch. *)
Definition splitBatchTarget (academic : AcademicState) (batchId : string) : Prop :=
  exists batch,
    find (fun b => String.eqb (Batch.id b) batchId) (batches academic) = Some batch /\
    (1 < length (Batch.subBatches batch))%nat.

(** ** Erasing what the outside source supplied *)

Definition eraseEntry (e : Entry.t) : Entry.t :=
  Entry.mk EmptyString (Entry.slotId e) (Entry.day e) (Entry.period e)
    (Entry.subjectId e) (Entry.facultyId e) (Entry.roomId e) (Entry.batchId e)
    (Entry.subBatchId e) (Entry.isLabSession e) (Entry.labSlot e) 0.

Definition eraseTimetable (t : Timetable.t) : Timetable.t :=
  Timetable.mk EmptyString (Timetable.batchId t) (map eraseEntry (Timetable.entries t))
    0 (Timetable.isValid t).

Definition eraseResult (r : GenerationResult.t) : GenerationResult.t :=
  GenerationResult.mk (GenerationResult.success r)
    (option_map eraseTimetable (GenerationResult.timetable r))
    (GenerationResult.explanations r).

(** ** Lab slots *)

Definition slotPeriods (s : LabSlot) : list Z :=
  match s with SlotA => [2; 3; 4] | SlotB => [5; 6; 7] end.

(** None of the periods of the slot is occupied for the batch on that day. *)
Definition slotFree (entries : list Entry.t) (batchId : string) (day : Z) (s : LabSlot)
  : Prop :=
  forall e, In e entries -> Entry.batchId e = batchId -> Entry.day e = day ->
    ~ In (Entry.period e) (slotPeriods s).

Definition isErrorAt (src : ExplanationSource) (step : Z) (e : Explanation.t) : Prop :=
  Explanation.level e = ERROR /\ Explanation.source e = src /\
  Explanation.step e = Some step.

(** The lab allocator gave up before placing anything. *)
Definition labAborted (r : LabAllocationResult) : Prop :=
  labSuccess r = false /\ labEntries r = [] /\ labRotations r = [] /\
  exists e, labExplanations r = [e] /\ isErrorAt LAB_ALLOCATOR 3 e.

(** ** Workload *)

(** The number of elements that satisfy [p]. *)
Fixpoint countIf {A} (p : A -> bool) (l : list A) : nat :=
  match l with
  | [] => 0
  | x :: xs => ((if p x then 1 else 0) + countIf p xs)%nat
  end.

(** The (day, labSlot) pair of an entry. *)
Definition sessionPair (e : Entry.t) : Z * option LabSlot :=
  (Entry.day e, Entry.labSlot e).

Definition sessionPair_dec (a b : Z * option LabSlot) : {a = b} + {a <> b}.
Proof.
  decide equality; [decide equality; decide equality|apply Z.eq_dec].
Defined.

(** The number of distinct (day, labSlot) pairs among the entries. *)
Definition distinctSessions (es : list Entry.t) : nat :=
  length (nodup sessionPair_dec (map sessionPair es)).

(** The entries the workload of a faculty member is counted from. *)
Definition theoryEntriesOf (f : Faculty.t) (es : list Entry.t) : nat :=
  countIf (fun e => String.eqb (Entry.facultyId e) (Faculty.id f) &&
                    negb (Entry.isLabSession e)) es.

Definition labEntriesOf (f : Faculty.t) (es : list Entry.t) : list Entry.t :=
  filter (fun e => String.eqb (Entry.facultyId e) (Faculty.id f) &&
                   Entry.isLabSession e) es.

(** The designation limits are exceeded by these counts. *)
Definition exceedsLimits (d : FacultyDesignation) (theory labs : nat) : Prop :=
  (limTheoryPeriods (FACULTY_WORKLOAD_LIMITS d) < inject_Z (Z.of_nat theory))%Q \/
  (limLabSessions (FACULTY_WORKLOAD_LIMITS d) < inject_Z (Z.of_nat labs))%Q.

(** The comparison orders all strings: transitive and total. *)
Definition totalPreorder (L : Locale) : Prop :=
  (forall a b c, localeCompare a b <= 0 -> localeCompare b c <= 0 ->
     localeCompare a c <= 0) /\
  (forall a b, localeCompare a b <= 0 \/ localeCompare b a <= 0).

Definition byFacultyId {L : Locale} (f g : Faculty.t) : Prop :=
  localeCompare (Faculty.id f) (Faculty.id g) <= 0.

(** ** Sub-batches *)

Definition studentCounts (l : list SubBatch.t) : list Z := map SubBatch.studentCount l.

Definition sumZ (l : list Z) : Z := fold_right Z.add 0 l.

(** ** Placement preconditions *)

(** Some entry holds the key at the slot. *)
Definition occupiedBy (key : Entry.t -> string) (x : string) (day period : Z)
    (es : list Entry.t) : Prop :=
  exists e, In e es /\ key e = x /\ Entry.day e = day /\ Entry.period e = period.

Definition isWarningAt (src : ExplanationSource) (step : Z) (e : Explanation.t) : Prop :=
  Explanation.level e = WARNING /\ Explanation.source e = src /\
  Explanation.step e = Some step.

(** The phase skipped the subject and logged one WARNING. *)
Definition skippedWithWarning (step : Z) (before after : Placement) : Prop :=
  placed after = placed before /\
  exists e, notes after = notes before ++ [e] /\ isWarningAt SCHEDULER step e.

(** ** Invariants of a generation run *)

(** Two entries may meet in a slot only as parallel lab entries of a split
    batch, and then with different faculty. *)
Definition compatible (split : Prop) (e1 e2 : Entry.t) : Prop :=
  sameSlot e1 e2 ->
  Entry.facultyId e1 <> Entry.facultyId e2 /\ parallelLab e1 e2 /\ split.

Definition isSplit (batch : Batch.t) : Prop := (1 < length (Batch.subBatches batch))%nat.

(** All entries are the batch's and any two of them are compatible. *)
Definition placementInv (batch : Batch.t) (es : list Entry.t) : Prop :=
  Forall (fun e => Entry.batchId e = Batch.id batch) es /\
  ForallOrdPairs (compatible (isSplit batch)) es.

(** Where the type of a subject allows its entries. *)
Definition slotRule (ty : SubjectType) (e : Entry.t) : Prop :=
  match ty with
  | MANDATORY => Entry.period e = 3 /\ (Entry.day e = 0 \/ Entry.day e = 1)
  | OPEN_ELECTIVE =>
      Entry.period e = 1 /\ (Entry.day e = 0 \/ Entry.day e = 1 \/ Entry.day e = 2)
  | _ => True
  end.

(** The entry was placed for a subject of the snapshot of type [ty], where
    that type allows. *)
Definition placedAs (subjects : list Subject.t) (ty : SubjectType) (e : Entry.t) : Prop :=
  exists s, In s subjects /\ Subject.id s = Entry.subjectId e /\
            Subject.type s = ty /\ slotRule ty e.

Definition placedBeforeLibrary (subjects : list Subject.t) (e : Entry.t) : Prop :=
  exists ty, ty <> LIBRARY /\ placedAs subjects ty e.

(** An entry of the lab session of [subject] in [slot]. *)
Definition sessionEntry (batch : Batch.t) (subject : Subject.t) (slot : LabSession)
    (e : Entry.t) : Prop :=
  Entry.day e = sessionDay slot /\ In (Entry.period e) (sessionPeriods slot) /\
  Entry.subjectId e = Subject.id subject /\ Entry.batchId e = Batch.id batch /\
  Entry.isLabSession e = true /\ Entry.labSlot e = Some (sessionSlot slot).

(** The entry is for a subject of type [ty] of the snapshot. *)
Definition entryOfType (subjects : list Subject.t) (ty : SubjectType) (e : Entry.t) : bool :=
  existsb (fun s => String.eqb (Subject.id s) (Entry.subjectId e) &&
                    SubjectType_eqb (Subject.type s) ty) subjects.

(** What [labEntry] fixes of the entry it builds. *)
Definition labEntryFields (batch : Batch.t) (subject : Subject.t) (f : Faculty.t)
    (slot : LabSession) (period : Z) (e : Entry.t) : Prop :=
  Entry.day e = sessionDay slot /\ Entry.period e = period /\
  Entry.subjectId e = Subject.id subject /\ Entry.facultyId e = Faculty.id f /\
  Entry.batchId e = Batch.id batch /\ Entry.isLabSession e = true /\
  Entry.labSlot e = Some (sessionSlot slot).

(** What [placeTheoryEntry] fixes of the entry it builds. *)
Definition theoryEntryFields (batch : Batch.t) (subject : Subject.t)
    (facultyId classroomId : string) (day period : Z) (e : Entry.t) : Prop :=
  Entry.day e = day /\ Entry.period e = period /\
  Entry.subjectId e = Subject.id subject /\ Entry.facultyId e = facultyId /\
  Entry.roomId e = classroomId /\ Entry.batchId e = Batch.id batch /\
  Entry.isLabSession e = false.

(** What holds of the allocator's entries while a session is filled:
    whatever lies in the slot belongs to this session. *)
Definition sessionInv (subjects : list Subject.t) (batch : Batch.t)
    (existingEntries : list Entry.t) (subject : Subject.t) (slot : LabSession)
    (acc : LabAcc) : Prop :=
  placementInv batch (existingEntries ++ accEntries acc) /\
  (forall e, In e (existingEntries ++ accEntries acc) ->
     Entry.day e = sessionDay slot -> In (Entry.period e) (sessionPeriods slot) ->
     sessionEntry batch subject slot e) /\
  Forall (placedAs subjects LAB) (accEntries acc).

(** What a placement phase for subjects of type [ty] keeps. *)
Definition phaseInv (subjects : list Subject.t) (batch : Batch.t)
    (existingEntries : list Entry.t) (ty : SubjectType) (es : list Entry.t) : Prop :=
  placementInv batch (existingEntries ++ es) /\ Forall (placedAs subjects ty) es.

(** What steps 3 to 7 leave: compatible entries of the batch, the library
    entry, if any, last. *)
Definition accumulatedInv (subjects : list Subject.t) (batch : Batch.t)
    (es : list Entry.t) : Prop :=
  placementInv batch es /\
  exists before library,
    es = before ++ library /\
    Forall (placedBeforeLibrary subjects) before /\
    Forall (placedAs subjects LIBRARY) library /\
    (length library <= 1)%nat.

(** ** Two runs side by side *)

(** The same entries, up to what the outside source supplied. *)
Definition sameEntries (es1 es2 : list Entry.t) : Prop :=
  map eraseEntry es1 = map eraseEntry es2.

(** Whatever the two sources answer, the results are related. *)
Definition agree {A} (R : A -> A -> Prop) (c1 c2 : Gen A) : Prop :=
  forall w1 w2, R (fst (c1 w1)) (fst (c2 w2)).

Definition sameAcc (a1 a2 : LabAcc) : Prop :=
  sameEntries (accEntries a1) (accEntries a2) /\
  accRotations a1 = accRotations a2 /\ accExplanations a1 = accExplanations a2.

Definition sameLoop (s1 s2 : LabLoopState) : Prop :=
  sessionNumber s1 = sessionNumber s2 /\ usedSlots s1 = usedSlots s2 /\
  subjectIndex s1 = subjectIndex s2 /\ sameAcc (loopAcc s1) (loopAcc s2).

Definition sameLabResult (r1 r2 : LabAllocationResult) : Prop :=
  sameEntries (labEntries r1) (labEntries r2) /\
  labRotations r1 = labRotations r2 /\ labExplanations r1 = labExplanations r2 /\
  labSuccess r1 = labSuccess r2.

Definition samePlacement (p1 p2 : Placement) : Prop :=
  sameEntries (placed p1) (placed p2) /\ notes p1 = notes p2.

Definition sameCursor (c1 c2 : TheoryCursor) : Prop :=
  placedCount c1 = placedCount c2 /\ periodIndex c1 = periodIndex c2 /\
  dayIndex c1 = dayIndex c2 /\ attempts c1 = attempts c2 /\
  sameEntries (cursorEntries c1) (cursorEntries c2).

Definition sameTheoryState (t1 t2 : TheoryState) : Prop :=
  globalDayIndex t1 = globalDayIndex t2 /\
  samePlacement (theoryPlacement t1) (theoryPlacement t2).

Definition sameAccumulated (a1 a2 : Accumulated) : Prop :=
  labsAllocated a1 = labsAllocated a2 /\ sameEntries (allEntries a1) (allEntries a2) /\
  allRotations a1 = allRotations a2 /\ stepExplanations a1 = stepExplanations a2.

(** ** Termination of the loops *)

(** The twelve (day, slot) pairs of a week. *)
Definition allLabSlots : list LabSession := getAvailableLabSlots [] EmptyString.

(** The pairs whose key is not yet in [usedSlots]. *)
Definition slotsLeft (used : list string) : nat :=
  length (filter (fun s => negb (includes used (slotKey s))) allLabSlots).

(** ** Valid inputs *)

(** The weekly theory periods of the subjects assigned to a faculty member;
    an assigned id without a subject counts for nothing. *)
Definition assignedTheoryLoad (subjects : list Subject.t) (f : Faculty.t) : Z :=
  sumZ (map (fun subjectId =>
              match find (fun s => String.eqb (Subject.id s) subjectId) subjects with
              | Some subject => Subject.periodsPerWeek subject
              | None => 0
              end) (Faculty.assignedTheorySubjects f)).

(** Some faculty member is assigned the subject, as a lab for a LAB subject
    and as theory for every other type. *)
Definition hasTeacher (faculty : list Faculty.t) (s : Subject.t) : Prop :=
  exists f, In f faculty /\
    In (Subject.id s)
       (match Subject.type s with
        | LAB => Faculty.assignedLabSubjects f
        | _ => Faculty.assignedTheorySubjects f
        end).

(** The assignments of a faculty member stay within the designation limits. *)
Definition withinAssignedLimits (subjects : list Subject.t) (f : Faculty.t) : Prop :=
  (inject_Z (assignedTheoryLoad subjects f) <=
     limTheoryPeriods (FACULTY_WORKLOAD_LIMITS (Faculty.designation f)))%Q /\
  (inject_Z (Z.of_nat (length (Faculty.assignedLabSubjects f))) <=
     limLabSessions (FACULTY_WORKLOAD_LIMITS (Faculty.designation f)))%Q.

(** What the validator asks of a snapshot. *)
Definition validInput (infrastructure : InfrastructureState) (academic : AcademicState)
  : Prop :=
  blocks infrastructure <> [] /\ departments infrastructure <> [] /\
  classrooms infrastructure <> [] /\ labs infrastructure <> [] /\
  (forall c, In c (classrooms infrastructure) -> 0 < Classroom.capacity c) /\
  (forall l, In l (labs infrastructure) -> 0 < Lab.capacity l) /\
  batches academic <> [] /\
  (forall b, In b (batches academic) ->
     0 < Batch.totalStudents b /\
     exists d, In d (departments infrastructure) /\
               Department.id d = Batch.departmentId b) /\
  subjects academic <> [] /\ faculty academic <> [] /\
  (forall s, In s (subjects academic) -> hasTeacher (faculty academic) s) /\
  (forall f, In f (faculty academic) -> withinAssignedLimits (subjects academic) f).

Definition hasError (explanations : list Explanation.t) : bool :=
  existsb (fun e => isERROR (Explanation.level e)) explanations.

(** ** Order of the entries of a timetable *)

(** Earlier day, or the same day and no later period. *)
Definition dayPeriodLe (a b : Entry.t) : Prop :=
  Entry.day a < Entry.day b \/
  (Entry.day a = Entry.day b /\ Entry.period a <= Entry.period b).

(** The LAB subjects in the scope of a batch: its department and semester. *)
Definition labSubjectsOf (academic : AcademicState) (batch : Batch.t) : list Subject.t :=
  filter (fun s => SubjectType_eqb (Subject.type s) LAB &&
                   String.eqb (Subject.departmentId s) (Batch.departmentId batch) &&
                   (Subject.semester s =? Batch.semester batch)) (subjects academic).

(** ** What a generated entry refers to *)

(** [`${day}-${period}`] *)
Definition slotIdOf (e : Entry.t) : string :=
  showZ (Entry.day e) +++ "-" +++ showZ (Entry.period e).

(** The faculty of the entry is a faculty member of the snapshot to whom
    the subject is assigned, in the list [assigned] reads. *)
Definition taughtBy (academic : AcademicState) (assigned : Faculty.t -> list string)
    (s : Subject.t) (e : Entry.t) : Prop :=
  exists f, In f (faculty academic) /\ Faculty.id f = Entry.facultyId e /\
            In (Subject.id s) (assigned f).

(** The room of the entry is a classroom of the batch's department; [sized]
    adds that it holds the whole batch. *)
Definition inClassroom (infrastructure : InfrastructureState) (batch : Batch.t)
    (sized : bool) (e : Entry.t) : Prop :=
  exists c, In c (classrooms infrastructure) /\ Classroom.id c = Entry.roomId e /\
            Classroom.departmentId c = Batch.departmentId batch /\
            (sized = true -> Batch.totalStudents batch <= Classroom.capacity c).

(** The room of the entry is a lab of the batch's department. *)
Definition inLab (infrastructure : InfrastructureState) (batch : Batch.t) (e : Entry.t)
  : Prop :=
  exists l, In l (labs infrastructure) /\ Lab.id l = Entry.roomId e /\
            Lab.departmentId l = Batch.departmentId batch.

(** The sub-batch of a lab entry: none for a whole batch, one of the
    batch's sub-batches for a split batch. *)
Definition subBatchOf (batch : Batch.t) (e : Entry.t) : Prop :=
  match Entry.subBatchId e with
  | None => ~ isSplit batch
  | Some i => isSplit batch /\
              exists sb, In sb (Batch.subBatches batch) /\ SubBatch.id sb = i
  end.

(** Not a lab entry: no lab slot, no sub-batch. *)
Definition plainEntry (e : Entry.t) : Prop :=
  Entry.isLabSession e = false /\ Entry.labSlot e = None /\ Entry.subBatchId e = None.

(** What an entry placed for subject [s] is like, by the type of [s]. *)
Definition entryFor (infrastructure : InfrastructureState) (academic : AcademicState)
    (batch : Batch.t) (s : Subject.t) (e : Entry.t) : Prop :=
  match Subject.type s with
  | LAB =>
      Entry.isLabSession e = true /\
      (exists slot, Entry.labSlot e = Some slot /\ In (Entry.period e) (slotPeriods slot)) /\
      In (Entry.day e) WORKING_DAYS /\
      taughtBy academic Faculty.assignedLabSubjects s e /\
      inLab infrastructure batch e /\ subBatchOf batch e
  | THEORY =>
      plainEntry e /\ In (Entry.day e) WORKING_DAYS /\ In (Entry.period e) [2; 4; 5; 6; 7] /\
      taughtBy academic Faculty.assignedTheorySubjects s e /\
      inClassroom infrastructure batch true e
  | MANDATORY =>
      plainEntry e /\ In (Entry.day e) [0; 1] /\ Entry.period e = 3 /\
      taughtBy academic Faculty.assignedTheorySubjects s e /\
      inClassroom infrastructure batch true e
  | OPEN_ELECTIVE =>
      plainEntry e /\ In (Entry.day e) [0; 1; 2] /\ Entry.period e = 1 /\
      taughtBy academic Faculty.assignedTheorySubjects s e /\
      inClassroom infrastructure batch false e
  | LIBRARY =>
      plainEntry e /\ In (Entry.day e) WORKING_DAYS /\
      In (Entry.period e) [1; 2; 4; 5; 6; 7] /\
      Entry.facultyId e = EmptyString /\ Entry.roomId e = EmptyString
  end.

(** The entry is the batch's, its slot id spells its day and period, and it
    was placed for a subject of the batch's department and semester. *)
Definition wellFormedEntry (infrastructure : InfrastructureState)
    (academic : AcademicState) (batch : Batch.t) (e : Entry.t) : Prop :=
  Entry.batchId e = Batch.id batch /\ Entry.slotId e = slotIdOf e /\
  exists s, In s (subjects academic) /\ Subject.id s = Entry.subjectId e /\
            Subject.departmentId s = Batch.departmentId batch /\
            Subject.semester s = Batch.semester batch /\
            entryFor infrastructure academic batch s e.

(** ** Lab sessions as blocks *)

(** [e'] belongs to the lab session of [e]: everything but the period (and
    what the outside source supplied) is the same. *)
Definition sameSession (e e' : Entry.t) : Prop :=
  Entry.day e' = Entry.day e /\ Entry.subjectId e' = Entry.subjectId e /\
  Entry.facultyId e' = Entry.facultyId e /\ Entry.roomId e' = Entry.roomId e /\
  Entry.batchId e' = Entry.batchId e /\ Entry.subBatchId e' = Entry.subBatchId e /\
  Entry.labSlot e' = Entry.labSlot e /\ Entry.isLabSession e' = Entry.isLabSession e.

(** Every entry with a lab slot comes with an entry of its session in each
    period of the slot. *)
Definition blocksComplete (es : list Entry.t) : Prop :=
  forall e slot, In e es -> Entry.labSlot e = Some slot ->
    forall p, In p (slotPeriods slot) ->
      exists e', In e' es /\ sameSession e e' /\ Entry.period e' = p.

(** A lab entry of the batch sits in the slot. *)
Definition labAt (batchId : string) (day period : Z) (es : list Entry.t) : Prop :=
  exists e, In e es /\ Entry.batchId e = batchId /\ Entry.day e = day /\
            Entry.period e = period /\ Entry.isLabSession e = true.

(** What [labEntry] builds, but for the id and the time. *)
Definition labEntryOf (batch : Batch.t) (subject : Subject.t) (f : Faculty.t) (lab : Lab.t)
    (sb : option string) (slot : LabSession) (period : Z) (e : Entry.t) : Prop :=
  eraseEntry e =
  Entry.mk EmptyString (showZ (sessionDay slot) +++ "-" +++ showZ period)
    (sessionDay slot) period (Subject.id subject) (Faculty.id f) (Lab.id lab)
    (Batch.id batch) sb true (Some (sessionSlot slot)) 0.

(** ** How often a subject is placed *)

(** The entries placed for the subject with this id. *)
Definition entriesOf (subjectId : string) (es : list Entry.t) : nat :=
  countIf (fun e => String.eqb (Entry.subjectId e) subjectId) es.

(** ** Sub-batches of a parallel lab session *)

(** Entries of one lab session held in parallel for two different
    sub-batches. *)
Definition parallelSubBatches (e1 e2 : Entry.t) : Prop :=
  parallelLab e1 e2 /\
  exists i j, Entry.subBatchId e1 = Some i /\ Entry.subBatchId e2 = Some j /\ i <> j.

(** The sub-batches of the batch generation runs for have different ids. *)
Definition subBatchIdsDistinct (academic : AcademicState) (batchId : string) : Prop :=
  forall batch,
    find (fun b => String.eqb (Batch.id b) batchId) (batches academic) = Some batch ->
    NoDup (map SubBatch.id (Batch.subBatches batch)).

(** Two entries meet in a slot only when they are for different
    sub-batches. *)
Definition apart (e1 e2 : Entry.t) : Prop :=
  sameSlot e1 e2 ->
  exists i j, Entry.subBatchId e1 = Some i /\ Entry.subBatchId e2 = Some j /\ i <> j.

(** All entries are the batch's and any two of them are apart. *)
Definition subBatchInv (batch : Batch.t) (es : list Entry.t) : Prop :=
  Forall (fun e => Entry.batchId e = Batch.id batch) es /\ ForallOrdPairs apart es.

(** While a session is filled: whatever lies in the slot was placed for one
    of the sub-batches handled so far. *)
Definition subBatchSessionInv (batch : Batch.t) (existingEntries : list Entry.t)
    (slot : LabSession) (handled : list SubBatch.t) (acc : LabAcc) : Prop :=
  subBatchInv batch (existingEntries ++ accEntries acc) /\
  forall e, In e (existingEntries ++ accEntries acc) ->
    Entry.day e = sessionDay slot -> In (Entry.period e) (sessionPeriods slot) ->
    exists sb, In sb handled /\ Entry.subBatchId e = Some (SubBatch.id sb).

(** ** Concrete inputs *)

(** Comparison by character code. *)
Definition codeUnitLocale : Locale :=
  {| localeCompare := fun a b =>
       match String.compare a b with Lt => -1 | Eq => 0 | Gt => 1 end |}.

(** A source that numbers its answers. *)
Definition world0 : World :=
  mkWorld (fun n => "id-" +++ showZ (Z.of_nat n)) (fun n => 1700000000000 + Z.of_nat n) 0.

(** Another source: constant answers. *)
Definition world1 : World := mkWorld (fun _ => "x") (fun _ => 42) 7.

Definition noConstraints : SubjectConstraints := mkConstraints None None None.

(** One department with one classroom and one lab. *)
Definition infra1 : InfrastructureState :=
  mkInfrastructure [Block.mk "blk" "Main" 0] [Department.mk "d1" "CSE" "blk" 0]
    [Classroom.mk "c1" "Room 1" 60 "d1" 0] [Lab.mk "lab1" "Lab 1" 30 "d1" 0].

(** 60 students over a lab of 30: two sub-batches. *)
Definition splitBatch : Batch.t :=
  Batch.mk "b1" "CSE-3A" 3 "A" "d1" 60
    [SubBatch.mk "sb1" "A1" 30; SubBatch.mk "sb2" "A2" 30] 0.

Definition labL1 : Subject.t :=
  Subject.mk "L1" "Networks Lab" "CS301" LAB 3 "d1" 3 noConstraints 0.
Definition labL2 : Subject.t :=
  Subject.mk "L2" "Databases Lab" "CS302" LAB 3 "d1" 3 noConstraints 0.

Definition facultyF1 : Faculty.t :=
  Faculty.mk "F1" "Asha" "E1" ASSISTANT_PROFESSOR "d1" [] ["L1"; "L2"] 0.
Definition facultyF2 : Faculty.t :=
  Faculty.mk "F2" "Ravi" "E2" ASSISTANT_PROFESSOR "d1" [] ["L1"; "L2"] 0.

(** Two lab subjects, two lab teachers, one split batch. *)
Definition acad1 : AcademicState :=
  mkAcademic [splitBatch] [labL1; labL2] [facultyF1; facultyF2].

Definition theoryT1 : Subject.t :=
  Subject.mk "T1" "Algorithms" "CS201" THEORY 3 "d1" 3 noConstraints 0.

Definition facultyP1 : Faculty.t :=
  Faculty.mk "P1" "Meera" "E3" PROFESSOR "d1" ["T1"] [] 0.

(** A whole batch of 30 (one sub-batch). *)
Definition wholeBatch : Batch.t :=
  Batch.mk "b2" "CSE-3B" 3 "B" "d1" 30 [SubBatch.mk "sb" "A" 30] 0.

(** A valid snapshot without any LAB subject. *)
Definition acadNoLab : AcademicState :=
  mkAcademic [wholeBatch] [theoryT1] [facultyP1].

Definition theoryT5 : Subject.t :=
  Subject.mk "T5" "Compilers" "CS305" THEORY 5 "d1" 3 noConstraints 0.

(** An elective entered with no weekly periods; it is placed once all the same. *)
Definition electiveE1 : Subject.t :=
  Subject.mk "E1" "Ethics" "HS101" OPEN_ELECTIVE 0 "d1" 3
    (mkConstraints (Some [1]) (Some [0; 1; 2]) None) 0.

Definition facultyP5 : Faculty.t :=
  Faculty.mk "P5" "Kiran" "E5" PROFESSOR "d1" ["T5"; "E1"] [] 0.

(** Valid on paper (5 theory periods for the professor), overloaded once
    placed (5 theory entries and the elective). *)
Definition acadOverload : AcademicState :=
  mkAcademic [wholeBatch] [labL1; labL2; theoryT5; electiveE1]
    [facultyF1; facultyF2; facultyP5].

(** An elective nobody teaches. *)
Definition electiveE2 : Subject.t :=
  Subject.mk "E2" "Music" "HS102" OPEN_ELECTIVE 1 "d1" 3
    (mkConstraints (Some [1]) (Some [0; 1; 2]) None) 0.

Definition mandatoryM1 : Subject.t :=
  Subject.mk "M1" "Indian Constitution" "MC101" MANDATORY 1 "d1" 3
    (mkConstraints (Some [3]) (Some [0; 1]) None) 0.
Definition mandatoryM2 : Subject.t :=
  Subject.mk "M2" "Gender Sensitisation" "MC102" MANDATORY 1 "d1" 3
    (mkConstraints (Some [3]) (Some [0; 1]) None) 0.
Definition electiveE3 : Subject.t :=
  Subject.mk "E3" "Economics" "HS103" OPEN_ELECTIVE 1 "d1" 3
    (mkConstraints (Some [1]) (Some [0; 1; 2]) None) 0.
Definition libraryB1 : Subject.t :=
  Subject.mk "B1" "Library" "LIB" LIBRARY 1 "d1" 3 (mkConstraints None None (Some 1)) 0.

Definition facultyA1 : Faculty.t :=
  Faculty.mk "A1" "Nila" "E6" ASSISTANT_PROFESSOR "d1" ["M1"; "M2"; "E3"; "B1"] [] 0.

(** A snapshot with a subject of every type for the whole batch. *)
Definition acadFull : AcademicState :=
  mkAcademic [wholeBatch]
    [labL1; labL2; theoryT1; mandatoryM1; mandatoryM2; electiveE3; libraryB1]
    [facultyF1; facultyF2; facultyP1; facultyA1].

(** The department of [infra1] with a second lab. *)
Definition infra2 : InfrastructureState :=
  mkInfrastructure [Block.mk "blk" "Main" 0] [Department.mk "d1" "CSE" "blk" 0]
    [Classroom.mk "c1" "Room 1" 60 "d1" 0]
    [Lab.mk "lab1" "Lab 1" 30 "d1" 0; Lab.mk "lab2" "Lab 2" 30 "d1" 0].

(** An earlier run left a rotation for the first sub-batch only. *)
Definition rotationsSb1 : list LabRotation.t := [LabRotation.mk "b1" "sb1" 0 "lab1"].

(* ================================================================== *)
(** * Part III: proofs *)
(* ================================================================== *)

(** ** Lists *)

Lemma insertBy_perm {A} (cmp : A -> A -> Z) x l : Permutation (x :: l) (insertBy cmp x l).
Proof.
  induction l as [|y ys IH]; simpl; [reflexivity|].
  destruct (cmp x y <=? 0); [reflexivity|].
  rewrite perm_swap. now apply perm_skip.
Qed.

Lemma sortBy_perm {A} (cmp : A -> A -> Z) l : Permutation l (sortBy cmp l).
Proof.
  induction l as [|x xs IH]; simpl; [constructor|].
  rewrite <- insertBy_perm. now apply perm_skip.
Qed.

Lemma sortBy_In {A} (cmp : A -> A -> Z) l x : In x (sortBy cmp l) <-> In x l.
Proof.
  split; apply Permutation_in; [symmetry|]; apply sortBy_perm.
Qed.

Lemma sortBy_length {A} (cmp : A -> A -> Z) l : length (sortBy cmp l) = length l.
Proof. symmetry. apply Permutation_length, sortBy_perm. Qed.

Lemma sortBy_nil_inv {A} (cmp : A -> A -> Z) l : sortBy cmp l = [] -> l = [].
Proof.
  intros H. apply Permutation_nil. rewrite <- H. symmetry. apply sortBy_perm.
Qed.

Lemma filter_nil_iff {A} (p : A -> bool) l :
  filter p l = [] <-> forall x, In x l -> p x = false.
Proof.
  induction l as [|y ys IH]; simpl.
  - split; [intros _ x []|reflexivity].
  - destruct (p y) eqn:E.
    + split; [discriminate|]. intros H. rewrite (H y) in E by now left. discriminate.
    + rewrite IH. split.
      * intros H x [<-|Hx]; auto.
      * intros H x Hx. apply H. now right.
Qed.

(** ** The [Gen] monad: what holds of a result whatever the source answers *)

Lemma post_ret {A} (a : A) (P : A -> Prop) : P a -> post (ret a) P.
Proof. intros H w. exact H. Qed.

Lemma post_bind {A B} (c : Gen A) (k : A -> Gen B) (P : A -> Prop) (Q : B -> Prop) :
  post c P -> (forall a, P a -> post (k a) Q) -> post (bind c k) Q.
Proof.
  intros Hc Hk w. unfold bind. specialize (Hc w).
  destruct (c w) as [a w']. now apply Hk.
Qed.

Lemma post_weaken {A} (c : Gen A) (P Q : A -> Prop) :
  post c P -> (forall a, P a -> Q a) -> post c Q.
Proof. intros Hc H w. apply H, Hc. Qed.

Lemma post_forEachFrom {A St} (f : nat -> A -> St -> Gen St) (I : St -> Prop) l :
  (forall i x s, In x l -> I s -> post (f i x s) I) ->
  forall i s, I s -> post (forEachFrom f l i s) I.
Proof.
  induction l as [|x xs IH]; intros Hf i s Hs; simpl.
  - now apply post_ret.
  - eapply post_bind.
    + apply Hf; [now left|exact Hs].
    + intros s' Hs'. apply IH; [|exact Hs'].
      intros j y t Hy. apply Hf. now right.
Qed.

Lemma post_forEach {A St} (f : nat -> A -> St -> Gen St) (I : St -> Prop) l s :
  (forall i x s, In x l -> I s -> post (f i x s) I) -> I s -> post (forEach f l s) I.
Proof. intros Hf Hs. now apply post_forEachFrom. Qed.

(** The same with an invariant that knows the elements handled so far. *)
Lemma post_forEachFrom_split {A St} (f : nat -> A -> St -> Gen St)
    (I : list A -> St -> Prop) whole :
  (forall i pre x rest s, whole = pre ++ x :: rest -> I pre s ->
     post (f i x s) (I (pre ++ [x]))) ->
  forall l pre i s, whole = pre ++ l -> I pre s -> post (forEachFrom f l i s) (I whole).
Proof.
  intros Hstep. induction l as [|x xs IH]; intros pre i s Hwhole Hs.
  - apply post_ret. rewrite Hwhole, app_nil_r. exact Hs.
  - cbn [forEachFrom]. eapply post_bind; [now apply (Hstep i pre x xs)|].
    cbv beta. intros s' Hs'. apply IH with (pre := pre ++ [x]); [|exact Hs'].
    now rewrite <- app_assoc.
Qed.

Lemma find_none_intro {A} (p : A -> bool) l :
  (forall x, In x l -> p x = false) -> find p l = None.
Proof.
  induction l as [|y ys IH]; simpl; intros H; [reflexivity|].
  rewrite (H y) by now left. apply IH. intros x Hx. apply H. now right.
Qed.

(** ** Step 2: the target batch *)

(** C10. When validation passes and no batch of the academic snapshot has
    the requested id, generation fails without a timetable and the log holds
    an ERROR of the scheduler, step 2, saying the batch was not found. *)
Theorem C10_unknown_batch (L : Locale) infrastructure academic batchId rotations w :
  isValid (validateAll infrastructure academic) = true ->
  (forall b, In b (batches academic) -> Batch.id b <> batchId) ->
  let r := fst (generateTimetable infrastructure academic batchId rotations w) in
  GenerationResult.success r = false /\
  GenerationResult.timetable r = None /\
  In (explain ERROR SCHEDULER ("Batch with ID " +++ quoted batchId +++ " not found.")
        None 2)
     (GenerationResult.explanations r).
Proof.
  intros Hvalid Hnone. unfold generateTimetable. rewrite Hvalid. cbn [negb].
  rewrite find_none_intro.
  - cbn. repeat split. apply in_or_app. right. now left.
  - intros b Hb. apply String.eqb_neq. now apply Hnone.
Qed.

Lemma C10_unknown_batch_witness :
  let r := fst (@generateTimetable codeUnitLocale infra1 acad1 "b9" [] world0) in
  GenerationResult.success r = false /\
  GenerationResult.timetable r = None /\
  In (explain ERROR SCHEDULER ("Batch with ID " +++ quoted "b9" +++ " not found.") None 2)
     (GenerationResult.explanations r).
Proof.
  apply (@C10_unknown_batch codeUnitLocale infra1 acad1 "b9" [] world0).
  - vm_compute. reflexivity.
  - intros b Hb. simpl in Hb. destruct Hb as [<-|[]]. vm_compute. discriminate.
Defined.

(** ** Occupancy tests *)

Lemma occupies_true key x day period e :
  occupies key x day period e = true <->
  key e = x /\ Entry.day e = day /\ Entry.period e = period.
Proof.
  unfold occupies. rewrite !andb_true_iff, String.eqb_eq, !Z.eqb_eq. tauto.
Qed.

(** A day holds no entry of the key in any of the periods. *)
Lemma periods_unused key x day periods entries :
  existsb (fun period => existsb (occupies key x day period) entries) periods = false <->
  forall e, In e entries -> key e = x -> Entry.day e = day -> ~ In (Entry.period e) periods.
Proof.
  split.
  - intros H e He Hk Hd Hp.
    assert (existsb (fun period => existsb (occupies key x day period) entries) periods
            = true) as E; [|congruence].
    apply existsb_exists. exists (Entry.period e). split; [exact Hp|].
    apply existsb_exists. exists e. split; [exact He|]. now apply occupies_true.
  - intros H. apply not_true_is_false. intros E.
    apply existsb_exists in E as (p & Hp & E).
    apply existsb_exists in E as (e & He & E).
    apply occupies_true in E as (Hk & Hd & <-). exact (H e He Hk Hd Hp).
Qed.

Lemma slot_unused key x day period entries :
  existsb (occupies key x day period) entries = false <->
  forall e, In e entries -> key e = x -> Entry.day e = day -> Entry.period e <> period.
Proof.
  split.
  - intros H e He Hk Hd Hp.
    assert (existsb (occupies key x day period) entries = true) as E; [|congruence].
    apply existsb_exists. exists e. split; [exact He|]. now apply occupies_true.
  - intros H. apply not_true_is_false. intros E.
    apply existsb_exists in E as (e & He & E).
    apply occupies_true in E as (Hk & Hd & Hp). exact (H e He Hk Hd Hp).
Qed.

(** ** Available lab slots *)

Lemma sortedWorkingDays_eq : sortedWorkingDays = WORKING_DAYS.
Proof. reflexivity. Qed.

Lemma availableLabSlots_spec entries batchId s :
  In s (getAvailableLabSlots entries batchId) <->
  In (sessionDay s) WORKING_DAYS /\ sessionPeriods s = slotPeriods (sessionSlot s) /\
  slotFree entries batchId (sessionDay s) (sessionSlot s).
Proof.
  unfold getAvailableLabSlots. fold sortedWorkingDays. rewrite sortedWorkingDays_eq.
  rewrite in_flat_map. unfold slotFree. split.
  - intros (day & Hday & Hin). apply in_app_or in Hin as [Hin|Hin].
    + destruct (existsb _ LAB_SLOT_A) eqn:E; simpl in Hin; [contradiction|].
      destruct Hin as [<-|[]]. cbn [sessionDay sessionSlot sessionPeriods slotPeriods].
      repeat split; auto. now apply periods_unused.
    + destruct (existsb _ LAB_SLOT_B) eqn:E; simpl in Hin; [contradiction|].
      destruct Hin as [<-|[]]. cbn [sessionDay sessionSlot sessionPeriods slotPeriods].
      repeat split; auto. now apply periods_unused.
  - intros (Hday & Hp & Hfree). exists (sessionDay s). split; [exact Hday|].
    destruct s as [day [|] ps]; cbn [sessionDay sessionSlot sessionPeriods] in *;
      subst ps; apply in_or_app; [left|right].
    + apply periods_unused in Hfree. unfold LAB_SLOT_A. cbn [slotPeriods] in Hfree.
      rewrite Hfree. now left.
    + apply periods_unused in Hfree. unfold LAB_SLOT_B. cbn [slotPeriods] in Hfree.
      rewrite Hfree. now left.
Qed.

Lemma in_day_slots (a b : bool) day s :
  In s ((if a then [mkLabSession day SlotA LAB_SLOT_A] else []) ++
        (if b then [mkLabSession day SlotB LAB_SLOT_B] else [])) ->
  sessionDay s = day.
Proof.
  destruct a, b; cbn; intros H; repeat (destruct H as [<-|H]; [reflexivity|]);
    contradiction.
Qed.

Lemma availableLabSlots_NoDup_on days entries batchId :
  NoDup days ->
  NoDup (flat_map (fun day =>
    (if negb (existsb (fun period =>
                existsb (occupies Entry.batchId batchId day period) entries) LAB_SLOT_A)
     then [mkLabSession day SlotA LAB_SLOT_A] else []) ++
    (if negb (existsb (fun period =>
                existsb (occupies Entry.batchId batchId day period) entries) LAB_SLOT_B)
     then [mkLabSession day SlotB LAB_SLOT_B] else [])) days).
Proof.
  induction 1 as [|day days Hnot Hnd IH]; [constructor|].
  cbn [flat_map]. apply NoDup_app.
  - destruct (negb _), (negb _); cbn; repeat constructor; cbn; intuition discriminate.
  - exact IH.
  - intros s Hs Hin. apply in_flat_map in Hin as (day' & Hday' & Hin).
    apply in_day_slots in Hs, Hin. congruence.
Qed.

Lemma availableLabSlots_NoDup entries batchId :
  NoDup (getAvailableLabSlots entries batchId).
Proof.
  apply availableLabSlots_NoDup_on. fold sortedWorkingDays.
  rewrite sortedWorkingDays_eq. unfold WORKING_DAYS.
  repeat constructor; cbn; intuition discriminate.
Qed.

(** ** The preconditions of the lab allocator *)

Lemma labAborted_intro msg related :
  labAborted (mkLabResult [] [] [explain ERROR LAB_ALLOCATOR msg related 3] false).
Proof.
  repeat split. eexists. split; [reflexivity|]. repeat split.
Qed.

Lemma allocateLabs_precondition (L : Locale) batch labSubjects labs faculty
    existingEntries existingRotations :
  (forall s, In s labSubjects ->
     ~ (Subject.departmentId s = Batch.departmentId batch /\
        Subject.semester s = Batch.semester batch)) \/
  (forall l, In l labs -> Lab.departmentId l <> Batch.departmentId batch) \/
  (length (getAvailableLabSlots existingEntries (Batch.id batch)) < 2)%nat ->
  post (allocateLabsForBatch batch labSubjects labs faculty existingEntries
          existingRotations) labAborted.
Proof.
  intros H w. unfold allocateLabsForBatch.
  destruct (sortBy _ (filter _ labSubjects)) as [|subject0 rest] eqn:Esub.
  { apply labAborted_intro. }
  destruct (sortBy _ (filter _ labs)) as [|lab0 rest'] eqn:Elab.
  { apply labAborted_intro. }
  rewrite app_nil_r.
  destruct (length (getAvailableLabSlots existingEntries (Batch.id batch))
            <? MIN_LAB_SESSIONS_PER_WEEK)%nat eqn:Eslots.
  { apply labAborted_intro. }
  exfalso. destruct H as [H|[H|H]].
  - assert (In subject0 (subject0 :: rest)) as Hin by now left.
    rewrite <- Esub in Hin. apply sortBy_In, filter_In in Hin as (Hin & Hs).
    apply andb_true_iff in Hs as (Hd & Hs).
    apply (H subject0 Hin). split; [now apply String.eqb_eq|now apply Z.eqb_eq].
  - assert (In lab0 (lab0 :: rest')) as Hin by now left.
    rewrite <- Elab in Hin. apply sortBy_In, filter_In in Hin as (Hin & Hd).
    apply (H lab0 Hin). now apply String.eqb_eq.
  - apply Nat.ltb_ge in Eslots. unfold MIN_LAB_SESSIONS_PER_WEEK in Eslots. lia.
Qed.

(** C5. The lab allocator aborts with one ERROR (lab allocator, step 3),
    success=false, no entries and no rotations when the batch has no lab
    subject in its department and semester, or no lab in its department, or
    fewer than 2 available (day, slot) pairs; the available pairs are the
    working days with Slot A = periods 2,3,4 or Slot B = periods 5,6,7 none
    of whose periods is occupied for the batch, each listed once; and
    generation for a batch found without a LAB subject in scope fails with
    that ERROR in its log. *)
Theorem C5_lab_preconditions :
  (forall (L : Locale) batch labSubjects labs faculty existingEntries existingRotations w,
      (forall s, In s labSubjects ->
         ~ (Subject.departmentId s = Batch.departmentId batch /\
            Subject.semester s = Batch.semester batch)) \/
      (forall l, In l labs -> Lab.departmentId l <> Batch.departmentId batch) \/
      (length (getAvailableLabSlots existingEntries (Batch.id batch)) < 2)%nat ->
      labAborted (fst (allocateLabsForBatch batch labSubjects labs faculty
                         existingEntries existingRotations w))) /\
  (forall existingEntries batchId,
      NoDup (getAvailableLabSlots existingEntries batchId) /\
      forall s, In s (getAvailableLabSlots existingEntries batchId) <->
        In (sessionDay s) WORKING_DAYS /\
        sessionPeriods s = slotPeriods (sessionSlot s) /\
        slotFree existingEntries batchId (sessionDay s) (sessionSlot s)) /\
  (forall (L : Locale) infrastructure academic batchId rotations w batch,
      isValid (validateAll infrastructure academic) = true ->
      find (fun b => String.eqb (Batch.id b) batchId) (batches academic) = Some batch ->
      (forall s, In s (subjects academic) -> Subject.type s = LAB ->
         ~ (Subject.departmentId s = Batch.departmentId batch /\
            Subject.semester s = Batch.semester batch)) ->
      let r := fst (generateTimetable infrastructure academic batchId rotations w) in
      GenerationResult.success r = false /\
      GenerationResult.timetable r = None /\
      exists e, In e (GenerationResult.explanations r) /\ isErrorAt LAB_ALLOCATOR 3 e).
Proof.
  split; [|split].
  - intros. now apply allocateLabs_precondition.
  - intros. split; [apply availableLabSlots_NoDup|apply availableLabSlots_spec].
  - intros L infrastructure academic batchId rotations w batch Hvalid Hfind Hnone.
    cbv zeta. revert w.
    change (post (generateTimetable infrastructure academic batchId rotations)
              (fun r => GenerationResult.success r = false /\
                        GenerationResult.timetable r = None /\
                        exists e, In e (GenerationResult.explanations r) /\
                                  isErrorAt LAB_ALLOCATOR 3 e)).
    unfold generateTimetable. rewrite Hvalid, Hfind. cbn [negb].
    eapply post_bind with
      (P := fun acc => labsAllocated acc = false /\
                       exists e, stepExplanations acc = [e] /\ isErrorAt LAB_ALLOCATOR 3 e).
    + unfold accumulateEntries. eapply post_bind.
      * apply allocateLabs_precondition. left.
        intros s Hin. apply filter_In in Hin as (Hin & Hty). apply (Hnone s Hin).
        destruct (Subject.type s); (reflexivity || discriminate).
      * intros labResult (Hs & _ & _ & e & He & Herr). rewrite Hs. apply post_ret.
        cbn. split; [reflexivity|]. exists e. now split.
    + intros acc (Hs & e & He & Herr). rewrite Hs. apply post_ret. cbn.
      split; [reflexivity|split; [reflexivity|]].
      exists e. split; [|exact Herr].
      rewrite He. apply in_or_app. right. now left.
Qed.

Lemma C5_lab_preconditions_witness :
  labAborted (fst (@allocateLabsForBatch codeUnitLocale wholeBatch [] (labs infra1)
                     [facultyP1] [] [] world0)) /\
  (let r := fst (@generateTimetable codeUnitLocale infra1 acadNoLab "b2" [] world0) in
   GenerationResult.success r = false /\
   GenerationResult.timetable r = None /\
   exists e, In e (GenerationResult.explanations r) /\ isErrorAt LAB_ALLOCATOR 3 e).
Proof.
  split.
  - apply (proj1 C5_lab_preconditions codeUnitLocale wholeBatch [] (labs infra1)
             [facultyP1] [] [] world0).
    left. intros s [].
  - apply (proj2 (proj2 C5_lab_preconditions) codeUnitLocale infra1 acadNoLab "b2" []
             world0 wholeBatch).
    + vm_compute. reflexivity.
    + vm_compute. reflexivity.
    + intros s Hin Hty. simpl in Hin. destruct Hin as [<-|[]]. discriminate Hty.
Defined.

(** ** Sorting *)

Section Sorted.
Variable A : Type.
Variable cmp : A -> A -> Z.
Hypothesis cmp_trans : forall a b c, cmp a b <= 0 -> cmp b c <= 0 -> cmp a c <= 0.
Hypothesis cmp_total : forall a b, cmp a b <= 0 \/ cmp b a <= 0.

Lemma insertBy_sorted x l :
  StronglySorted (fun a b => cmp a b <= 0) l ->
  StronglySorted (fun a b => cmp a b <= 0) (insertBy cmp x l).
Proof.
  induction 1 as [|y ys Hs IH Hall]; simpl.
  - repeat constructor.
  - destruct (cmp x y <=? 0) eqn:E.
    + apply Z.leb_le in E. constructor; [now constructor|].
      constructor; [exact E|]. eapply Forall_impl; [|exact Hall].
      intros z Hz. now apply cmp_trans with y.
    + apply Z.leb_gt in E. constructor; [exact IH|].
      apply (Permutation_Forall (insertBy_perm cmp x ys)). constructor; [|exact Hall].
      destruct (cmp_total x y); [lia|assumption].
Qed.

Lemma sortBy_sorted l : StronglySorted (fun a b => cmp a b <= 0) (sortBy cmp l).
Proof.
  induction l as [|x xs IH]; simpl; [constructor|]. now apply insertBy_sorted.
Qed.
End Sorted.

(** ** Strings: the keys built from a day and a slot determine both *)

Lemma list_ascii_of_string_app s t :
  list_ascii_of_string (s +++ t) = list_ascii_of_string s ++ list_ascii_of_string t.
Proof. induction s as [|c s IH]; simpl; [reflexivity|]. now rewrite IH. Qed.

Lemma list_ascii_of_string_inj s t :
  list_ascii_of_string s = list_ascii_of_string t -> s = t.
Proof.
  intros H. rewrite <- (string_of_list_ascii_of_string s),
    <- (string_of_list_ascii_of_string t). now rewrite H.
Qed.

Lemma showZ_inj a b : showZ a = showZ b -> a = b.
Proof.
  unfold showZ. intros H. apply DecimalZ.to_int_inj.
  assert (Some (Z.to_int a) = Some (Z.to_int b)) as E; [|now injection E].
  now rewrite <- !NilEmpty.isi, H.
Qed.

Lemma labSessionKey_inj e1 e2 :
  labSessionKey e1 = labSessionKey e2 -> sessionPair e1 = sessionPair e2.
Proof.
  unfold labSessionKey, sessionPair. intros H.
  apply (f_equal list_ascii_of_string) in H.
  rewrite !list_ascii_of_string_app in H.
  apply (f_equal (@rev ascii)) in H. rewrite !rev_app_distr in H.
  assert (Entry.labSlot e1 = Entry.labSlot e2 /\
          rev (list_ascii_of_string (showZ (Entry.day e1))) =
          rev (list_ascii_of_string (showZ (Entry.day e2)))) as (Hs & Hd).
  { destruct (Entry.labSlot e1) as [[|]|], (Entry.labSlot e2) as [[|]|];
      cbn in H; try discriminate H; split; try reflexivity;
      repeat (injection H as H); exact H. }
  rewrite Hs. f_equal.
  apply showZ_inj, list_ascii_of_string_inj.
  rewrite <- (rev_involutive (list_ascii_of_string (showZ (Entry.day e1)))), Hd.
  apply rev_involutive.
Qed.

(** Sets of keys: two namings that identify the same elements give the
    same number of distinct keys. *)
Lemma nodup_map_length {A B C} (decB : forall a b : B, {a = b} + {a <> b})
    (decC : forall a b : C, {a = b} + {a <> b}) (k1 : A -> B) (k2 : A -> C) l :
  (forall a b, k1 a = k1 b <-> k2 a = k2 b) ->
  length (nodup decB (map k1 l)) = length (nodup decC (map k2 l)).
Proof.
  intros Hk. induction l as [|a l IH]; [reflexivity|].
  cbn [map nodup].
  destruct (in_dec decB (k1 a) (map k1 l)) as [Hin|Hin],
           (in_dec decC (k2 a) (map k2 l)) as [Hin'|Hin'].
  - exact IH.
  - exfalso. apply in_map_iff in Hin as (b & Hb & Hbl).
    apply Hin'. apply in_map_iff. exists b. split; [now apply Hk|exact Hbl].
  - exfalso. apply in_map_iff in Hin' as (b & Hb & Hbl).
    apply Hin. apply in_map_iff. exists b. split; [now apply Hk|exact Hbl].
  - cbn [length]. now f_equal.
Qed.

Lemma setSize_sessionKeys es :
  setSize (map labSessionKey es) = Z.of_nat (distinctSessions es).
Proof.
  unfold setSize, distinctSessions. f_equal. apply nodup_map_length.
  intros a b. split; [apply labSessionKey_inj|].
  unfold sessionPair, labSessionKey. intros H. injection H as -> ->. reflexivity.
Qed.

Lemma filter_length_countIf {A} (p : A -> bool) l : length (filter p l) = countIf p l.
Proof.
  induction l as [|x xs IH]; simpl; [reflexivity|].
  destruct (p x); simpl; now rewrite IH.
Qed.

Lemma Forall2_map_intro {A B} (R : A -> B -> Prop) (f : A -> B) l :
  (forall x, In x l -> R x (f x)) -> Forall2 R l (map f l).
Proof.
  induction l as [|x xs IH]; intros H; simpl; constructor.
  - apply H. now left.
  - apply IH. intros y Hy. apply H. now right.
Qed.

(** ** Workload *)

Lemma Qgtb_true x y : Qgtb x y = true <-> (y < x)%Q.
Proof.
  unfold Qgtb. rewrite negb_true_iff. split.
  - intros H. apply Qnot_le_lt. intros Hle. apply Qle_bool_iff in Hle. congruence.
  - intros H. apply not_true_is_false. intros Hle. apply Qle_bool_iff in Hle.
    exact (Qlt_not_le _ _ H Hle).
Qed.

(** The record [calculateWorkload] builds for one faculty member. *)
Lemma stats_of_faculty f entries :
  let limits := FACULTY_WORKLOAD_LIMITS (Faculty.designation f) in
  let theory := theoryEntriesOf f entries in
  let labs := distinctSessions (labEntriesOf f entries) in
  forall stat,
    stat = mkStats (Faculty.id f) (Faculty.name f) (designationName (Faculty.designation f))
             (Z.of_nat (length (filter (fun e =>
                String.eqb (Entry.facultyId e) (Faculty.id f) &&
                negb (Entry.isLabSession e)) entries)))
             (limTheoryPeriods limits)
             (setSize (map labSessionKey (labEntriesOf f entries)))
             (limLabSessions limits)
             (Qgtb (inject_Z (Z.of_nat (length (filter (fun e =>
                String.eqb (Entry.facultyId e) (Faculty.id f) &&
                negb (Entry.isLabSession e)) entries)))) (limTheoryPeriods limits) ||
              Qgtb (inject_Z (setSize (map labSessionKey (labEntriesOf f entries))))
                (limLabSessions limits)) ->
    facultyId stat = Faculty.id f /\
    theoryPeriods stat = Z.of_nat theory /\
    labSessions stat = Z.of_nat labs /\
    theoryLimit stat = limTheoryPeriods limits /\
    labLimit stat = limLabSessions limits /\
    (isOverloaded stat = true <-> exceedsLimits (Faculty.designation f) theory labs).
Proof.
  intros limits theory labs stat ->. cbn.
  rewrite filter_length_countIf, setSize_sessionKeys.
  repeat split; try reflexivity.
  - intros H. apply orb_true_iff in H as [H|H]; apply Qgtb_true in H; [left|right]; exact H.
  - intros [H|H]; apply orb_true_iff; [left|right]; apply Qgtb_true; exact H.
Qed.

(** C6. [calculateWorkload] returns one record per faculty member, in the
    order of the ids (the faculty sorted by [localeCompare]); in each,
    theoryPeriods is the number of non-lab entries with that faculty id,
    labSessions the number of distinct (day, labSlot) pairs among its lab
    entries, and isOverloaded holds exactly when one of the two exceeds the
    limit of the designation: Professor 5 and 1, Associate Professor 5 and
    1.5, Assistant Professor 10 and 2. The 1.5 is compared as it is: two
    lab sessions exceed it, one does not. *)
Theorem C6_calculateWorkload (L : Locale) faculty subjects entries :
  let sortedFaculty :=
    sortBy (fun a b => localeCompare (Faculty.id a) (Faculty.id b)) faculty in
  Permutation faculty sortedFaculty /\
  (totalPreorder L -> StronglySorted byFacultyId sortedFaculty) /\
  Forall2 (fun f stat =>
      facultyId stat = Faculty.id f /\
      theoryPeriods stat = Z.of_nat (theoryEntriesOf f entries) /\
      labSessions stat = Z.of_nat (distinctSessions (labEntriesOf f entries)) /\
      theoryLimit stat = limTheoryPeriods (FACULTY_WORKLOAD_LIMITS (Faculty.designation f)) /\
      labLimit stat = limLabSessions (FACULTY_WORKLOAD_LIMITS (Faculty.designation f)) /\
      (isOverloaded stat = true <->
       exceedsLimits (Faculty.designation f) (theoryEntriesOf f entries)
         (distinctSessions (labEntriesOf f entries))))
    sortedFaculty (calculateWorkload faculty subjects entries) /\
  (FACULTY_WORKLOAD_LIMITS PROFESSOR = mkLimits (5 # 1) (1 # 1) /\
   FACULTY_WORKLOAD_LIMITS ASSOCIATE_PROFESSOR = mkLimits (5 # 1) (3 # 2) /\
   FACULTY_WORKLOAD_LIMITS ASSISTANT_PROFESSOR = mkLimits (10 # 1) (2 # 1)) /\
  (forall theory, exceedsLimits ASSOCIATE_PROFESSOR theory 2) /\
  (forall theory, (theory <= 5)%nat -> ~ exceedsLimits ASSOCIATE_PROFESSOR theory 1).
Proof.
  intros sortedFaculty. split; [apply sortBy_perm|]. split.
  { intros (Htrans & Htotal). unfold sortedFaculty, byFacultyId.
    apply sortBy_sorted; intros; [eapply Htrans; eassumption|apply Htotal]. }
  split.
  { unfold calculateWorkload. fold sortedFaculty. apply Forall2_map_intro.
    intros f _. now apply stats_of_faculty. }
  split; [repeat split|]. split.
  - intros theory. right. reflexivity.
  - intros theory Hle [H|H].
    + unfold Qlt in H. cbn in H. lia.
    + unfold Qlt in H. cbn in H. lia.
Qed.

(** ** Comparison by character code is a total preorder *)

Lemma ascii_compare_cases x y :
  match Ascii.compare x y with
  | Eq => x = y
  | Lt => (N_of_ascii x < N_of_ascii y)%N
  | Gt => (N_of_ascii y < N_of_ascii x)%N
  end.
Proof.
  unfold Ascii.compare.
  destruct (N.compare_spec (N_of_ascii x) (N_of_ascii y)) as [H|H|H]; auto.
  apply (f_equal ascii_of_N) in H. now rewrite !ascii_N_embedding in H.
Qed.

Lemma string_compare_trans a : forall b c,
  String.compare a b <> Gt -> String.compare b c <> Gt -> String.compare a c <> Gt.
Proof.
  induction a as [|x a IH]; intros [|y b] [|z c]; simpl; try congruence.
  pose proof (ascii_compare_cases x y) as Hxy.
  pose proof (ascii_compare_cases y z) as Hyz.
  pose proof (ascii_compare_cases x z) as Hxz.
  destruct (Ascii.compare x y), (Ascii.compare y z), (Ascii.compare x z);
    try congruence; subst; try lia; try apply IH.
Qed.

Lemma codeUnit_totalPreorder : totalPreorder codeUnitLocale.
Proof.
  split; cbn.
  - intros a b c Hab Hbc. pose proof (@string_compare_trans a b c) as H.
    destruct (String.compare a b), (String.compare b c), (String.compare a c);
      try lia; exfalso; apply H; congruence.
  - intros a b. rewrite (String.compare_antisym a b).
    destruct (String.compare b a); cbn; lia.
Qed.

Lemma C6_calculateWorkload_witness :
  StronglySorted (@byFacultyId codeUnitLocale)
    (sortBy (fun a b => @localeCompare codeUnitLocale (Faculty.id a) (Faculty.id b))
       [facultyF2; facultyF1]) /\
  ~ exceedsLimits ASSOCIATE_PROFESSOR 5 1.
Proof.
  pose proof (@C6_calculateWorkload codeUnitLocale [facultyF2; facultyF1] [] [])
    as (_ & Hsorted & _ & _ & _ & Hone).
  split.
  - apply Hsorted. exact codeUnit_totalPreorder.
  - apply Hone. lia.
Defined.

(** ** The workload gate of step 8 *)

Lemma calculateWorkload_In (L : Locale) faculty subjects entries stat :
  In stat (calculateWorkload faculty subjects entries) ->
  exists f, In f faculty /\
    theoryPeriods stat = Z.of_nat (theoryEntriesOf f entries) /\
    labSessions stat = Z.of_nat (distinctSessions (labEntriesOf f entries)) /\
    theoryLimit stat = limTheoryPeriods (FACULTY_WORKLOAD_LIMITS (Faculty.designation f)) /\
    labLimit stat = limLabSessions (FACULTY_WORKLOAD_LIMITS (Faculty.designation f)) /\
    (isOverloaded stat = true <->
     exceedsLimits (Faculty.designation f) (theoryEntriesOf f entries)
       (distinctSessions (labEntriesOf f entries))).
Proof.
  unfold calculateWorkload. intros Hin. apply in_map_iff in Hin as (f & Hstat & Hf).
  apply sortBy_In in Hf. exists f. split; [exact Hf|].
  symmetry in Hstat. apply stats_of_faculty in Hstat. tauto.
Qed.

Lemma calculateWorkload_of (L : Locale) faculty subjects entries f :
  In f faculty ->
  exists stat, In stat (calculateWorkload faculty subjects entries) /\
    (isOverloaded stat = true <->
     exceedsLimits (Faculty.designation f) (theoryEntriesOf f entries)
       (distinctSessions (labEntriesOf f entries))).
Proof.
  intros Hf. unfold calculateWorkload. eexists. split.
  - apply in_map_iff. exists f. split; [reflexivity|]. now apply sortBy_In.
  - now apply stats_of_faculty.
Qed.

Lemma generateTimetable_violation (L : Locale) infrastructure academic batchId rotations
    w batch :
  find (fun b => String.eqb (Batch.id b) batchId) (batches academic) = Some batch ->
  hasWorkloadViolation (faculty academic) (subjects academic)
    (allEntries (fst (accumulateEntries infrastructure academic batch rotations w)))
    = true ->
  exists explanations,
    fst (generateTimetable infrastructure academic batchId rotations w) =
    GenerationResult.mk false None explanations.
Proof.
  intros Hfind Hviolation. unfold generateTimetable.
  destruct (isValid (validateAll infrastructure academic)); [|eexists; reflexivity].
  rewrite Hfind. cbn [negb]. unfold bind at 1.
  destruct (accumulateEntries infrastructure academic batch rotations w) as [acc w1].
  cbn [fst] in Hviolation.
  destruct (labsAllocated acc); cbn [negb]; [|eexists; reflexivity].
  rewrite Hviolation. eexists. reflexivity.
Qed.

(** C3. [hasWorkloadViolation] is true exactly when the computed stats of
    some faculty member show theoryPeriods above the theory limit or
    labSessions above the lab limit, that is when the entries counted for
    some faculty member exceed the limits of the designation; and when it is
    true of the entries accumulated through step 7, generation returns
    success=false and no timetable. *)
Theorem C3_workload_gate (L : Locale) :
  (forall faculty subjects entries,
      (hasWorkloadViolation faculty subjects entries = true <->
       exists stat, In stat (calculateWorkload faculty subjects entries) /\
         ((theoryLimit stat < inject_Z (theoryPeriods stat))%Q \/
          (labLimit stat < inject_Z (labSessions stat))%Q)) /\
      (hasWorkloadViolation faculty subjects entries = true <->
       exists f, In f faculty /\
         exceedsLimits (Faculty.designation f) (theoryEntriesOf f entries)
           (distinctSessions (labEntriesOf f entries)))) /\
  (forall infrastructure academic batchId rotations w batch,
      find (fun b => String.eqb (Batch.id b) batchId) (batches academic) = Some batch ->
      hasWorkloadViolation (faculty academic) (subjects academic)
        (allEntries (fst (accumulateEntries infrastructure academic batch rotations w)))
        = true ->
      GenerationResult.success
        (fst (generateTimetable infrastructure academic batchId rotations w)) = false /\
      GenerationResult.timetable
        (fst (generateTimetable infrastructure academic batchId rotations w)) = None).
Proof.
  split.
  - intros faculty subjects entries. unfold hasWorkloadViolation.
    rewrite existsb_exists. split; split.
    + intros (stat & Hin & Hover). exists stat. split; [exact Hin|].
      destruct (calculateWorkload_In _ _ _ _ _ Hin) as (f & _ & Ht & Hl & Htl & Hll & Hiff).
      rewrite Ht, Hl, Htl, Hll. now apply Hiff.
    + intros (stat & Hin & Hover). exists stat. split; [exact Hin|].
      destruct (calculateWorkload_In _ _ _ _ _ Hin) as (f & _ & Ht & Hl & Htl & Hll & Hiff).
      apply Hiff. unfold exceedsLimits. now rewrite <- Ht, <- Hl, <- Htl, <- Hll.
    + intros (stat & Hin & Hover).
      destruct (calculateWorkload_In _ _ _ _ _ Hin) as (f & Hf & _ & _ & _ & _ & Hiff).
      exists f. split; [exact Hf|]. now apply Hiff.
    + intros (f & Hf & Hex).
      destruct (@calculateWorkload_of L faculty subjects entries f Hf) as (stat & Hin & Hiff).
      exists stat. split; [exact Hin|]. now apply Hiff.
  - intros infrastructure academic batchId rotations w batch Hfind Hviolation.
    destruct (generateTimetable_violation _ _ _ _ _ _ Hfind Hviolation) as (expl & ->).
    now split.
Qed.

Lemma C3_workload_gate_witness :
  GenerationResult.success
    (fst (@generateTimetable codeUnitLocale infra1 acadOverload "b2" [] world0)) = false /\
  GenerationResult.timetable
    (fst (@generateTimetable codeUnitLocale infra1 acadOverload "b2" [] world0)) = None.
Proof.
  apply (proj2 (C3_workload_gate codeUnitLocale) infra1 acadOverload "b2" [] world0
           wholeBatch).
  - vm_compute. reflexivity.
  - vm_compute. reflexivity.
Defined.

(** ** Sub-batch splitting *)

Lemma ceilDiv_bounds a b :
  0 < b -> b * (ceilDiv a b - 1) < a <= b * ceilDiv a b.
Proof.
  intros Hb. unfold ceilDiv.
  pose proof (Z.div_mod (- a) b) as Hdm.
  pose proof (Z.mod_pos_bound (- a) b Hb) as Hm.
  nia.
Qed.

Lemma sumZ_app l1 l2 : sumZ (l1 ++ l2) = sumZ l1 + sumZ l2.
Proof. induction l1 as [|x xs IH]; simpl; [reflexivity|]. unfold sumZ in *. simpl. lia. Qed.

Lemma sumZ_repeat x n : sumZ (repeat x n) = x * Z.of_nat n.
Proof. induction n as [|n IH]; [simpl; lia|]. cbn [repeat sumZ fold_right]. fold (sumZ (repeat x n)). lia. Qed.

(** The loop hands out full labs while more than one is needed, then the rest. *)
Lemma subBatchLoop_counts labCapacity : forall n i remaining subBatches w,
  0 < labCapacity ->
  labCapacity * Z.of_nat n < remaining <= labCapacity * (Z.of_nat n + 1) ->
  studentCounts (fst (subBatchLoop (S n) i labCapacity remaining subBatches w)) =
  studentCounts subBatches ++ repeat labCapacity n ++
  [remaining - labCapacity * Z.of_nat n].
Proof.
  induction n as [|n IH]; intros i remaining subBatches w Hcap Hrem.
  - cbn. unfold studentCounts. rewrite map_app. cbn. do 2 f_equal. cbn in Hrem. lia.
  - change (subBatchLoop (S (S n)) i labCapacity remaining subBatches w)
      with (subBatchLoop (S n) (S i) labCapacity
              (remaining - Z.min labCapacity remaining)
              (subBatches ++
               [SubBatch.mk (fst (uuidv4 w)) ("A" +++ showZ (Z.of_nat i + 1))
                  (Z.min labCapacity remaining)]) (snd (uuidv4 w))).
    rewrite IH by lia.
    unfold studentCounts. rewrite map_app, <- app_assoc. cbn [map app repeat SubBatch.studentCount].
    replace (Z.min labCapacity remaining) with labCapacity by lia.
    do 4 f_equal. lia.
Qed.

(** C8. With a lab capacity of at least the student count there is exactly
    one sub-batch, holding all students. With a smaller, positive capacity
    there are ceil(totalStudents/labCapacity) sub-batches: all but the last
    hold labCapacity students, the last holds the rest, and the counts sum
    to totalStudents. 70 students over a capacity of 30 give 30, 30, 10. *)
Theorem C8_calculateSubBatches :
  (forall totalStudents labCapacity w,
      totalStudents <= labCapacity ->
      exists u,
        fst (calculateSubBatches totalStudents labCapacity w) =
        Some [SubBatch.mk u "A" totalStudents]) /\
  (forall totalStudents labCapacity w,
      0 < labCapacity < totalStudents ->
      let n := ceilDiv totalStudents labCapacity in
      labCapacity * (n - 1) < totalStudents <= labCapacity * n /\
      exists subBatches,
        fst (calculateSubBatches totalStudents labCapacity w) = Some subBatches /\
        Z.of_nat (length subBatches) = n /\
        studentCounts subBatches =
          repeat labCapacity (Z.to_nat (n - 1)) ++ [totalStudents - labCapacity * (n - 1)] /\
        0 < totalStudents - labCapacity * (n - 1) <= labCapacity /\
        sumZ (studentCounts subBatches) = totalStudents) /\
  (forall w, option_map studentCounts (fst (calculateSubBatches 70 30 w)) =
             Some [30; 30; 10]).
Proof.
  split; [|split].
  - intros totalStudents labCapacity w Hle. unfold calculateSubBatches.
    apply Z.leb_le in Hle. rewrite Hle. eexists. reflexivity.
  - intros totalStudents labCapacity w (Hpos & Hlt) n.
    pose proof (ceilDiv_bounds totalStudents Hpos) as Hn. fold n in Hn.
    split; [exact Hn|].
    unfold calculateSubBatches.
    apply Z.leb_gt in Hlt as Hlt'. rewrite Hlt'.
    assert ((labCapacity =? 0) = false) as -> by (apply Z.eqb_neq; lia).
    fold n. unfold bind.
    destruct (subBatchLoop (Z.to_nat n) 0 labCapacity totalStudents [] w)
      as [subBatches w'] eqn:Eloop.
    exists subBatches. split; [reflexivity|].
    assert (1 <= n) as Hn1 by nia.
    assert (studentCounts subBatches =
            repeat labCapacity (Z.to_nat (n - 1)) ++
            [totalStudents - labCapacity * (n - 1)]) as Hcounts.
    { change subBatches with (fst (subBatches, w')). rewrite <- Eloop.
      replace (Z.to_nat n) with (S (Z.to_nat (n - 1))) by lia.
      rewrite subBatchLoop_counts; [|lia|rewrite Z2Nat.id by lia; lia].
      cbn [studentCounts map app]. rewrite Z2Nat.id by lia. reflexivity. }
    split; [|split; [exact Hcounts|split; [lia|]]].
    + rewrite <- (length_map SubBatch.studentCount). fold (studentCounts subBatches).
      rewrite Hcounts, length_app, repeat_length. cbn. lia.
    + rewrite Hcounts, sumZ_app, sumZ_repeat. cbn. rewrite Z2Nat.id by lia. lia.
  - intros w. reflexivity.
Qed.

Lemma C8_calculateSubBatches_witness :
  exists subBatches,
    fst (calculateSubBatches 70 30 world0) = Some subBatches /\
    Z.of_nat (length subBatches) = ceilDiv 70 30 /\
    sumZ (studentCounts subBatches) = 70.
Proof.
  destruct (proj1 (proj2 C8_calculateSubBatches) 70 30 world0) as (_ & sbs & H1 & H2 & _ & _ & H3).
  - lia.
  - exists sbs. repeat split; assumption.
Defined.

(** ** Step 6: open electives *)

Lemma unavailable_occupied key x day period es :
  negb (existsb (occupies key x day period) es) = false <-> occupiedBy key x day period es.
Proof.
  rewrite negb_false_iff, existsb_exists. unfold occupiedBy.
  split; intros (e & He & H); exists e; (split; [exact He|]); now apply occupies_true.
Qed.

Lemma available_not_occupied key x day period es :
  negb (existsb (occupies key x day period) es) = true <-> ~ occupiedBy key x day period es.
Proof.
  rewrite <- unavailable_occupied. destruct (negb _); split; congruence.
Qed.

Lemma firstTheoryFaculty_none (L : Locale) faculty subject :
  firstTheoryFaculty faculty subject = None <->
  forall f, In f faculty -> ~ In (Subject.id subject) (Faculty.assignedTheorySubjects f).
Proof.
  unfold firstTheoryFaculty. split.
  - intros H f Hf Hin.
    destruct (sortBy _ _) as [|g rest] eqn:E; [|discriminate].
    apply sortBy_nil_inv in E.
    assert (In f []) as []. rewrite <- E. apply filter_In. split; [exact Hf|].
    unfold includes. apply existsb_exists. exists (Subject.id subject).
    split; [exact Hin|apply String.eqb_refl].
  - intros H. destruct (sortBy _ _) as [|g rest] eqn:E; [reflexivity|exfalso].
    assert (In g (g :: rest)) as Hin by now left.
    rewrite <- E in Hin. apply sortBy_In, filter_In in Hin as (Hg & Hin).
    unfold includes in Hin. apply existsb_exists in Hin as (x & Hx & Heq).
    apply String.eqb_eq in Heq. subst x. exact (H g Hg Hx).
Qed.

Lemma electiveDay index : (index < 3)%nat -> nth index [0; 1; 2] 0 = Z.of_nat index.
Proof. intros H. destruct index as [|[|[|n]]]; try reflexivity. lia. Qed.

(** C9 as stated fails: an elective without assigned theory faculty, and one
    whose department has no free classroom, are skipped without any
    explanation. *)
Lemma C9_silent_skip_counterexample :
  let unassigned :=
    fst (@placeOpenElective codeUnitLocale wholeBatch [facultyP5] (classrooms infra1) []
           0 electiveE2 (mkPlacement [] []) world0) in
  let noRoom :=
    fst (@placeOpenElective codeUnitLocale wholeBatch [facultyP5] [] []
           0 electiveE1 (mkPlacement [] []) world0) in
  (forall f, In f [facultyP5] ->
     ~ In (Subject.id electiveE2) (Faculty.assignedTheorySubjects f)) /\
  ~ skippedWithWarning 6 (mkPlacement [] []) unassigned /\
  unassigned = mkPlacement [] [] /\
  ~ skippedWithWarning 6 (mkPlacement [] []) noRoom /\
  noRoom = mkPlacement [] [].
Proof.
  cbv zeta. split; [|split; [|split; [|split]]].
  - intros f [<-|[]]. cbn. intros [H|[H|[]]]; discriminate H.
  - intros (_ & e & H & _). vm_compute in H. discriminate H.
  - vm_compute. reflexivity.
  - intros (_ & e & H & _). vm_compute in H. discriminate H.
  - vm_compute. reflexivity.
Qed.

(** C9, amended. In the open-elective phase a subject whose slot is occupied
    for the batch, or whose faculty is unavailable at the slot, is skipped
    with one WARNING (scheduler, step 6); a subject without assigned theory
    faculty, or without an available department classroom, is skipped with
    no explanation at all. In none of the four cases is an entry placed, and
    the phase goes on with the next subject. *)
Theorem C9_open_elective_skips (L : Locale) batch faculty classrooms existingEntries
    index subject acc w :
  (index < 3)%nat ->
  let day := Z.of_nat index in
  let combinedEntries := existingEntries ++ placed acc in
  let r := fst (placeOpenElective batch faculty classrooms existingEntries index subject
                  acc w) in
  (occupiedBy Entry.batchId (Batch.id batch) day 1 combinedEntries ->
   skippedWithWarning 6 acc r) /\
  (~ occupiedBy Entry.batchId (Batch.id batch) day 1 combinedEntries ->
   (forall f, In f faculty ->
      ~ In (Subject.id subject) (Faculty.assignedTheorySubjects f)) ->
   r = acc) /\
  (~ occupiedBy Entry.batchId (Batch.id batch) day 1 combinedEntries ->
   forall f, firstTheoryFaculty faculty subject = Some f ->
     occupiedBy Entry.facultyId (Faculty.id f) day 1 combinedEntries ->
     skippedWithWarning 6 acc r) /\
  (~ occupiedBy Entry.batchId (Batch.id batch) day 1 combinedEntries ->
   forall f, firstTheoryFaculty faculty subject = Some f ->
     ~ occupiedBy Entry.facultyId (Faculty.id f) day 1 combinedEntries ->
     (forall c, In c classrooms -> Classroom.departmentId c = Batch.departmentId batch ->
        occupiedBy Entry.roomId (Classroom.id c) day 1 combinedEntries) ->
     r = acc) /\
  (forall rest,
     forEachFrom (placeOpenElective batch faculty classrooms existingEntries)
       (subject :: rest) index acc w =
     forEachFrom (placeOpenElective batch faculty classrooms existingEntries)
       rest (S index) r
       (snd (placeOpenElective batch faculty classrooms existingEntries index subject
               acc w))).
Proof.
  intros Hindex day combinedEntries r.
  assert (forall msg related,
             skippedWithWarning 6 acc (note acc (explain WARNING SCHEDULER msg related 6)))
    as Hwarn.
  { intros msg related. split; [reflexivity|]. eexists. split; [reflexivity|].
    repeat split. }
  assert (Nat.leb (length [0; 1; 2]) index = false) as Hlen
    by (apply Nat.leb_gt; cbn; lia).
  split; [|split; [|split; [|split]]].
  - intros Hocc. apply unavailable_occupied in Hocc.
    subst r. unfold placeOpenElective. rewrite Hlen, electiveDay by exact Hindex.
    unfold isSlotAvailable. fold day. fold combinedEntries. rewrite Hocc. cbn [negb].
    apply Hwarn.
  - intros Hfree Hnone. apply available_not_occupied in Hfree.
    apply (proj2 (firstTheoryFaculty_none L faculty subject)) in Hnone.
    subst r. unfold placeOpenElective. rewrite Hlen, electiveDay by exact Hindex.
    unfold isSlotAvailable. fold day. fold combinedEntries. rewrite Hfree, Hnone.
    reflexivity.
  - intros Hfree f Hf Hocc. apply available_not_occupied in Hfree.
    apply unavailable_occupied in Hocc.
    subst r. unfold placeOpenElective. rewrite Hlen, electiveDay by exact Hindex.
    unfold isSlotAvailable, isFacultyAvailable. fold day. fold combinedEntries.
    rewrite Hfree, Hf, Hocc. cbn [negb]. apply Hwarn.
  - intros Hfree f Hf Hfac Hrooms. apply available_not_occupied in Hfree, Hfac.
    subst r. unfold placeOpenElective. rewrite Hlen, electiveDay by exact Hindex.
    unfold isSlotAvailable, isFacultyAvailable. fold day. fold combinedEntries.
    rewrite Hfree, Hf, Hfac. cbn [negb].
    rewrite find_none_intro; [reflexivity|].
    intros c Hc. apply sortBy_In, filter_In in Hc as (Hc & Hd).
    apply String.eqb_eq in Hd. unfold isRoomAvailable.
    apply unavailable_occupied. now apply Hrooms.
  - intros rest. cbn [forEachFrom]. unfold bind. subst r.
    destruct (placeOpenElective batch faculty classrooms existingEntries index subject
                acc w) as [acc' w']. reflexivity.
Qed.

Lemma C9_open_elective_skips_witness :
  fst (@placeOpenElective codeUnitLocale wholeBatch [facultyP5] (classrooms infra1) []
         0 electiveE2 (mkPlacement [] []) world0) = mkPlacement [] [].
Proof.
  apply (@C9_open_elective_skips codeUnitLocale wholeBatch [facultyP5] (classrooms infra1)
           [] 0%nat electiveE2 (mkPlacement [] []) world0).
  - lia.
  - intros (e & [] & _).
  - intros f [<-|[]]. cbn. intros [H|[H|[]]]; discriminate H.
Defined.

(** ** The allocation loop with a single lab subject *)

(** With one lab subject in scope the loop runs once: after the first
    session [subjectIndex] equals the subject count and the loop guard
    fails, so one session is placed whatever the number of free slots. *)
Lemma labLoop_single_subject (L : Locale) batch subject deptLabs lab0 faculty
    existingEntries existingRotations fuel :
  (exists f, In f faculty /\ In (Subject.id subject) (Faculty.assignedLabSubjects f)) ->
  getAvailableLabSlots existingEntries (Batch.id batch) <> [] ->
  post (labLoop batch [subject] subject deptLabs lab0 faculty existingEntries
          existingRotations (S (S fuel)) (mkLabLoop 0 [] 0 (mkLabAcc [] [] [])))
       (fun st => sessionNumber st = 1%nat).
Proof.
  intros (f & Hf & Hassigned) Hslots w.
  cbn [labLoop length Nat.ltb Nat.leb Nat.max MIN_LAB_SESSIONS_PER_WEEK andb
       subjectIndex sessionNumber loopAcc accEntries usedSlots includes existsb negb].
  rewrite app_nil_r.
  destruct (getAvailableLabSlots existingEntries (Batch.id batch)) as [|slot slots];
    [contradiction|].
  cbn [find Nat.modulo Nat.divmod fst snd nth Nat.sub].
  destruct (sortBy _ (filter _ faculty)) as [|faculty0 others] eqn:Efac.
  { exfalso. apply sortBy_nil_inv in Efac.
    assert (In f []) as []. rewrite <- Efac. apply filter_In. split; [exact Hf|].
    unfold includes. apply existsb_exists. exists (Subject.id subject).
    split; [exact Hassigned|apply String.eqb_refl]. }
  unfold bind.
  destruct (allocateSession _ _ _ _ _ _ _ _ _ _ _ w) as [acc' w'].
  reflexivity.
Qed.

(** C4, at a batch with one lab subject: twelve (day, slot) pairs are
    available, yet the allocator places one session (three period entries,
    one (day, slot) pair) and reports failure. *)
Theorem C4_single_lab_subject_one_session :
  let r := fst (@allocateLabsForBatch codeUnitLocale wholeBatch [labL1] (labs infra1)
                  [facultyF1] [] [] world0) in
  length (getAvailableLabSlots [] (Batch.id wholeBatch)) = 12%nat /\
  labSuccess r = false /\
  map (fun e => (Entry.day e, Entry.period e, Entry.subjectId e)) (labEntries r) =
    [(0, 2, "L1"); (0, 3, "L1"); (0, 4, "L1")] /\
  distinctSessions (labEntries r) = 1%nat /\
  In (explain ERROR LAB_ALLOCATOR
        ("Could only allocate 1 lab sessions for batch " +++ quoted "CSE-3B" +++
         ". Minimum required: 2.") (Some "b2") 3)
     (labExplanations r).
Proof.
  vm_compute. repeat split. right. left. reflexivity.
Qed.

(** ** Relations over all pairs of a list *)

Lemma FOP_app_one {A} (R : A -> A -> Prop) l x :
  ForallOrdPairs R l -> Forall (fun y => R y x) l -> ForallOrdPairs R (l ++ [x]).
Proof.
  induction 1 as [|a l Ha Hl IH]; intros Hx; simpl.
  - repeat constructor.
  - inversion Hx as [|? ? Hax Hlx]; subst. constructor.
    + apply Forall_app. split; [exact Ha|]. now constructor.
    + now apply IH.
Qed.

Lemma FOP_perm {A} (R : A -> A -> Prop) l l' :
  (forall a b, R a b -> R b a) ->
  Permutation l l' -> ForallOrdPairs R l -> ForallOrdPairs R l'.
Proof.
  intros Hsym. induction 1 as [|x l l' Hp IH|x y l|l l' l'' Hp1 IH1 Hp2 IH2]; intros H.
  - exact H.
  - inversion H as [|? ? Hx Hl]; subst. constructor; [|now apply IH].
    now apply (Permutation_Forall Hp).
  - inversion H as [|? ? Hy Hl]; subst. inversion Hl as [|? ? Hx Hl']; subst.
    inversion Hy as [|? ? Hyx Hyl]; subst.
    constructor; [constructor; [now apply Hsym|exact Hx]|].
    now constructor.
  - auto.
Qed.

Lemma FOP_nth {A} (R : A -> A -> Prop) l :
  (forall a b, R a b -> R b a) -> ForallOrdPairs R l ->
  forall i j a b, i <> j -> nth_error l i = Some a -> nth_error l j = Some b -> R a b.
Proof.
  intros Hsym. induction 1 as [|x l Hx Hl IH]; intros i j a b Hij Ha Hb.
  - destruct i; discriminate.
  - destruct i as [|i], j as [|j]; cbn in Ha, Hb.
    + congruence.
    + injection Ha as <-. apply nth_error_In in Hb.
      rewrite Forall_forall in Hx. now apply Hx.
    + injection Hb as <-. apply nth_error_In in Ha.
      rewrite Forall_forall in Hx. apply Hsym. now apply Hx.
    + apply (IH i j); auto.
Qed.

Lemma countIf_perm {A} (p : A -> bool) l l' :
  Permutation l l' -> countIf p l = countIf p l'.
Proof.
  induction 1; cbn; try lia.
Qed.

Lemma countIf_app {A} (p : A -> bool) l l' :
  countIf p (l ++ l') = (countIf p l + countIf p l')%nat.
Proof. induction l as [|x xs IH]; cbn; [reflexivity|]. rewrite IH. lia. Qed.

Lemma countIf_none {A} (p : A -> bool) l :
  Forall (fun x => p x = false) l -> countIf p l = 0%nat.
Proof. induction 1 as [|x xs Hx _ IH]; cbn; [reflexivity|]. now rewrite Hx, IH. Qed.

Lemma countIf_le_length {A} (p : A -> bool) l : (countIf p l <= length l)%nat.
Proof. induction l as [|x xs IH]; cbn; [lia|]. destruct (p x); lia. Qed.

(** ** The placement invariant *)

Lemma compatible_sym split e1 e2 : compatible split e1 e2 -> compatible split e2 e1.
Proof.
  unfold compatible, sameSlot, parallelLab. intros H (Hd & Hp).
  destruct H as (Hf & (H1 & H2 & H3 & H4) & Hs); [now split|].
  repeat split; auto.
Qed.

Lemma placementInv_nil batch : placementInv batch [].
Proof. split; constructor. Qed.

Lemma placementInv_add batch es e :
  placementInv batch es -> Entry.batchId e = Batch.id batch ->
  (forall e', In e' es -> compatible (isSplit batch) e' e) ->
  placementInv batch (es ++ [e]).
Proof.
  intros (Hb & Hc) He Hall. split.
  - apply Forall_app. split; [exact Hb|]. now constructor.
  - apply FOP_app_one; [exact Hc|]. now apply Forall_forall.
Qed.

(** An entry put into a slot that is free for the batch meets no other. *)
Lemma placementInv_add_free batch es e :
  placementInv batch es -> Entry.batchId e = Batch.id batch ->
  isSlotAvailable es (Batch.id batch) (Entry.day e) (Entry.period e) = true ->
  placementInv batch (es ++ [e]).
Proof.
  intros Hinv He Hfree. apply placementInv_add; [exact Hinv|exact He|].
  intros e' Hin (Hd & Hp). exfalso.
  unfold isSlotAvailable in Hfree. apply negb_true_iff in Hfree.
  apply (proj1 (slot_unused _ _ _ _ _) Hfree e' Hin); [|exact Hd|exact Hp].
  destruct Hinv as (Hb & _). rewrite Forall_forall in Hb. now apply Hb.
Qed.

Lemma placementInv_perm batch es es' :
  Permutation es es' -> placementInv batch es -> placementInv batch es'.
Proof.
  intros Hp (Hb & Hc). split.
  - now apply (Permutation_Forall Hp).
  - apply (FOP_perm (R := compatible (isSplit batch))) with es;
      [apply compatible_sym|exact Hp|exact Hc].
Qed.

(** What the invariant says of two entries at different positions. *)
Lemma placementInv_everyTwo batch es :
  placementInv batch es ->
  everyTwo es (fun e1 e2 => ~ facultyClash e1 e2) /\
  everyTwo es (fun e1 e2 =>
    batchClash e1 e2 \/ roomClash e1 e2 -> parallelLab e1 e2 /\ isSplit batch).
Proof.
  intros (_ & Hc).
  assert (everyTwo es (compatible (isSplit batch))) as H.
  { intros i j e1 e2. apply FOP_nth; [apply compatible_sym|exact Hc]. }
  split; intros i j e1 e2 Hij H1 H2.
  - intros (_ & Heq & Hs). destruct (H i j e1 e2 Hij H1 H2 Hs) as (Hne & _).
    contradiction.
  - intros [(_ & Hs)|(_ & _ & Hs)]; destruct (H i j e1 e2 Hij H1 H2 Hs) as (_ & Hp & Hsp);
      now split.
Qed.

(** ** The lab allocator keeps the invariant *)

Lemma labEntry_fields batch subject f lab sb slot period :
  post (labEntry batch subject f lab sb slot period)
       (labEntryFields batch subject f slot period).
Proof. intros w. cbn. repeat split. Qed.

Lemma slotPeriods_NoDup s : NoDup (slotPeriods s).
Proof. destruct s; repeat constructor; cbn; intuition discriminate. Qed.

Section LabInvariant.
Context {L : Locale}.
Variable subjects : list Subject.t.
Variable batch : Batch.t.
Variable existingEntries : list Entry.t.

(** The entries of one sub-batch go in one after the other: each meets only
    parallel entries of the session, held by other faculty. *)
Lemma pushLabEntries_from subject f lab sb slot : forall ps i es,
  NoDup ps -> incl ps (sessionPeriods slot) ->
  placementInv batch (existingEntries ++ es) ->
  (forall e, In e (existingEntries ++ es) -> Entry.day e = sessionDay slot ->
     In (Entry.period e) ps ->
     Entry.facultyId e <> Faculty.id f /\ sessionEntry batch subject slot e /\
     isSplit batch) ->
  post (forEachFrom (fun (_ : nat) period entries =>
                       e <- labEntry batch subject f lab sb slot period ;;
                       ret (entries ++ [e])) ps i es)
    (fun es' => placementInv batch (existingEntries ++ es') /\
                exists new, es' = es ++ new /\
                            Forall (sessionEntry batch subject slot) new).
Proof.
  induction ps as [|p ps IH]; intros i es Hnd Hincl Hinv Hgood.
  - apply post_ret. split; [exact Hinv|]. exists []. rewrite app_nil_r. now split.
  - cbn [forEachFrom].
    eapply post_bind with
      (P := fun es1 => exists e, es1 = es ++ [e] /\
                                 labEntryFields batch subject f slot p e).
    + eapply post_bind; [apply labEntry_fields|].
      intros e He. apply post_ret. exists e. now split.
    + cbv beta. intros es1 (e & -> & Hd & Hp & Hs & Hf & Hb & Hlab & Hslot).
      apply NoDup_cons_iff in Hnd as (Hnot & Hnd').
      eapply post_weaken.
      * apply IH; [exact Hnd'|intros q Hq; apply Hincl; now right| |].
        { rewrite app_assoc. apply placementInv_add; [exact Hinv|exact Hb|].
          intros e' Hin (Hd' & Hp').
          destruct (Hgood e' Hin) as (Hne & Hse & Hsplit); [congruence| |].
          { rewrite Hp'. now left. }
          destruct Hse as (_ & _ & Hs' & _ & Hlab' & Hslot').
          split; [congruence|]. split; [|exact Hsplit].
          repeat split; congruence. }
        { intros e' Hin Hd' Hp'. rewrite app_assoc in Hin.
          apply in_app_or in Hin as [Hin|[<-|[]]].
          - apply Hgood; [exact Hin|exact Hd'|now right].
          - exfalso. apply Hnot. congruence. }
      * cbv beta. intros es' (Hinv' & new & -> & Hnew). split; [exact Hinv'|].
        exists (e :: new). rewrite <- app_assoc. split; [reflexivity|].
        constructor; [|exact Hnew].
        repeat split; auto. apply Hincl. rewrite Hp. now left.
Qed.

Lemma pushLabEntries_inv subject f lab sb slot es :
  NoDup (sessionPeriods slot) ->
  placementInv batch (existingEntries ++ es) ->
  (forall e, In e (existingEntries ++ es) -> Entry.day e = sessionDay slot ->
     In (Entry.period e) (sessionPeriods slot) ->
     Entry.facultyId e <> Faculty.id f /\ sessionEntry batch subject slot e /\
     isSplit batch) ->
  post (pushLabEntries batch subject f lab sb slot es)
    (fun es' => placementInv batch (existingEntries ++ es') /\
                exists new, es' = es ++ new /\
                            Forall (sessionEntry batch subject slot) new).
Proof.
  intros Hnd Hinv Hgood. unfold pushLabEntries, forEach.
  apply pushLabEntries_from; auto. intros p Hp. exact Hp.
Qed.

Lemma sessionEntry_placedAs subject slot e :
  In subject subjects -> Subject.type subject = LAB ->
  sessionEntry batch subject slot e -> placedAs subjects LAB e.
Proof.
  intros Hin Hty (_ & _ & Hs & _). exists subject. repeat split; auto.
Qed.

Lemma sessionInv_push subject f lab sb slot acc rotations explanations :
  In subject subjects -> Subject.type subject = LAB ->
  NoDup (sessionPeriods slot) -> isSplit batch ->
  isFacultyAvailableForSlot (existingEntries ++ accEntries acc) (Faculty.id f)
    (sessionDay slot) (sessionPeriods slot) = true ->
  sessionInv subjects batch existingEntries subject slot acc ->
  post (entries <- pushLabEntries batch subject f lab sb slot (accEntries acc) ;;
        ret (mkLabAcc entries rotations explanations))
       (sessionInv subjects batch existingEntries subject slot).
Proof.
  intros Hin Hty Hnd Hsplit Havail (Hinv & Hown & Hplaced).
  unfold isFacultyAvailableForSlot in Havail. apply negb_true_iff in Havail.
  eapply post_bind.
  - apply pushLabEntries_inv; [exact Hnd|exact Hinv|].
    intros e He Hd Hp. split; [|split; [now apply Hown|exact Hsplit]].
    intros Hf. exact (proj1 (periods_unused _ _ _ _ _) Havail e He Hf Hd Hp).
  - cbv beta. intros es' (Hinv' & new & -> & Hnew). apply post_ret.
    split; [exact Hinv'|]. cbn [accEntries]. split.
    + intros e He Hd Hp. rewrite app_assoc in He. apply in_app_or in He as [He|He].
      * now apply Hown.
      * rewrite Forall_forall in Hnew. now apply Hnew.
    + apply Forall_app. split; [exact Hplaced|].
      eapply Forall_impl; [|exact Hnew]. intros e. now apply sessionEntry_placedAs.
Qed.

Lemma allocateSubBatch_inv deptLabs lab0 existingRotations subject labFaculty faculty0
    slot sessionNumber index subBatch acc :
  In subject subjects -> Subject.type subject = LAB ->
  NoDup (sessionPeriods slot) -> isSplit batch ->
  sessionInv subjects batch existingEntries subject slot acc ->
  post (allocateSubBatch batch deptLabs lab0 existingEntries existingRotations subject
          labFaculty faculty0 slot sessionNumber index subBatch acc)
       (sessionInv subjects batch existingEntries subject slot).
Proof.
  intros Hin Hty Hnd Hsplit Hinv. unfold allocateSubBatch.
  destruct (isFacultyAvailableForSlot _ (Faculty.id (nth _ labFaculty faculty0)) _ _)
    eqn:Hcandidate.
  - now apply sessionInv_push.
  - destruct (find _ labFaculty) as [f|] eqn:Hfind.
    + apply find_some in Hfind as (_ & Havail). now apply sessionInv_push.
    + apply post_ret. exact Hinv.
Qed.

Lemma allocateSession_inv deptLabs lab0 existingRotations subject labFaculty faculty0
    slot sessionNumber acc :
  In subject subjects -> Subject.type subject = LAB ->
  NoDup (sessionPeriods slot) ->
  placementInv batch (existingEntries ++ accEntries acc) ->
  (forall e, In e (existingEntries ++ accEntries acc) ->
     Entry.day e = sessionDay slot -> ~ In (Entry.period e) (sessionPeriods slot)) ->
  Forall (placedAs subjects LAB) (accEntries acc) ->
  post (allocateSession batch deptLabs lab0 existingEntries existingRotations subject
          labFaculty faculty0 slot sessionNumber acc)
       (fun acc' => placementInv batch (existingEntries ++ accEntries acc') /\
                    Forall (placedAs subjects LAB) (accEntries acc')).
Proof.
  intros Hin Hty Hnd Hinv Hfree Hplaced. unfold allocateSession.
  destruct (1 <? length (Batch.subBatches batch))%nat eqn:Hsplit.
  - apply Nat.ltb_lt in Hsplit.
    apply post_weaken with (P := sessionInv subjects batch existingEntries subject slot).
    + apply post_forEach.
      * intros i sb acc0 _ Hacc0. now apply allocateSubBatch_inv.
      * split; [exact Hinv|split; [|exact Hplaced]].
        intros e He Hd Hp. exfalso. exact (Hfree e He Hd Hp).
    + intros acc' (Hinv' & _ & Hplaced'). now split.
  - eapply post_bind.
    + apply pushLabEntries_inv with (f := faculty0); [exact Hnd|exact Hinv|].
      intros e He Hd Hp. exfalso. exact (Hfree e He Hd Hp).
    + cbv beta. intros es' (Hinv' & new & -> & Hnew). apply post_ret.
      split; [exact Hinv'|]. cbn [accEntries]. apply Forall_app. split; [exact Hplaced|].
      eapply Forall_impl; [|exact Hnew]. intros e. now apply sessionEntry_placedAs.
Qed.

Lemma labLoop_inv sortedLabSubjects subject0 deptLabs lab0 faculty existingRotations :
  (forall s, In s (subject0 :: sortedLabSubjects) ->
     In s subjects /\ Subject.type s = LAB) ->
  forall fuel st,
    placementInv batch (existingEntries ++ accEntries (loopAcc st)) ->
    Forall (placedAs subjects LAB) (accEntries (loopAcc st)) ->
    post (labLoop batch sortedLabSubjects subject0 deptLabs lab0 faculty existingEntries
            existingRotations fuel st)
         (fun st' => placementInv batch (existingEntries ++ accEntries (loopAcc st')) /\
                     Forall (placedAs subjects LAB) (accEntries (loopAcc st'))).
Proof.
  intros Hsubjects. induction fuel as [|fuel IH]; intros st Hinv Hplaced.
  - apply post_ret. now split.
  - cbn [labLoop]. destruct (_ && _); [|apply post_ret; now split].
    destruct (find _ _) as [slot|] eqn:Hfind; [|apply post_ret; now split].
    apply find_some in Hfind as (Hslot & _).
    apply availableLabSlots_spec in Hslot as (_ & Hperiods & Hfree).
    destruct (sortBy _ (filter _ faculty)) as [|faculty0 others] eqn:Hfaculty.
    + apply IH; assumption.
    + set (subject := nth (subjectIndex st mod length sortedLabSubjects)%nat
                        sortedLabSubjects subject0).
      assert (In subject (subject0 :: sortedLabSubjects)) as Hsubject.
      { unfold subject.
        destruct (nth_in_or_default (subjectIndex st mod length sortedLabSubjects)%nat
                    sortedLabSubjects subject0) as [H| ->]; [now right|now left]. }
      apply Hsubjects in Hsubject as (Hin & Hty).
      eapply post_bind.
      * apply allocateSession_inv with (subject := subject); auto.
        { rewrite Hperiods. apply slotPeriods_NoDup. }
        { intros e He Hd. rewrite Hperiods. apply (Hfree e He); [|exact Hd].
          destruct Hinv as (Hb & _). rewrite Forall_forall in Hb. now apply Hb. }
      * cbv beta. intros acc' (Hinv' & Hplaced').
        destruct (_ && _); [apply post_ret; now split|]. now apply IH.
Qed.

Lemma allocateLabsForBatch_inv labSubjects labs faculty existingRotations :
  (forall s, In s labSubjects -> In s subjects /\ Subject.type s = LAB) ->
  placementInv batch existingEntries ->
  post (allocateLabsForBatch batch labSubjects labs faculty existingEntries
          existingRotations)
       (fun r => placementInv batch (existingEntries ++ labEntries r) /\
                 Forall (placedAs subjects LAB) (labEntries r)).
Proof.
  intros Hsubjects Hinv. unfold allocateLabsForBatch.
  assert (placementInv batch (existingEntries ++ []) /\
          Forall (placedAs subjects LAB) []) as Hnil.
  { rewrite app_nil_r. now split. }
  destruct (sortBy _ (filter _ labSubjects)) as [|subject0 rest] eqn:Esub;
    [apply post_ret; exact Hnil|].
  destruct (sortBy _ (filter _ labs)) as [|lab0 rest'] eqn:Elab;
    [apply post_ret; exact Hnil|].
  destruct (_ <? _)%nat; [apply post_ret; exact Hnil|].
  eapply post_bind.
  - apply labLoop_inv.
    + intros s Hs. apply Hsubjects.
      assert (In s (subject0 :: rest)) as Hin by (destruct Hs as [<-|Hs]; [now left|exact Hs]).
      rewrite <- Esub in Hin. now apply sortBy_In, filter_In in Hin as (Hin & _).
    + exact (proj1 Hnil).
    + constructor.
  - cbv beta. intros st (Hinv' & Hplaced'). destruct (_ <? _)%nat; apply post_ret; now split.
Qed.
End LabInvariant.

(** ** The scheduler phases keep the invariant *)

Lemma placeTheoryEntry_fields batch subject facultyId classroomId day period :
  post (placeTheoryEntry batch subject facultyId classroomId day period)
       (theoryEntryFields batch subject facultyId classroomId day period).
Proof. intros w. cbn. repeat split. Qed.

Lemma scopedSubjects_In (L : Locale) ty batch subjects s :
  In s (scopedSubjects ty batch subjects) -> In s subjects /\ Subject.type s = ty.
Proof.
  unfold scopedSubjects. intros H. apply sortBy_In, filter_In in H as (Hin & H).
  split; [exact Hin|]. apply andb_true_iff in H as (H & _).
  apply andb_true_iff in H as (H & _).
  destruct (Subject.type s), ty; (reflexivity || discriminate).
Qed.

Section PhaseInvariant.
Context {L : Locale}.
Variable subjects : list Subject.t.
Variable batch : Batch.t.
Variable faculty : list Faculty.t.
Variable classrooms : list Classroom.t.
Variable existingEntries : list Entry.t.

(** An entry placed in a slot that is free for the batch. *)
Lemma phaseInv_add ty subject facultyId classroomId day period es e :
  In subject subjects -> Subject.type subject = ty ->
  phaseInv subjects batch existingEntries ty es ->
  isSlotAvailable (existingEntries ++ es) (Batch.id batch) day period = true ->
  theoryEntryFields batch subject facultyId classroomId day period e ->
  slotRule ty e ->
  phaseInv subjects batch existingEntries ty (es ++ [e]).
Proof.
  intros Hin Hty (Hinv & Hplaced) Hfree (Hd & Hp & Hs & _ & _ & Hb & _) Hrule. split.
  - rewrite app_assoc. apply placementInv_add_free; [exact Hinv|exact Hb|].
    now rewrite Hd, Hp.
  - apply Forall_app. split; [exact Hplaced|]. constructor; [|constructor].
    exists subject. repeat split; auto.
Qed.

Lemma phaseInv_nil ty :
  placementInv batch existingEntries -> phaseInv subjects batch existingEntries ty [].
Proof. intros H. split; [now rewrite app_nil_r|constructor]. Qed.

Lemma mandatoryDay index :
  (index < 2)%nat -> nth index [0; 1] 0 = 0 \/ nth index [0; 1] 0 = 1.
Proof. intros H. destruct index as [|[|n]]; cbn; auto. lia. Qed.

Lemma electiveDays index :
  (index < 3)%nat ->
  nth index [0; 1; 2] 0 = 0 \/ nth index [0; 1; 2] 0 = 1 \/ nth index [0; 1; 2] 0 = 2.
Proof. intros H. destruct index as [|[|[|n]]]; cbn; auto. lia. Qed.

Lemma placeMandatorySubject_inv index subject acc :
  In subject subjects -> Subject.type subject = MANDATORY ->
  phaseInv subjects batch existingEntries MANDATORY (placed acc) ->
  post (placeMandatorySubject batch faculty classrooms existingEntries index subject acc)
       (fun acc' => phaseInv subjects batch existingEntries MANDATORY (placed acc')).
Proof.
  intros Hin Hty Hinv. unfold placeMandatorySubject.
  destruct (_ <=? index)%nat eqn:Hindex; [apply post_ret; exact Hinv|].
  apply Nat.leb_gt in Hindex. cbn [length] in Hindex.
  destruct (isSlotAvailable _ _ _ _) eqn:Hfree; cbn [negb]; [|apply post_ret; exact Hinv].
  destruct (firstTheoryFaculty faculty subject) as [f|]; [|apply post_ret; exact Hinv].
  destruct (negb (isFacultyAvailable _ _ _ _)); [apply post_ret; exact Hinv|].
  destruct (find _ _) as [c|]; [|apply post_ret; exact Hinv].
  eapply post_bind; [apply placeTheoryEntry_fields|].
  intros e He. apply post_ret. cbn [placed].
  eapply phaseInv_add; eauto.
  destruct He as (Hd & Hp & _). cbn. rewrite Hd. split; [exact Hp|].
  now apply mandatoryDay.
Qed.

Lemma placeMandatorySubjects_inv :
  placementInv batch existingEntries ->
  post (placeMandatorySubjects batch faculty classrooms existingEntries subjects)
       (fun p => phaseInv subjects batch existingEntries MANDATORY (placed p)).
Proof.
  intros Hinv. unfold placeMandatorySubjects. apply post_forEach.
  - intros i s acc Hs Hacc. apply scopedSubjects_In in Hs as (Hin & Hty).
    now apply placeMandatorySubject_inv.
  - now apply phaseInv_nil.
Qed.

Lemma placeOpenElective_inv index subject acc :
  In subject subjects -> Subject.type subject = OPEN_ELECTIVE ->
  phaseInv subjects batch existingEntries OPEN_ELECTIVE (placed acc) ->
  post (placeOpenElective batch faculty classrooms existingEntries index subject acc)
       (fun acc' => phaseInv subjects batch existingEntries OPEN_ELECTIVE (placed acc')).
Proof.
  intros Hin Hty Hinv. unfold placeOpenElective.
  destruct (_ <=? index)%nat eqn:Hindex; [apply post_ret; exact Hinv|].
  apply Nat.leb_gt in Hindex. cbn [length] in Hindex.
  destruct (isSlotAvailable _ _ _ _) eqn:Hfree; cbn [negb]; [|apply post_ret; exact Hinv].
  destruct (firstTheoryFaculty faculty subject) as [f|]; [|apply post_ret; exact Hinv].
  destruct (negb (isFacultyAvailable _ _ _ _)); [apply post_ret; exact Hinv|].
  destruct (find _ _) as [c|]; [|apply post_ret; exact Hinv].
  eapply post_bind; [apply placeTheoryEntry_fields|].
  intros e He. apply post_ret. cbn [placed].
  eapply phaseInv_add; eauto.
  destruct He as (Hd & Hp & _). cbn. rewrite Hd. split; [exact Hp|].
  now apply electiveDays.
Qed.

Lemma placeOpenElectives_inv :
  placementInv batch existingEntries ->
  post (placeOpenElectives batch faculty classrooms existingEntries subjects)
       (fun p => phaseInv subjects batch existingEntries OPEN_ELECTIVE (placed p)).
Proof.
  intros Hinv. unfold placeOpenElectives. apply post_forEach.
  - intros i s acc Hs Hacc. apply scopedSubjects_In in Hs as (Hin & Hty).
    now apply placeOpenElective_inv.
  - now apply phaseInv_nil.
Qed.

Lemma theoryLoop_inv subject assignedFaculty classroom periodsToPlace maxAttempts :
  In subject subjects -> Subject.type subject = THEORY ->
  forall fuel st,
    phaseInv subjects batch existingEntries THEORY (cursorEntries st) ->
    post (theoryLoop batch existingEntries fuel subject assignedFaculty classroom
            periodsToPlace maxAttempts st)
         (fun st' => phaseInv subjects batch existingEntries THEORY (cursorEntries st')).
Proof.
  intros Hin Hty. induction fuel as [|fuel IH]; intros st Hinv.
  - apply post_ret. exact Hinv.
  - cbn [theoryLoop]. destruct (_ && _); [|apply post_ret; exact Hinv].
    eapply post_bind with
      (P := fun st1 => phaseInv subjects batch existingEntries THEORY (cursorEntries st1)).
    + destruct (_ && _) eqn:Hfree; [|apply post_ret; exact Hinv].
      apply andb_true_iff in Hfree as (Hfree & _).
      apply andb_true_iff in Hfree as (Hfree & _).
      eapply post_bind; [apply placeTheoryEntry_fields|].
      intros e He. apply post_ret. cbn [cursorEntries].
      eapply phaseInv_add; eauto; exact I.
    + intros st1 Hst1. now apply IH.
Qed.

Lemma distributeTheorySubject_inv index subject st :
  In subject subjects -> Subject.type subject = THEORY ->
  phaseInv subjects batch existingEntries THEORY (placed (theoryPlacement st)) ->
  post (distributeTheorySubject batch faculty classrooms existingEntries index subject st)
       (fun st' => phaseInv subjects batch existingEntries THEORY
                     (placed (theoryPlacement st'))).
Proof.
  intros Hin Hty Hinv. unfold distributeTheorySubject.
  destruct (firstTheoryFaculty faculty subject) as [f|]; [|apply post_ret; exact Hinv].
  destruct (hd_error _) as [c|]; [|apply post_ret; exact Hinv].
  eapply post_bind.
  - apply theoryLoop_inv; [exact Hin|exact Hty|exact Hinv].
  - cbv beta. intros cur Hcur. apply post_ret. exact Hcur.
Qed.

Lemma distributeTheorySubjects_inv :
  placementInv batch existingEntries ->
  post (distributeTheorySubjects batch faculty classrooms existingEntries subjects)
       (fun p => phaseInv subjects batch existingEntries THEORY (placed p)).
Proof.
  intros Hinv. unfold distributeTheorySubjects. eapply post_bind.
  - apply post_forEach with
      (I := fun st => phaseInv subjects batch existingEntries THEORY
                        (placed (theoryPlacement st))).
    + intros i s st Hs Hst. apply scopedSubjects_In in Hs as (Hin & Hty).
      now apply distributeTheorySubject_inv.
    + now apply phaseInv_nil.
  - cbv beta. intros st Hst. apply post_ret. exact Hst.
Qed.

Lemma autoFillLibrary_inv :
  placementInv batch existingEntries ->
  post (autoFillLibrary batch existingEntries subjects)
       (fun p => phaseInv subjects batch existingEntries LIBRARY (placed p) /\
                 (length (placed p) <= 1)%nat).
Proof.
  intros Hinv. unfold autoFillLibrary.
  assert (phaseInv subjects batch existingEntries LIBRARY [] /\ (length (@nil Entry.t) <= 1)%nat)
    as Hnil.
  { split; [now apply phaseInv_nil|cbn; lia]. }
  destruct (hd_error _) as [s|] eqn:Hs; [|apply post_ret; exact Hnil].
  assert (In s (scopedSubjects LIBRARY batch subjects)) as Hin.
  { destruct (scopedSubjects LIBRARY batch subjects) as [|x xs]; [discriminate|].
    injection Hs as ->. now left. }
  apply scopedSubjects_In in Hin as (Hin & Hty).
  destruct (find _ _) as [[day period]|] eqn:Hfind; [|apply post_ret; exact Hnil].
  apply find_some in Hfind as (_ & Hfree). cbn [fst snd] in Hfree.
  intros w. cbn. split; [|lia]. split.
  - apply placementInv_add_free; [exact Hinv|reflexivity|exact Hfree].
  - constructor; [|constructor]. exists s. repeat split; auto.
Qed.
End PhaseInvariant.

Lemma placedAs_before subjects ty e :
  ty <> LIBRARY -> placedAs subjects ty e -> placedBeforeLibrary subjects e.
Proof. intros Hty H. now exists ty. Qed.

(** Steps 3 to 7 together. *)
Lemma accumulateEntries_inv (L : Locale) infrastructure academic batch rotations :
  post (accumulateEntries infrastructure academic batch rotations)
       (fun acc => accumulatedInv (subjects academic) batch (allEntries acc)).
Proof.
  unfold accumulateEntries. eapply post_bind.
  { apply allocateLabsForBatch_inv with (subjects := subjects academic).
    - intros s Hs. apply filter_In in Hs as (Hin & Hty). split; [exact Hin|].
      destruct (Subject.type s); (reflexivity || discriminate).
    - apply placementInv_nil. }
  cbv beta. intros labResult (Hlab & HlabAs).
  assert (forall es, placementInv batch es ->
            Forall (placedBeforeLibrary (subjects academic)) es ->
            accumulatedInv (subjects academic) batch es) as Hdone.
  { intros es Hinv Hes. split; [exact Hinv|]. exists es, [].
    rewrite app_nil_r. repeat split; auto. }
  assert (Forall (placedBeforeLibrary (subjects academic)) ([] ++ labEntries labResult))
    as Hbefore.
  { cbn. eapply Forall_impl; [|exact HlabAs].
    intros e. apply placedAs_before. discriminate. }
  destruct (labSuccess labResult); cbn [negb]; [|apply post_ret; now apply Hdone].
  eapply post_bind; [apply placeMandatorySubjects_inv; exact Hlab|].
  cbv beta. intros mandatory (Hm & HmAs).
  eapply post_bind; [apply distributeTheorySubjects_inv; exact Hm|].
  cbv beta. intros theory (Ht & HtAs).
  eapply post_bind; [apply placeOpenElectives_inv; exact Ht|].
  cbv beta. intros elective (He & HeAs).
  eapply post_bind; [apply autoFillLibrary_inv; exact He|].
  cbv beta. intros library ((Hl & HlAs) & Hone).
  apply post_ret. cbn [allEntries]. split; [exact Hl|].
  eexists. exists (placed library). split; [reflexivity|].
  split; [|now split].
  assert (forall ty es, ty <> LIBRARY -> Forall (placedAs (subjects academic) ty) es ->
            Forall (placedBeforeLibrary (subjects academic)) es) as Hconv.
  { intros ty es Hty Hes. eapply Forall_impl; [|exact Hes].
    intros e. now apply placedAs_before. }
  apply Forall_app; split;
    [apply Forall_app; split; [apply Forall_app; split; [exact Hbefore|]|]|];
    (eapply Hconv; [|eassumption]; discriminate).
Qed.

(** ** The generated timetable *)

(** A successful run returns the sorted entries of steps 3 to 7. *)
Lemma generateTimetable_success (L : Locale) infrastructure academic batchId rotations :
  post (generateTimetable infrastructure academic batchId rotations)
    (fun r => GenerationResult.success r = true ->
       exists tt batch es,
         GenerationResult.timetable r = Some tt /\
         find (fun b => String.eqb (Batch.id b) batchId) (batches academic) = Some batch /\
         accumulatedInv (subjects academic) batch es /\
         Timetable.entries tt = sortBy byDayThenPeriod es /\
         Timetable.batchId tt = Batch.id batch /\
         Timetable.isValid tt = true).
Proof.
  unfold generateTimetable.
  destruct (isValid _); cbn [negb]; [|apply post_ret; discriminate].
  destruct (find _ _) as [batch|] eqn:Hfind; [|apply post_ret; discriminate].
  eapply post_bind; [apply accumulateEntries_inv|].
  cbv beta. intros acc Hacc.
  destruct (labsAllocated acc); cbn [negb]; [|apply post_ret; discriminate].
  destruct (hasWorkloadViolation _ _ _); [apply post_ret; discriminate|].
  intros w _. cbn. eexists. exists batch, (allEntries acc).
  split; [reflexivity|]. split; [reflexivity|]. split; [exact Hacc|]. now repeat split.
Qed.

(** ** Entries that meet in a slot are for different sub-batches *)

Lemma apart_sym e1 e2 : apart e1 e2 -> apart e2 e1.
Proof.
  unfold apart, sameSlot. intros H (Hd & Hp).
  destruct H as (i & j & Hi & Hj & Hij); [now split|].
  exists j, i. repeat split; auto.
Qed.

Lemma subBatchInv_nil batch : subBatchInv batch [].
Proof. split; constructor. Qed.

Lemma subBatchInv_add batch es e :
  subBatchInv batch es -> Entry.batchId e = Batch.id batch ->
  (forall e', In e' es -> apart e' e) ->
  subBatchInv batch (es ++ [e]).
Proof.
  intros (Hb & Hc) He Hall. split.
  - apply Forall_app. split; [exact Hb|]. now constructor.
  - apply FOP_app_one; [exact Hc|]. now apply Forall_forall.
Qed.

(** An entry put into a slot that is free for the batch meets no other. *)
Lemma subBatchInv_add_free batch es e :
  subBatchInv batch es -> Entry.batchId e = Batch.id batch ->
  isSlotAvailable es (Batch.id batch) (Entry.day e) (Entry.period e) = true ->
  subBatchInv batch (es ++ [e]).
Proof.
  intros Hinv He Hfree. apply subBatchInv_add; [exact Hinv|exact He|].
  intros e' Hin (Hd & Hp). exfalso.
  unfold isSlotAvailable in Hfree. apply negb_true_iff in Hfree.
  apply (proj1 (slot_unused _ _ _ _ _) Hfree e' Hin); [|exact Hd|exact Hp].
  destruct Hinv as (Hb & _). rewrite Forall_forall in Hb. now apply Hb.
Qed.

Lemma subBatchInv_perm batch es es' :
  Permutation es es' -> subBatchInv batch es -> subBatchInv batch es'.
Proof.
  intros Hp (Hb & Hc). split.
  - now apply (Permutation_Forall Hp).
  - apply (FOP_perm (R := apart)) with es; [apply apart_sym|exact Hp|exact Hc].
Qed.

Section SubBatchLabs.
Context {L : Locale}.
Variable batch : Batch.t.
Variable existingEntries : list Entry.t.
Hypothesis distinctIds : NoDup (map SubBatch.id (Batch.subBatches batch)).

(** The entries of one sub-batch go in one after the other: each meets only
    entries of other sub-batches. *)
Lemma pushLabEntries_apart_from subject f lab sb slot : forall ps i es,
  NoDup ps ->
  subBatchInv batch (existingEntries ++ es) ->
  (forall e, In e (existingEntries ++ es) -> Entry.day e = sessionDay slot ->
     In (Entry.period e) ps ->
     exists a b, Entry.subBatchId e = Some a /\ sb = Some b /\ a <> b) ->
  post (forEachFrom (fun (_ : nat) period entries =>
                       e <- labEntry batch subject f lab sb slot period ;;
                       ret (entries ++ [e])) ps i es)
    (fun es' => subBatchInv batch (existingEntries ++ es') /\
                exists new, es' = es ++ new /\
                            Forall (fun e => Entry.subBatchId e = sb) new).
Proof.
  induction ps as [|p ps IH]; intros i es Hnd Hinv Hgood.
  - apply post_ret. split; [exact Hinv|]. exists []. rewrite app_nil_r. now split.
  - cbn [forEachFrom].
    eapply post_bind with
      (P := fun es1 => exists e, es1 = es ++ [e] /\
                                 labEntryFields batch subject f slot p e /\
                                 Entry.subBatchId e = sb).
    + intros w. cbn. eexists. split; [reflexivity|]. now repeat split.
    + cbv beta. intros es1 (e & -> & (Hd & Hp & _ & _ & Hb & _) & Hsb).
      apply NoDup_cons_iff in Hnd as (Hnot & Hnd').
      eapply post_weaken.
      * apply IH; [exact Hnd'| |].
        { rewrite app_assoc. apply subBatchInv_add; [exact Hinv|exact Hb|].
          intros e' Hin (Hd' & Hp').
          destruct (Hgood e' Hin) as (a & b & Ha & Hb' & Hab); [congruence| |].
          { rewrite Hp', Hp. now left. }
          exists a, b. repeat split; congruence. }
        { intros e' Hin Hd' Hp'. rewrite app_assoc in Hin.
          apply in_app_or in Hin as [Hin|[<-|[]]].
          - apply Hgood; [exact Hin|exact Hd'|now right].
          - exfalso. apply Hnot. congruence. }
      * cbv beta. intros es' (Hinv' & new & -> & Hnew). split; [exact Hinv'|].
        exists (e :: new). rewrite <- app_assoc. split; [reflexivity|].
        constructor; [exact Hsb|exact Hnew].
Qed.

Lemma pushLabEntries_apart subject f lab sb slot es :
  NoDup (sessionPeriods slot) ->
  subBatchInv batch (existingEntries ++ es) ->
  (forall e, In e (existingEntries ++ es) -> Entry.day e = sessionDay slot ->
     In (Entry.period e) (sessionPeriods slot) ->
     exists a b, Entry.subBatchId e = Some a /\ sb = Some b /\ a <> b) ->
  post (pushLabEntries batch subject f lab sb slot es)
    (fun es' => subBatchInv batch (existingEntries ++ es') /\
                exists new, es' = es ++ new /\
                            Forall (fun e => Entry.subBatchId e = sb) new).
Proof.
  intros Hnd Hinv Hgood. unfold pushLabEntries, forEach.
  now apply pushLabEntries_apart_from.
Qed.

Lemma subBatchSessionInv_more slot handled subBatch acc :
  subBatchSessionInv batch existingEntries slot handled acc ->
  subBatchSessionInv batch existingEntries slot (handled ++ [subBatch]) acc.
Proof.
  intros (Hinv & Hown). split; [exact Hinv|].
  intros e He Hd Hp. destruct (Hown e He Hd Hp) as (sb & Hsb & Hid).
  exists sb. split; [apply in_or_app; now left|exact Hid].
Qed.

Lemma subBatchSessionInv_push subject f lab slot handled subBatch acc rotations
    explanations :
  NoDup (sessionPeriods slot) ->
  ~ In (SubBatch.id subBatch) (map SubBatch.id handled) ->
  subBatchSessionInv batch existingEntries slot handled acc ->
  post (entries <- pushLabEntries batch subject f lab (Some (SubBatch.id subBatch)) slot
                     (accEntries acc) ;;
        ret (mkLabAcc entries rotations explanations))
       (subBatchSessionInv batch existingEntries slot (handled ++ [subBatch])).
Proof.
  intros Hnd Hfresh (Hinv & Hown). eapply post_bind.
  - apply pushLabEntries_apart; [exact Hnd|exact Hinv|].
    intros e He Hd Hp. destruct (Hown e He Hd Hp) as (sb & Hsb & Hid).
    exists (SubBatch.id sb), (SubBatch.id subBatch).
    split; [exact Hid|split; [reflexivity|]].
    intros Heq. apply Hfresh. rewrite <- Heq. now apply in_map.
  - cbv beta. intros es' (Hinv' & new & -> & Hnew). apply post_ret.
    split; [exact Hinv'|]. cbn [accEntries].
    intros e He Hd Hp. rewrite app_assoc in He. apply in_app_or in He as [He|He].
    + destruct (Hown e He Hd Hp) as (sb & Hsb & Hid).
      exists sb. split; [apply in_or_app; now left|exact Hid].
    + exists subBatch. split; [apply in_or_app; right; now left|].
      rewrite Forall_forall in Hnew. now apply Hnew.
Qed.

Lemma allocateSubBatch_apart deptLabs lab0 existingRotations subject labFaculty faculty0
    slot sessionNumber index handled subBatch acc :
  NoDup (sessionPeriods slot) ->
  ~ In (SubBatch.id subBatch) (map SubBatch.id handled) ->
  subBatchSessionInv batch existingEntries slot handled acc ->
  post (allocateSubBatch batch deptLabs lab0 existingEntries existingRotations subject
          labFaculty faculty0 slot sessionNumber index subBatch acc)
       (subBatchSessionInv batch existingEntries slot (handled ++ [subBatch])).
Proof.
  intros Hnd Hfresh Hinv. unfold allocateSubBatch.
  destruct (isFacultyAvailableForSlot _ (Faculty.id (nth _ labFaculty faculty0)) _ _).
  - now apply subBatchSessionInv_push.
  - destruct (find _ labFaculty) as [f|].
    + now apply subBatchSessionInv_push.
    + apply post_ret. now apply subBatchSessionInv_more.
Qed.

Lemma allocateSession_apart deptLabs lab0 existingRotations subject labFaculty faculty0
    slot sessionNumber acc :
  NoDup (sessionPeriods slot) ->
  subBatchInv batch (existingEntries ++ accEntries acc) ->
  (forall e, In e (existingEntries ++ accEntries acc) ->
     Entry.day e = sessionDay slot -> ~ In (Entry.period e) (sessionPeriods slot)) ->
  post (allocateSession batch deptLabs lab0 existingEntries existingRotations subject
          labFaculty faculty0 slot sessionNumber acc)
       (fun acc' => subBatchInv batch (existingEntries ++ accEntries acc')).
Proof.
  intros Hnd Hinv Hfree. unfold allocateSession.
  destruct (1 <? length (Batch.subBatches batch))%nat.
  - set (sortedSubBatches := sortBy _ (Batch.subBatches batch)).
    assert (NoDup (map SubBatch.id sortedSubBatches)) as Hsorted.
    { eapply Permutation_NoDup; [|exact distinctIds].
      apply Permutation_map, sortBy_perm. }
    unfold forEach. eapply post_weaken.
    + apply post_forEachFrom_split with
        (I := subBatchSessionInv batch existingEntries slot) (pre := []).
      * intros i pre x rest s Hwhole Hs. apply allocateSubBatch_apart; [exact Hnd| |exact Hs].
        rewrite Hwhole, map_app in Hsorted. cbn [map] in Hsorted.
        apply NoDup_remove_2 in Hsorted. intros Hin. apply Hsorted.
        apply in_or_app. now left.
      * reflexivity.
      * split; [exact Hinv|]. intros e He Hd Hp. exfalso. exact (Hfree e He Hd Hp).
    + cbv beta. intros acc' (Hinv' & _). exact Hinv'.
  - eapply post_bind.
    + apply pushLabEntries_apart with (f := faculty0) (sb := @None string);
        [exact Hnd|exact Hinv|].
      intros e He Hd Hp. exfalso. exact (Hfree e He Hd Hp).
    + cbv beta. intros es' (Hinv' & _). apply post_ret. exact Hinv'.
Qed.

Lemma labLoop_apart sortedLabSubjects subject0 deptLabs lab0 faculty existingRotations :
  forall fuel st,
    subBatchInv batch (existingEntries ++ accEntries (loopAcc st)) ->
    post (labLoop batch sortedLabSubjects subject0 deptLabs lab0 faculty existingEntries
            existingRotations fuel st)
         (fun st' => subBatchInv batch (existingEntries ++ accEntries (loopAcc st'))).
Proof.
  induction fuel as [|fuel IH]; intros st Hinv.
  - apply post_ret. exact Hinv.
  - cbn [labLoop]. destruct (_ && _); [|apply post_ret; exact Hinv].
    destruct (find _ _) as [slot|] eqn:Hfind; [|apply post_ret; exact Hinv].
    apply find_some in Hfind as (Hslot & _).
    apply availableLabSlots_spec in Hslot as (_ & Hperiods & Hfree).
    destruct (sortBy _ (filter _ faculty)) as [|faculty0 others] eqn:Hfaculty.
    + apply IH. exact Hinv.
    + eapply post_bind.
      * apply allocateSession_apart; [|exact Hinv|].
        { rewrite Hperiods. apply slotPeriods_NoDup. }
        { intros e He Hd. rewrite Hperiods. apply (Hfree e He); [|exact Hd].
          destruct Hinv as (Hb & _). rewrite Forall_forall in Hb. now apply Hb. }
      * cbv beta. intros acc' Hinv'.
        destruct (_ && _); [apply post_ret; exact Hinv'|]. now apply IH.
Qed.

Lemma allocateLabsForBatch_apart labSubjects labs faculty existingRotations :
  subBatchInv batch existingEntries ->
  post (allocateLabsForBatch batch labSubjects labs faculty existingEntries
          existingRotations)
       (fun r => subBatchInv batch (existingEntries ++ labEntries r)).
Proof.
  intros Hinv. unfold allocateLabsForBatch.
  assert (subBatchInv batch (existingEntries ++ [])) as Hnil by now rewrite app_nil_r.
  destruct (sortBy _ (filter _ labSubjects)) as [|subject0 rest];
    [apply post_ret; exact Hnil|].
  destruct (sortBy _ (filter _ labs)) as [|lab0 rest'];
    [apply post_ret; exact Hnil|].
  destruct (_ <? _)%nat; [apply post_ret; exact Hnil|].
  eapply post_bind.
  - apply labLoop_apart. exact Hnil.
  - cbv beta. intros st Hinv'. destruct (_ <? _)%nat; apply post_ret; exact Hinv'.
Qed.
End SubBatchLabs.

Section SubBatchPhases.
Context {L : Locale}.
Variable subjects : list Subject.t.
Variable batch : Batch.t.
Variable faculty : list Faculty.t.
Variable classrooms : list Classroom.t.
Variable existingEntries : list Entry.t.

(** An entry placed in a slot that is free for the batch. *)
Lemma subBatchInv_place subject facultyId classroomId day period es e :
  subBatchInv batch (existingEntries ++ es) ->
  isSlotAvailable (existingEntries ++ es) (Batch.id batch) day period = true ->
  theoryEntryFields batch subject facultyId classroomId day period e ->
  subBatchInv batch (existingEntries ++ es ++ [e]).
Proof.
  intros Hinv Hfree (Hd & Hp & _ & _ & _ & Hb & _).
  rewrite app_assoc. apply subBatchInv_add_free; [exact Hinv|exact Hb|].
  now rewrite Hd, Hp.
Qed.

Lemma placeMandatorySubjects_apart :
  subBatchInv batch existingEntries ->
  post (placeMandatorySubjects batch faculty classrooms existingEntries subjects)
       (fun p => subBatchInv batch (existingEntries ++ placed p)).
Proof.
  intros Hinv. unfold placeMandatorySubjects. apply post_forEach.
  - intros index subject acc _ Hacc. unfold placeMandatorySubject.
    destruct (_ <=? index)%nat; [apply post_ret; exact Hacc|].
    destruct (isSlotAvailable _ _ _ _) eqn:Hfree; cbn [negb]; [|apply post_ret; exact Hacc].
    destruct (firstTheoryFaculty faculty subject) as [f|]; [|apply post_ret; exact Hacc].
    destruct (negb (isFacultyAvailable _ _ _ _)); [apply post_ret; exact Hacc|].
    destruct (find _ _) as [c|]; [|apply post_ret; exact Hacc].
    eapply post_bind; [apply placeTheoryEntry_fields|].
    intros e He. apply post_ret. cbn [placed].
    eapply subBatchInv_place; eauto.
  - cbn [placed]. now rewrite app_nil_r.
Qed.

Lemma placeOpenElectives_apart :
  subBatchInv batch existingEntries ->
  post (placeOpenElectives batch faculty classrooms existingEntries subjects)
       (fun p => subBatchInv batch (existingEntries ++ placed p)).
Proof.
  intros Hinv. unfold placeOpenElectives. apply post_forEach.
  - intros index subject acc _ Hacc. unfold placeOpenElective.
    destruct (_ <=? index)%nat; [apply post_ret; exact Hacc|].
    destruct (isSlotAvailable _ _ _ _) eqn:Hfree; cbn [negb]; [|apply post_ret; exact Hacc].
    destruct (firstTheoryFaculty faculty subject) as [f|]; [|apply post_ret; exact Hacc].
    destruct (negb (isFacultyAvailable _ _ _ _)); [apply post_ret; exact Hacc|].
    destruct (find _ _) as [c|]; [|apply post_ret; exact Hacc].
    eapply post_bind; [apply placeTheoryEntry_fields|].
    intros e He. apply post_ret. cbn [placed].
    eapply subBatchInv_place; eauto.
  - cbn [placed]. now rewrite app_nil_r.
Qed.

Lemma theoryLoop_apart subject assignedFaculty classroom periodsToPlace maxAttempts :
  forall fuel st,
    subBatchInv batch (existingEntries ++ cursorEntries st) ->
    post (theoryLoop batch existingEntries fuel subject assignedFaculty classroom
            periodsToPlace maxAttempts st)
         (fun st' => subBatchInv batch (existingEntries ++ cursorEntries st')).
Proof.
  induction fuel as [|fuel IH]; intros st Hinv.
  - apply post_ret. exact Hinv.
  - cbn [theoryLoop]. destruct (_ && _); [|apply post_ret; exact Hinv].
    eapply post_bind with
      (P := fun st1 => subBatchInv batch (existingEntries ++ cursorEntries st1)).
    + destruct (_ && _) eqn:Hfree; [|apply post_ret; exact Hinv].
      apply andb_true_iff in Hfree as (Hfree & _).
      apply andb_true_iff in Hfree as (Hfree & _).
      eapply post_bind; [apply placeTheoryEntry_fields|].
      intros e He. apply post_ret. cbn [cursorEntries].
      eapply subBatchInv_place; eauto.
    + intros st1 Hst1. now apply IH.
Qed.

Lemma distributeTheorySubjects_apart :
  subBatchInv batch existingEntries ->
  post (distributeTheorySubjects batch faculty classrooms existingEntries subjects)
       (fun p => subBatchInv batch (existingEntries ++ placed p)).
Proof.
  intros Hinv. unfold distributeTheorySubjects. eapply post_bind.
  - apply post_forEach with
      (I := fun st => subBatchInv batch
                        (existingEntries ++ placed (theoryPlacement st))).
    + intros index subject st _ Hst. unfold distributeTheorySubject.
      destruct (firstTheoryFaculty faculty subject) as [f|]; [|apply post_ret; exact Hst].
      destruct (hd_error _) as [c|]; [|apply post_ret; exact Hst].
      eapply post_bind; [apply theoryLoop_apart; exact Hst|].
      cbv beta. intros cur Hcur. apply post_ret. exact Hcur.
    + cbn. now rewrite app_nil_r.
  - cbv beta. intros st Hst. apply post_ret. exact Hst.
Qed.

Lemma autoFillLibrary_apart :
  subBatchInv batch existingEntries ->
  post (autoFillLibrary batch existingEntries subjects)
       (fun p => subBatchInv batch (existingEntries ++ placed p)).
Proof.
  intros Hinv. unfold autoFillLibrary.
  assert (subBatchInv batch (existingEntries ++ [])) as Hnil by now rewrite app_nil_r.
  destruct (hd_error _) as [s|]; [|apply post_ret; exact Hnil].
  destruct (find _ _) as [[day period]|] eqn:Hfind; [|apply post_ret; exact Hnil].
  apply find_some in Hfind as (_ & Hfree). cbn [fst snd] in Hfree.
  intros w. cbn. apply subBatchInv_add_free; [exact Hinv|reflexivity|exact Hfree].
Qed.
End SubBatchPhases.

(** Steps 3 to 7 together. *)
Lemma accumulateEntries_apart (L : Locale) infrastructure academic batch rotations :
  NoDup (map SubBatch.id (Batch.subBatches batch)) ->
  post (accumulateEntries infrastructure academic batch rotations)
       (fun acc => subBatchInv batch (allEntries acc)).
Proof.
  intros Hdistinct. unfold accumulateEntries. eapply post_bind.
  { apply allocateLabsForBatch_apart; [exact Hdistinct|apply subBatchInv_nil]. }
  cbv beta. intros labResult Hlab.
  destruct (labSuccess labResult); cbn [negb]; [|apply post_ret; exact Hlab].
  eapply post_bind; [apply placeMandatorySubjects_apart; exact Hlab|].
  cbv beta. intros mandatory Hm.
  eapply post_bind; [apply distributeTheorySubjects_apart; exact Hm|].
  cbv beta. intros theory Ht.
  eapply post_bind; [apply placeOpenElectives_apart; exact Ht|].
  cbv beta. intros elective He.
  eapply post_bind; [apply autoFillLibrary_apart; exact He|].
  cbv beta. intros library Hl. apply post_ret. exact Hl.
Qed.

(** In a timetable returned with success the entries that meet in a slot are
    for different sub-batches. *)
Lemma generateTimetable_apart (L : Locale) infrastructure academic batchId rotations :
  subBatchIdsDistinct academic batchId ->
  post (generateTimetable infrastructure academic batchId rotations)
    (fun r => forall tt, GenerationResult.timetable r = Some tt ->
       exists batch,
         find (fun b => String.eqb (Batch.id b) batchId) (batches academic) = Some batch /\
         subBatchInv batch (Timetable.entries tt)).
Proof.
  intros Hdistinct. unfold generateTimetable.
  destruct (isValid _); cbn [negb]; [|apply post_ret; discriminate].
  destruct (find _ _) as [batch|] eqn:Hfind; [|apply post_ret; discriminate].
  eapply post_bind; [apply accumulateEntries_apart; now apply Hdistinct|].
  cbv beta. intros acc Hacc.
  destruct (labsAllocated acc); cbn [negb]; [|apply post_ret; discriminate].
  destruct (hasWorkloadViolation _ _ _); [apply post_ret; discriminate|].
  intros w tt Htt. cbn in Htt. injection Htt as <-. exists batch.
  split; [reflexivity|]. cbn [Timetable.entries].
  eapply subBatchInv_perm; [apply sortBy_perm|exact Hacc].
Qed.

(** What the two invariants say of two entries at different positions. *)
Lemma invariants_everyTwo batch es :
  placementInv batch es -> subBatchInv batch es ->
  everyTwo es (fun e1 e2 =>
    sameSlot e1 e2 -> parallelSubBatches e1 e2 /\ isSplit batch).
Proof.
  intros (_ & Hc) (_ & Ha) i j e1 e2 Hij H1 H2 Hs.
  destruct (@FOP_nth _ (compatible (isSplit batch)) es (@compatible_sym _) Hc
              i j e1 e2 Hij H1 H2 Hs) as (_ & Hp & Hsplit).
  split; [|exact Hsplit]. split; [exact Hp|].
  exact (@FOP_nth _ apart es apart_sym Ha i j e1 e2 Hij H1 H2 Hs).
Qed.

(** C1 as stated fails: for a batch of two sub-batches in a department
    with two labs, generation succeeds and the first two entries of the
    timetable, the lab entries of the two sub-batches in the first session,
    each in a lab of its own, share the batch, the day and the period. *)
Lemma C1_split_batch_counterexample :
  let r := fst (@generateTimetable codeUnitLocale infra2 acad1 "b1" [] world0) in
  GenerationResult.success r = true /\
  exists tt, GenerationResult.timetable r = Some tt /\
    ~ conflictFree (Timetable.entries tt) /\
    exists e1 e2, nth_error (Timetable.entries tt) 0 = Some e1 /\
                  nth_error (Timetable.entries tt) 1 = Some e2 /\
                  batchClash e1 e2 /\ parallelSubBatches e1 e2 /\
                  Entry.roomId e1 = "lab1" /\ Entry.roomId e2 = "lab2".
Proof.
  cbv zeta. split; [vm_compute; reflexivity|].
  eexists. split; [vm_compute; reflexivity|].
  cbn [Timetable.entries].
  assert (forall e1 e2 rest,
            batchClash e1 e2 /\ parallelSubBatches e1 e2 /\
            Entry.roomId e1 = "lab1" /\ Entry.roomId e2 = "lab2" ->
            ~ conflictFree (e1 :: e2 :: rest) /\
            exists a b, nth_error (e1 :: e2 :: rest) 0 = Some a /\
                        nth_error (e1 :: e2 :: rest) 1 = Some b /\
                        batchClash a b /\ parallelSubBatches a b /\
                        Entry.roomId a = "lab1" /\ Entry.roomId b = "lab2") as Hclash.
  { intros e1 e2 rest (Hb & Hrest). split.
    - intros Hfree. destruct (Hfree 0%nat 1%nat e1 e2) as (Hnb & _); auto.
    - exists e1, e2. split; [reflexivity|split; [reflexivity|split; assumption]]. }
  apply Hclash. split; [repeat split|]. split; [|split; reflexivity].
  split; [repeat split|]. exists "sb1", "sb2". repeat split. discriminate.
Qed.

(** C1, amended. In a timetable returned with success=true no two entries
    share (facultyId, day, period). When the sub-batches of the batch have
    different ids, two entries share (batchId, day, period) only as lab
    entries of one session (same subject, same lab slot) placed in parallel
    for two different sub-batches of a batch with more than one sub-batch,
    and two entries that are not such a pair share no (roomId, day, period);
    nothing is said of the labs of the sub-batches of one session. For a
    batch that is not split the timetable is conflict-free as claimed. *)
Theorem C1_generated_conflicts (L : Locale) infrastructure academic batchId rotations w :
  let r := fst (generateTimetable infrastructure academic batchId rotations w) in
  GenerationResult.success r = true ->
  exists tt,
    GenerationResult.timetable r = Some tt /\
    everyTwo (Timetable.entries tt) (fun e1 e2 => ~ facultyClash e1 e2) /\
    (subBatchIdsDistinct academic batchId ->
     everyTwo (Timetable.entries tt) (fun e1 e2 =>
       batchClash e1 e2 ->
       parallelSubBatches e1 e2 /\ splitBatchTarget academic batchId) /\
     everyTwo (Timetable.entries tt) (fun e1 e2 =>
       ~ parallelSubBatches e1 e2 -> ~ roomClash e1 e2)) /\
    (~ splitBatchTarget academic batchId -> conflictFree (Timetable.entries tt)).
Proof.
  intros r Hsuccess.
  destruct (generateTimetable_success L infrastructure academic batchId rotations w Hsuccess)
    as (tt & batch & es & Htt & Hfind & (Hinv & _) & Hentries & _).
  exists tt. split; [exact Htt|].
  assert (placementInv batch (Timetable.entries tt)) as Hsorted.
  { rewrite Hentries. eapply placementInv_perm; [apply sortBy_perm|exact Hinv]. }
  destruct (placementInv_everyTwo Hsorted) as (Hfaculty & Hother).
  split; [exact Hfaculty|]. split.
  - intros Hdistinct.
    destruct (generateTimetable_apart L infrastructure rotations Hdistinct w Htt)
      as (batch' & Hfind' & Hapart).
    assert (batch' = batch) as -> by congruence.
    pose proof (invariants_everyTwo Hsorted Hapart) as Hpairs.
    split; intros i j e1 e2 Hij H1 H2.
    + intros (_ & Hs). destruct (Hpairs i j e1 e2 Hij H1 H2 Hs) as (Hp & Hsplit).
      split; [exact Hp|]. now exists batch.
    + intros Hnot (_ & _ & Hs). apply Hnot.
      now destruct (Hpairs i j e1 e2 Hij H1 H2 Hs).
  - intros Hwhole i j e1 e2 Hij H1 H2.
    split; [|split].
    + intros Hclash. apply Hwhole. exists batch. split; [exact Hfind|].
      now apply (Hother i j e1 e2 Hij H1 H2); left.
    + now apply (Hfaculty i j e1 e2).
    + intros Hclash. apply Hwhole. exists batch. split; [exact Hfind|].
      now apply (Hother i j e1 e2 Hij H1 H2); right.
Qed.

Lemma C1_generated_conflicts_witness :
  exists tt,
    GenerationResult.timetable
      (fst (@generateTimetable codeUnitLocale infra1 acad1 "b1" [] world0)) = Some tt /\
    everyTwo (Timetable.entries tt) (fun e1 e2 => ~ facultyClash e1 e2) /\
    everyTwo (Timetable.entries tt) (fun e1 e2 =>
      batchClash e1 e2 -> parallelSubBatches e1 e2 /\ splitBatchTarget acad1 "b1").
Proof.
  destruct (@C1_generated_conflicts codeUnitLocale infra1 acad1 "b1" [] world0)
    as (tt & Htt & Hfaculty & Hsub & _).
  - vm_compute. reflexivity.
  - exists tt. split; [exact Htt|]. split; [exact Hfaculty|].
    apply Hsub. intros batch Hfind. vm_compute in Hfind. injection Hfind as <-.
    cbn. repeat constructor; cbn; intuition discriminate.
Defined.

(** The lab of a sub-batch is picked from the rotation alone. With two labs
    and an earlier rotation of the first sub-batch, both sub-batches of the
    session are put in the second lab and the first lab stays empty. *)
Lemma parallel_sub_batches_in_one_lab :
  let r := fst (@generateTimetable codeUnitLocale infra2 acad1 "b1" rotationsSb1 world0) in
  GenerationResult.success r = true /\
  exists tt, GenerationResult.timetable r = Some tt /\
    Forall (fun e => Entry.roomId e = "lab2") (Timetable.entries tt) /\
    exists e1 e2, nth_error (Timetable.entries tt) 0 = Some e1 /\
                  nth_error (Timetable.entries tt) 1 = Some e2 /\
                  parallelSubBatches e1 e2 /\ roomClash e1 e2.
Proof.
  cbv zeta. split; [vm_compute; reflexivity|].
  eexists. split; [vm_compute; reflexivity|].
  cbn [Timetable.entries]. split.
  - repeat constructor.
  - eexists. eexists. split; [reflexivity|]. split; [reflexivity|]. split.
    + split; [repeat split|]. exists "sb1", "sb2". repeat split. discriminate.
    + repeat split. discriminate.
Qed.

(** ** Entries and the type of their subject *)

Lemma subject_by_id subjects s s' :
  NoDup (map Subject.id subjects) -> In s subjects -> In s' subjects ->
  Subject.id s = Subject.id s' -> s = s'.
Proof.
  induction subjects as [|x xs IH]; cbn; intros Hnd Hs Hs' Hid; [contradiction|].
  apply NoDup_cons_iff in Hnd as (Hnot & Hnd).
  destruct Hs as [->|Hs], Hs' as [->|Hs'].
  - reflexivity.
  - exfalso. apply Hnot. rewrite Hid. now apply in_map.
  - exfalso. apply Hnot. rewrite <- Hid. now apply in_map.
  - now apply IH.
Qed.

Lemma entryOfType_true subjects ty e :
  entryOfType subjects ty e = true <->
  exists s, In s subjects /\ Subject.id s = Entry.subjectId e /\ Subject.type s = ty.
Proof.
  unfold entryOfType. rewrite existsb_exists. split.
  - intros (s & Hs & H). apply andb_true_iff in H as (Hid & Hty).
    exists s. split; [exact Hs|]. split; [now apply String.eqb_eq|].
    destruct (Subject.type s), ty; (reflexivity || discriminate).
  - intros (s & Hs & Hid & Hty). exists s. split; [exact Hs|].
    apply andb_true_iff. split; [now apply String.eqb_eq|].
    rewrite Hty. now destruct ty.
Qed.

(** With distinct subject ids an entry has the type it was placed as. *)
Lemma placedAs_type subjects ty e s :
  NoDup (map Subject.id subjects) -> placedAs subjects ty e ->
  In s subjects -> Subject.id s = Entry.subjectId e ->
  Subject.type s = ty /\ slotRule ty e.
Proof.
  intros Hnd (s' & Hs' & Hid' & Hty & Hrule) Hs Hid.
  assert (s = s') as -> by (apply (@subject_by_id subjects s s' Hnd Hs Hs'); congruence).
  now split.
Qed.

(** C7. When the subject ids of the snapshot are distinct, in every
    generated timetable an entry of a MANDATORY subject has period 3 and day
    0 or 1, an entry of an OPEN_ELECTIVE subject has period 1 and day 0, 1
    or 2, and at most one entry, all entries being the batch's, is of a
    LIBRARY subject. *)
Theorem C7_typed_placement (L : Locale) infrastructure academic batchId rotations w :
  NoDup (map Subject.id (subjects academic)) ->
  let r := fst (generateTimetable infrastructure academic batchId rotations w) in
  GenerationResult.success r = true ->
  exists tt,
    GenerationResult.timetable r = Some tt /\
    (forall e s, In e (Timetable.entries tt) -> In s (subjects academic) ->
       Subject.id s = Entry.subjectId e -> Subject.type s = MANDATORY ->
       Entry.period e = 3 /\ (Entry.day e = 0 \/ Entry.day e = 1)) /\
    (forall e s, In e (Timetable.entries tt) -> In s (subjects academic) ->
       Subject.id s = Entry.subjectId e -> Subject.type s = OPEN_ELECTIVE ->
       Entry.period e = 1 /\ (Entry.day e = 0 \/ Entry.day e = 1 \/ Entry.day e = 2)) /\
    Forall (fun e => Entry.batchId e = Timetable.batchId tt) (Timetable.entries tt) /\
    (countIf (entryOfType (subjects academic) LIBRARY) (Timetable.entries tt) <= 1)%nat.
Proof.
  intros Hnd r Hsuccess.
  destruct (generateTimetable_success L infrastructure academic batchId rotations w Hsuccess)
    as (tt & batch & es & Htt & _ & ((Hbatch & _) & before & library & -> & Hbefore &
        Hlibrary & Hone) & Hentries & Hid & _).
  exists tt. split; [exact Htt|].
  assert (forall e s ty, In e (Timetable.entries tt) -> In s (subjects academic) ->
            Subject.id s = Entry.subjectId e -> Subject.type s = ty -> ty <> LIBRARY ->
            slotRule ty e) as Hrule.
  { intros e s ty He Hs Hsid Hty Hnot. rewrite Hentries in He.
    apply sortBy_In, in_app_or in He as [He|He].
    - rewrite Forall_forall in Hbefore. destruct (Hbefore e He) as (ty' & _ & Has).
      destruct (@placedAs_type _ _ _ _ Hnd Has Hs Hsid) as (Hty' & Hr). congruence.
    - rewrite Forall_forall in Hlibrary.
      destruct (@placedAs_type _ _ _ _ Hnd (Hlibrary e He) Hs Hsid) as (Hty' & _). congruence. }
  split; [|split; [|split]].
  - intros e s He Hs Hsid Hty. apply (Hrule e s MANDATORY); auto. discriminate.
  - intros e s He Hs Hsid Hty. apply (Hrule e s OPEN_ELECTIVE); auto. discriminate.
  - rewrite Hentries, Hid. apply (Permutation_Forall (sortBy_perm _ _)). exact Hbatch.
  - rewrite Hentries, <- (@countIf_perm _ _ _ _ (sortBy_perm byDayThenPeriod _)), countIf_app.
    rewrite (@countIf_none _ (entryOfType (subjects academic) LIBRARY) before).
    + pose proof (countIf_le_length (entryOfType (subjects academic) LIBRARY) library). lia.
    + eapply Forall_impl; [|exact Hbefore]. intros e (ty & Hty & Has).
      apply not_true_is_false. intros Htrue.
      apply entryOfType_true in Htrue as (s & Hs & Hsid & Hlib).
      destruct (@placedAs_type _ _ _ _ Hnd Has Hs Hsid) as (Hty' & _). congruence.
Qed.

Lemma C7_typed_placement_witness :
  exists tt,
    GenerationResult.timetable
      (fst (@generateTimetable codeUnitLocale infra1 acadFull "b2" [] world0)) = Some tt /\
    (countIf (entryOfType (subjects acadFull) LIBRARY) (Timetable.entries tt) <= 1)%nat.
Proof.
  destruct (@C7_typed_placement codeUnitLocale infra1 acadFull "b2" [] world0)
    as (tt & Htt & _ & _ & _ & Hlibrary).
  - repeat constructor; cbn; intuition discriminate.
  - vm_compute. reflexivity.
  - exists tt. split; assumption.
Defined.

(** ** Determinism: the outside source only fills in ids and times *)

Lemma agree_ret {A} (R : A -> A -> Prop) a1 a2 : R a1 a2 -> agree R (ret a1) (ret a2).
Proof. intros H w1 w2. exact H. Qed.

Lemma agree_bind {A B} (R : A -> A -> Prop) (Q : B -> B -> Prop) c1 c2 k1 k2 :
  agree R c1 c2 -> (forall a1 a2, R a1 a2 -> agree Q (k1 a1) (k2 a2)) ->
  agree Q (bind c1 k1) (bind c2 k2).
Proof.
  intros Hc Hk w1 w2. unfold bind. specialize (Hc w1 w2).
  destruct (c1 w1) as [a1 w1'], (c2 w2) as [a2 w2']. now apply Hk.
Qed.

Lemma agree_forEachFrom {A St} (R : St -> St -> Prop) (f1 f2 : nat -> A -> St -> Gen St) :
  (forall i x s1 s2, R s1 s2 -> agree R (f1 i x s1) (f2 i x s2)) ->
  forall l i s1 s2, R s1 s2 -> agree R (forEachFrom f1 l i s1) (forEachFrom f2 l i s2).
Proof.
  intros Hf. induction l as [|x xs IH]; intros i s1 s2 Hs; cbn [forEachFrom].
  - now apply agree_ret.
  - eapply agree_bind; [now apply Hf|]. intros t1 t2 Ht. now apply IH.
Qed.

Lemma agree_forEach {A St} (R : St -> St -> Prop) (f1 f2 : nat -> A -> St -> Gen St) l s1 s2 :
  (forall i x s1 s2, R s1 s2 -> agree R (f1 i x s1) (f2 i x s2)) ->
  R s1 s2 -> agree R (forEach f1 l s1) (forEach f2 l s2).
Proof. intros Hf Hs. now apply agree_forEachFrom. Qed.

Lemma sameEntries_refl es : sameEntries es es.
Proof. reflexivity. Qed.

Lemma sameEntries_app a1 a2 b1 b2 :
  sameEntries a1 a2 -> sameEntries b1 b2 -> sameEntries (a1 ++ b1) (a2 ++ b2).
Proof. unfold sameEntries. intros Ha Hb. now rewrite !map_app, Ha, Hb. Qed.

Lemma sameEntries_one e1 e2 : eraseEntry e1 = eraseEntry e2 -> sameEntries [e1] [e2].
Proof. unfold sameEntries. cbn. now intros ->. Qed.

Lemma sameEntries_length es1 es2 : sameEntries es1 es2 -> length es1 = length es2.
Proof.
  intros H. apply (f_equal (@length _)) in H. now rewrite !length_map in H.
Qed.

Lemma sameEntries_cons_inv e1 es1 e2 es2 :
  sameEntries (e1 :: es1) (e2 :: es2) ->
  eraseEntry e1 = eraseEntry e2 /\ sameEntries es1 es2.
Proof.
  intros H. split.
  - exact (f_equal (hd (eraseEntry e1)) H).
  - exact (f_equal (@tl _) H).
Qed.

(** Induction over two lists of the same entries. *)
Lemma sameEntries_ind2 (P : list Entry.t -> list Entry.t -> Prop) :
  P [] [] ->
  (forall e1 es1 e2 es2, eraseEntry e1 = eraseEntry e2 -> sameEntries es1 es2 ->
     P es1 es2 -> P (e1 :: es1) (e2 :: es2)) ->
  forall es1 es2, sameEntries es1 es2 -> P es1 es2.
Proof.
  intros Hnil Hcons. induction es1 as [|e1 es1 IH]; intros [|e2 es2] H.
  - exact Hnil.
  - discriminate H.
  - discriminate H.
  - apply sameEntries_cons_inv in H as (He & H). apply Hcons; auto.
Qed.

(** A test that does not look at the id or the time of an entry. *)
Lemma existsb_same (g : Entry.t -> bool) es1 es2 :
  (forall e, g (eraseEntry e) = g e) -> sameEntries es1 es2 ->
  existsb g es1 = existsb g es2.
Proof.
  intros Hg H. induction H as [|e1 es1 e2 es2 He H IH] using sameEntries_ind2;
    [reflexivity|].
  cbn. rewrite IH. f_equal. now rewrite <- (Hg e1), <- (Hg e2), He.
Qed.

Lemma filter_same (g : Entry.t -> bool) es1 es2 :
  (forall e, g (eraseEntry e) = g e) -> sameEntries es1 es2 ->
  sameEntries (filter g es1) (filter g es2).
Proof.
  intros Hg H. induction H as [|e1 es1 e2 es2 He H IH] using sameEntries_ind2;
    [reflexivity|].
  cbn [filter].
  assert (g e1 = g e2) as -> by now rewrite <- (Hg e1), <- (Hg e2), He.
  destruct (g e2); [|exact IH].
  unfold sameEntries in *. cbn [map]. now rewrite He, IH.
Qed.

Lemma map_same {B} (k : Entry.t -> B) es1 es2 :
  (forall e, k (eraseEntry e) = k e) -> sameEntries es1 es2 -> map k es1 = map k es2.
Proof.
  intros Hk H. apply (f_equal (map k)) in H. rewrite !map_map in H.
  rewrite (map_ext _ k Hk es1), (map_ext _ k Hk es2) in H. exact H.
Qed.

Lemma occupies_erase key x day period :
  (forall e, key (eraseEntry e) = key e) ->
  forall e, occupies key x day period (eraseEntry e) = occupies key x day period e.
Proof. intros Hk e. unfold occupies. now rewrite Hk. Qed.

Lemma slotTest_same key x day period es1 es2 :
  (forall e, key (eraseEntry e) = key e) -> sameEntries es1 es2 ->
  existsb (occupies key x day period) es1 = existsb (occupies key x day period) es2.
Proof. intros Hk. apply existsb_same. now apply occupies_erase. Qed.

Lemma isSlotAvailable_same es1 es2 batchId day period :
  sameEntries es1 es2 ->
  isSlotAvailable es1 batchId day period = isSlotAvailable es2 batchId day period.
Proof. intros H. unfold isSlotAvailable. f_equal. now apply slotTest_same. Qed.

Lemma isFacultyAvailable_same es1 es2 facultyId day period :
  sameEntries es1 es2 ->
  isFacultyAvailable es1 facultyId day period = isFacultyAvailable es2 facultyId day period.
Proof. intros H. unfold isFacultyAvailable. f_equal. now apply slotTest_same. Qed.

Lemma isRoomAvailable_same es1 es2 roomId day period :
  sameEntries es1 es2 ->
  isRoomAvailable es1 roomId day period = isRoomAvailable es2 roomId day period.
Proof. intros H. unfold isRoomAvailable. f_equal. now apply slotTest_same. Qed.

Lemma periodsTest_same key x day periods es1 es2 :
  (forall e, key (eraseEntry e) = key e) -> sameEntries es1 es2 ->
  existsb (fun period => existsb (occupies key x day period) es1) periods =
  existsb (fun period => existsb (occupies key x day period) es2) periods.
Proof.
  intros Hk H. induction periods as [|p ps IH]; cbn; [reflexivity|].
  now rewrite IH, (@slotTest_same key x day p es1 es2 Hk H).
Qed.

Lemma isFacultyAvailableForSlot_same es1 es2 facultyId day periods :
  sameEntries es1 es2 ->
  isFacultyAvailableForSlot es1 facultyId day periods =
  isFacultyAvailableForSlot es2 facultyId day periods.
Proof. intros H. unfold isFacultyAvailableForSlot. f_equal. now apply periodsTest_same. Qed.

Lemma getAvailableLabSlots_same es1 es2 batchId :
  sameEntries es1 es2 ->
  getAvailableLabSlots es1 batchId = getAvailableLabSlots es2 batchId.
Proof.
  intros H. unfold getAvailableLabSlots. apply flat_map_ext. intros day.
  now rewrite !(@periodsTest_same Entry.batchId batchId day _ es1 es2 (fun e => eq_refl) H).
Qed.

Lemma byDayThenPeriod_erase a b :
  byDayThenPeriod (eraseEntry a) (eraseEntry b) = byDayThenPeriod a b.
Proof. reflexivity. Qed.

Lemma insertBy_same x1 x2 l1 l2 :
  eraseEntry x1 = eraseEntry x2 -> sameEntries l1 l2 ->
  sameEntries (insertBy byDayThenPeriod x1 l1) (insertBy byDayThenPeriod x2 l2).
Proof.
  intros Hx H. induction H as [|y1 l1 y2 l2 Hy H IH] using sameEntries_ind2.
  - now apply sameEntries_one.
  - cbn [insertBy].
    assert (byDayThenPeriod x1 y1 = byDayThenPeriod x2 y2) as ->.
    { now rewrite <- (byDayThenPeriod_erase x1 y1), <- (byDayThenPeriod_erase x2 y2), Hx, Hy. }
    unfold sameEntries in *. destruct (_ <=? 0); cbn [map].
    + now rewrite Hx, Hy, H.
    + now rewrite Hy, IH.
Qed.

Lemma sortBy_same es1 es2 :
  sameEntries es1 es2 ->
  sameEntries (sortBy byDayThenPeriod es1) (sortBy byDayThenPeriod es2).
Proof.
  intros H. induction H as [|e1 es1 e2 es2 He H IH] using sameEntries_ind2;
    [reflexivity|].
  cbn [sortBy]. now apply insertBy_same.
Qed.

Lemma calculateWorkload_same (L : Locale) faculty subjects es1 es2 :
  sameEntries es1 es2 ->
  calculateWorkload faculty subjects es1 = calculateWorkload faculty subjects es2.
Proof.
  intros H. unfold calculateWorkload. apply map_ext. intros f.
  assert (forall g, (forall e, g (eraseEntry e) = g e) ->
            length (filter g es1) = length (filter g es2)) as Hlen.
  { intros g Hg. apply sameEntries_length. now apply filter_same. }
  rewrite (Hlen (fun e => String.eqb (Entry.facultyId e) (Faculty.id f) &&
                          negb (Entry.isLabSession e)) (fun e => eq_refl)).
  rewrite (@map_same _ labSessionKey
             (filter (fun e => String.eqb (Entry.facultyId e) (Faculty.id f) &&
                               Entry.isLabSession e) es1)
             (filter (fun e => String.eqb (Entry.facultyId e) (Faculty.id f) &&
                               Entry.isLabSession e) es2)
             (fun e => eq_refl)); [reflexivity|].
  now apply filter_same.
Qed.

Lemma find_pointwise {A} (g1 g2 : A -> bool) l :
  (forall x, g1 x = g2 x) -> find g1 l = find g2 l.
Proof.
  intros H. induction l as [|x xs IH]; cbn; [reflexivity|]. now rewrite H, IH.
Qed.

Lemma find_faculty_same es1 es2 day periods (l : list Faculty.t) :
  sameEntries es1 es2 ->
  find (fun f => isFacultyAvailableForSlot es1 (Faculty.id f) day periods) l =
  find (fun f => isFacultyAvailableForSlot es2 (Faculty.id f) day periods) l.
Proof. intros H. apply find_pointwise. intros f. now apply isFacultyAvailableForSlot_same. Qed.

Lemma find_room_same es1 es2 day period (l : list Classroom.t) :
  sameEntries es1 es2 ->
  find (fun c => isRoomAvailable es1 (Classroom.id c) day period) l =
  find (fun c => isRoomAvailable es2 (Classroom.id c) day period) l.
Proof. intros H. apply find_pointwise. intros c. now apply isRoomAvailable_same. Qed.

Lemma find_slot_same es1 es2 batchId (l : list (Z * Z)) :
  sameEntries es1 es2 ->
  find (fun dp => isSlotAvailable es1 batchId (fst dp) (snd dp)) l =
  find (fun dp => isSlotAvailable es2 batchId (fst dp) (snd dp)) l.
Proof. intros H. apply find_pointwise. intros dp. now apply isSlotAvailable_same. Qed.

(** *** The lab allocator *)

Lemma labEntry_agree batch subject f lab sb slot period :
  agree (fun e1 e2 => eraseEntry e1 = eraseEntry e2)
    (labEntry batch subject f lab sb slot period)
    (labEntry batch subject f lab sb slot period).
Proof. intros w1 w2. reflexivity. Qed.

Lemma pushLabEntries_agree batch subject f lab sb slot es1 es2 :
  sameEntries es1 es2 ->
  agree sameEntries (pushLabEntries batch subject f lab sb slot es1)
    (pushLabEntries batch subject f lab sb slot es2).
Proof.
  intros H. unfold pushLabEntries. apply agree_forEach; [|exact H].
  intros i period s1 s2 Hs. eapply agree_bind; [apply labEntry_agree|].
  cbv beta. intros e1 e2 He. apply agree_ret.
  apply sameEntries_app; [exact Hs|now apply sameEntries_one].
Qed.

Section LabAgree.
Context {L : Locale}.
Variable batch : Batch.t.
Variable deptLabs : list Lab.t.
Variable lab0 : Lab.t.
Variables ex1 ex2 : list Entry.t.
Variable existingRotations : list LabRotation.t.
Hypothesis Hex : sameEntries ex1 ex2.

Lemma allocateSubBatch_agree subject labFaculty faculty0 slot sessionNumber index subBatch
    a1 a2 :
  sameAcc a1 a2 ->
  agree sameAcc
    (allocateSubBatch batch deptLabs lab0 ex1 existingRotations subject labFaculty
       faculty0 slot sessionNumber index subBatch a1)
    (allocateSubBatch batch deptLabs lab0 ex2 existingRotations subject labFaculty
       faculty0 slot sessionNumber index subBatch a2).
Proof.
  destruct a1 as [es1 rot1 exp1], a2 as [es2 rot2 exp2].
  intros (Hes & Hrot & Hexp). cbn [accEntries accRotations accExplanations] in *. subst.
  assert (sameEntries (ex1 ++ es1) (ex2 ++ es2)) as Hc by now apply sameEntries_app.
  unfold allocateSubBatch. cbv zeta. cbn [accEntries accRotations accExplanations].
  rewrite (isFacultyAvailableForSlot_same _ _ _ Hc), (find_faculty_same _ _ _ Hc).
  destruct (if isFacultyAvailableForSlot _ _ _ _ then _ else _) as [f|].
  - eapply agree_bind; [apply pushLabEntries_agree; exact Hes|].
    cbv beta. intros n1 n2 Hn. apply agree_ret. now repeat split.
  - apply agree_ret. now repeat split.
Qed.

Lemma allocateSession_agree subject labFaculty faculty0 slot sessionNumber a1 a2 :
  sameAcc a1 a2 ->
  agree sameAcc
    (allocateSession batch deptLabs lab0 ex1 existingRotations subject labFaculty
       faculty0 slot sessionNumber a1)
    (allocateSession batch deptLabs lab0 ex2 existingRotations subject labFaculty
       faculty0 slot sessionNumber a2).
Proof.
  intros Ha. unfold allocateSession. destruct (_ <? _)%nat.
  - apply agree_forEach; [|exact Ha].
    intros i sb s1 s2 Hs. now apply allocateSubBatch_agree.
  - destruct a1 as [es1 rot1 exp1], a2 as [es2 rot2 exp2].
    destruct Ha as (Hes & Hrot & Hexp).
    cbn [accEntries accRotations accExplanations] in *. subst.
    eapply agree_bind; [apply pushLabEntries_agree; exact Hes|].
    cbv beta. intros n1 n2 Hn. apply agree_ret. now repeat split.
Qed.

Lemma sameLoop_intro n used i a1 a2 :
  sameAcc a1 a2 -> sameLoop (mkLabLoop n used i a1) (mkLabLoop n used i a2).
Proof. intros H. now repeat split; try apply H. Qed.

Lemma labLoop_agree sortedLabSubjects subject0 faculty : forall fuel s1 s2,
  sameLoop s1 s2 ->
  agree sameLoop
    (labLoop batch sortedLabSubjects subject0 deptLabs lab0 faculty ex1
       existingRotations fuel s1)
    (labLoop batch sortedLabSubjects subject0 deptLabs lab0 faculty ex2
       existingRotations fuel s2).
Proof.
  induction fuel as [|fuel IH]; intros s1 s2 Hs.
  - now apply agree_ret.
  - destruct s1 as [n1 used1 i1 [es1 rot1 exp1]], s2 as [n2 used2 i2 [es2 rot2 exp2]].
    pose proof Hs as (Hn & Hused & Hi & Hes & Hrot & Hexp).
    cbn [sessionNumber usedSlots subjectIndex loopAcc accEntries accRotations
         accExplanations] in *. subst.
    assert (sameEntries (ex1 ++ es1) (ex2 ++ es2)) as Hc by now apply sameEntries_app.
    cbn [labLoop sessionNumber usedSlots subjectIndex loopAcc accEntries accRotations
         accExplanations].
    rewrite (getAvailableLabSlots_same _ Hc).
    destruct (_ && _); [|now apply agree_ret].
    destruct (find _ _) as [slot|]; [|now apply agree_ret].
    destruct (sortBy _ (filter _ faculty)) as [|faculty0 others].
    + apply IH. now repeat split.
    + eapply agree_bind.
      * apply allocateSession_agree. now repeat split.
      * cbv beta. intros a1 a2 Ha.
        destruct (_ && _); [apply agree_ret|apply IH]; now apply sameLoop_intro.
Qed.
End LabAgree.

Lemma allocateLabsForBatch_agree (L : Locale) batch labSubjects labs faculty ex1 ex2
    existingRotations :
  sameEntries ex1 ex2 ->
  agree sameLabResult
    (allocateLabsForBatch batch labSubjects labs faculty ex1 existingRotations)
    (allocateLabsForBatch batch labSubjects labs faculty ex2 existingRotations).
Proof.
  intros Hex. unfold allocateLabsForBatch.
  destruct (sortBy _ (filter _ labSubjects)) as [|subject0 rest];
    [apply agree_ret; now repeat split|].
  destruct (sortBy _ (filter _ labs)) as [|lab0 rest'];
    [apply agree_ret; now repeat split|].
  rewrite (@getAvailableLabSlots_same (ex1 ++ []) (ex2 ++ []) (Batch.id batch))
    by (apply sameEntries_app; [exact Hex|reflexivity]).
  destruct (_ <? _)%nat; [apply agree_ret; now repeat split|].
  eapply agree_bind.
  - apply labLoop_agree; [exact Hex|]. now repeat split.
  - cbv beta. intros s1 s2 (Hn & _ & _ & Hes & Hrot & Hexp). rewrite Hn, Hrot, Hexp.
    destruct (_ <? _)%nat; apply agree_ret; now repeat split.
Qed.

(** *** The scheduler phases *)

Lemma placeTheoryEntry_agree batch subject facultyId classroomId day period :
  agree (fun e1 e2 => eraseEntry e1 = eraseEntry e2)
    (placeTheoryEntry batch subject facultyId classroomId day period)
    (placeTheoryEntry batch subject facultyId classroomId day period).
Proof. intros w1 w2. reflexivity. Qed.

Lemma samePlacement_note p1 p2 e : samePlacement p1 p2 -> samePlacement (note p1 e) (note p2 e).
Proof. intros (Hp & Hn). split; [exact Hp|]. cbn. now rewrite Hn. Qed.

Lemma samePlacement_nil : samePlacement (mkPlacement [] []) (mkPlacement [] []).
Proof. now split. Qed.

Section PhaseAgree.
Context {L : Locale}.
Variable batch : Batch.t.
Variable faculty : list Faculty.t.
Variable classrooms : list Classroom.t.
Variables ex1 ex2 : list Entry.t.
Hypothesis Hex : sameEntries ex1 ex2.

Lemma placeMandatorySubject_agree index subject p1 p2 :
  samePlacement p1 p2 ->
  agree samePlacement
    (placeMandatorySubject batch faculty classrooms ex1 index subject p1)
    (placeMandatorySubject batch faculty classrooms ex2 index subject p2).
Proof.
  intros Hp. pose proof Hp as (Hes & Hnotes).
  assert (sameEntries (ex1 ++ placed p1) (ex2 ++ placed p2)) as Hc
    by now apply sameEntries_app.
  unfold placeMandatorySubject. cbv zeta.
  destruct (_ <=? index)%nat; [apply agree_ret; now apply samePlacement_note|].
  rewrite (isSlotAvailable_same _ _ _ Hc).
  destruct (negb (isSlotAvailable _ _ _ _)); [apply agree_ret; now apply samePlacement_note|].
  destruct (firstTheoryFaculty faculty subject) as [f|];
    [|apply agree_ret; now apply samePlacement_note].
  rewrite (isFacultyAvailable_same _ _ _ Hc).
  destruct (negb (isFacultyAvailable _ _ _ _)); [apply agree_ret; now apply samePlacement_note|].
  rewrite (find_room_same _ _ _ Hc).
  destruct (find _ _) as [c|]; [|apply agree_ret; now apply samePlacement_note].
  eapply agree_bind; [apply placeTheoryEntry_agree|].
  cbv beta. intros e1 e2 He. apply agree_ret. split; cbn.
  - apply sameEntries_app; [exact Hes|now apply sameEntries_one].
  - now rewrite Hnotes.
Qed.

Lemma placeMandatorySubjects_agree subjects :
  agree samePlacement
    (placeMandatorySubjects batch faculty classrooms ex1 subjects)
    (placeMandatorySubjects batch faculty classrooms ex2 subjects).
Proof.
  unfold placeMandatorySubjects. apply agree_forEach; [|exact samePlacement_nil].
  intros i s p1 p2 Hp. now apply placeMandatorySubject_agree.
Qed.

Lemma placeOpenElective_agree index subject p1 p2 :
  samePlacement p1 p2 ->
  agree samePlacement
    (placeOpenElective batch faculty classrooms ex1 index subject p1)
    (placeOpenElective batch faculty classrooms ex2 index subject p2).
Proof.
  intros Hp. pose proof Hp as (Hes & Hnotes).
  assert (sameEntries (ex1 ++ placed p1) (ex2 ++ placed p2)) as Hc
    by now apply sameEntries_app.
  unfold placeOpenElective. cbv zeta.
  destruct (_ <=? index)%nat; [apply agree_ret; now apply samePlacement_note|].
  rewrite (isSlotAvailable_same _ _ _ Hc).
  destruct (negb (isSlotAvailable _ _ _ _)); [apply agree_ret; now apply samePlacement_note|].
  destruct (firstTheoryFaculty faculty subject) as [f|]; [|now apply agree_ret].
  rewrite (isFacultyAvailable_same _ _ _ Hc).
  destruct (negb (isFacultyAvailable _ _ _ _)); [apply agree_ret; now apply samePlacement_note|].
  rewrite (find_room_same _ _ _ Hc).
  destruct (find _ _) as [c|]; [|now apply agree_ret].
  eapply agree_bind; [apply placeTheoryEntry_agree|].
  cbv beta. intros e1 e2 He. apply agree_ret. split; cbn.
  - apply sameEntries_app; [exact Hes|now apply sameEntries_one].
  - now rewrite Hnotes.
Qed.

Lemma placeOpenElectives_agree subjects :
  agree samePlacement
    (placeOpenElectives batch faculty classrooms ex1 subjects)
    (placeOpenElectives batch faculty classrooms ex2 subjects).
Proof.
  unfold placeOpenElectives. apply agree_forEach; [|exact samePlacement_nil].
  intros i s p1 p2 Hp. now apply placeOpenElective_agree.
Qed.

Lemma sameCursor_intro pc pi di at_ es1 es2 :
  sameEntries es1 es2 -> sameCursor (mkCursor pc pi di at_ es1) (mkCursor pc pi di at_ es2).
Proof. intros H. now repeat split. Qed.

Lemma theoryLoop_agree subject assignedFaculty classroom periodsToPlace maxAttempts :
  forall fuel c1 c2,
    sameCursor c1 c2 ->
    agree sameCursor
      (theoryLoop batch ex1 fuel subject assignedFaculty classroom periodsToPlace
         maxAttempts c1)
      (theoryLoop batch ex2 fuel subject assignedFaculty classroom periodsToPlace
         maxAttempts c2).
Proof.
  induction fuel as [|fuel IH]; intros c1 c2 Hc.
  - now apply agree_ret.
  - destruct c1 as [pc1 pi1 di1 at1 es1], c2 as [pc2 pi2 di2 at2 es2].
    pose proof Hc as (Hpc & Hpi & Hdi & Hat & Hes).
    cbn [placedCount periodIndex dayIndex attempts cursorEntries] in *. subst.
    assert (sameEntries (ex1 ++ es1) (ex2 ++ es2)) as Hall by now apply sameEntries_app.
    cbn [theoryLoop placedCount periodIndex dayIndex attempts cursorEntries]. cbv zeta.
    destruct (_ && _); [|now apply agree_ret].
    rewrite (isSlotAvailable_same _ _ _ Hall), (isFacultyAvailable_same _ _ _ Hall),
      (isRoomAvailable_same _ _ _ Hall).
    eapply agree_bind with (R := sameCursor).
    + destruct (_ && _); [|now apply agree_ret].
      eapply agree_bind; [apply placeTheoryEntry_agree|].
      cbv beta. intros e1 e2 He. apply agree_ret. apply sameCursor_intro.
      apply sameEntries_app; [exact Hes|now apply sameEntries_one].
    + intros [qc1 qi1 qd1 qa1 n1] [qc2 qi2 qd2 qa2 n2] (Hqc & Hqi & Hqd & Hqa & Hn).
      cbn [placedCount periodIndex dayIndex attempts cursorEntries] in *. subst.
      apply IH. now apply sameCursor_intro.
Qed.

Lemma distributeTheorySubject_agree index subject t1 t2 :
  sameTheoryState t1 t2 ->
  agree sameTheoryState
    (distributeTheorySubject batch faculty classrooms ex1 index subject t1)
    (distributeTheorySubject batch faculty classrooms ex2 index subject t2).
Proof.
  destruct t1 as [g1 [es1 n1]], t2 as [g2 [es2 n2]].
  intros Ht. pose proof Ht as (Hg & Hes & Hn).
  cbn [globalDayIndex theoryPlacement placed notes] in *. subst.
  unfold distributeTheorySubject. cbv zeta.
  cbn [globalDayIndex theoryPlacement placed notes].
  destruct (firstTheoryFaculty faculty subject) as [f|].
  - destruct (hd_error _) as [c|]; [|now apply agree_ret].
    eapply agree_bind.
    + apply theoryLoop_agree. apply sameCursor_intro. exact Hes.
    + cbv beta. intros c1 c2 (Hpc & _ & Hdi & _ & Hces). apply agree_ret.
      rewrite Hpc, Hdi. now repeat split.
  - apply agree_ret. now repeat split.
Qed.

Lemma distributeTheorySubjects_agree subjects :
  agree samePlacement
    (distributeTheorySubjects batch faculty classrooms ex1 subjects)
    (distributeTheorySubjects batch faculty classrooms ex2 subjects).
Proof.
  unfold distributeTheorySubjects. eapply agree_bind.
  - apply agree_forEach with (R := sameTheoryState).
    + intros i s t1 t2 Ht. now apply distributeTheorySubject_agree.
    + now repeat split.
  - cbv beta. intros t1 t2 (_ & Hp). now apply agree_ret.
Qed.

Lemma autoFillLibrary_agree subjects :
  agree samePlacement (autoFillLibrary batch ex1 subjects) (autoFillLibrary batch ex2 subjects).
Proof.
  unfold autoFillLibrary. destruct (hd_error _) as [s|]; [|apply agree_ret; exact samePlacement_nil].
  cbv zeta. rewrite (find_slot_same _ _ Hex).
  destruct (find _ _) as [[day period]|]; [|apply agree_ret; exact samePlacement_nil].
  intros w1 w2. now split.
Qed.
End PhaseAgree.

Lemma accumulateEntries_agree (L : Locale) infrastructure academic batch rotations :
  agree sameAccumulated
    (accumulateEntries infrastructure academic batch rotations)
    (accumulateEntries infrastructure academic batch rotations).
Proof.
  unfold accumulateEntries. cbv zeta. eapply agree_bind.
  { apply allocateLabsForBatch_agree. reflexivity. }
  cbv beta. intros r1 r2 (Hes & Hrot & Hexp & Hok). rewrite Hrot, Hexp, Hok.
  assert (sameEntries ([] ++ labEntries r1) ([] ++ labEntries r2)) as H3 by exact Hes.
  destruct (negb (labSuccess r2)); [apply agree_ret; now repeat split|].
  eapply agree_bind; [apply placeMandatorySubjects_agree; exact H3|].
  cbv beta. intros m1 m2 (Hm & Hmn). rewrite Hmn.
  pose proof (sameEntries_app H3 Hm) as H4.
  eapply agree_bind; [apply distributeTheorySubjects_agree; exact H4|].
  cbv beta. intros t1 t2 (Ht & Htn). rewrite Htn.
  pose proof (sameEntries_app H4 Ht) as H5.
  eapply agree_bind; [apply placeOpenElectives_agree; exact H5|].
  cbv beta. intros e1 e2 (He & Hen). rewrite Hen.
  pose proof (sameEntries_app H5 He) as H6.
  eapply agree_bind; [apply autoFillLibrary_agree; exact H6|].
  cbv beta. intros l1 l2 (Hl & Hln). rewrite Hln.
  pose proof (sameEntries_app H6 Hl) as H7.
  apply agree_ret. now repeat split.
Qed.

Lemma validateWorkload_same (L : Locale) faculty subjects es1 es2 :
  sameEntries es1 es2 ->
  validateWorkload faculty subjects es1 = validateWorkload faculty subjects es2.
Proof. intros H. unfold validateWorkload. now rewrite (calculateWorkload_same _ _ _ H). Qed.

Lemma hasWorkloadViolation_same (L : Locale) faculty subjects es1 es2 :
  sameEntries es1 es2 ->
  hasWorkloadViolation faculty subjects es1 = hasWorkloadViolation faculty subjects es2.
Proof. intros H. unfold hasWorkloadViolation. now rewrite (calculateWorkload_same _ _ _ H). Qed.

Lemma generateTimetable_agree (L : Locale) infrastructure academic batchId rotations :
  agree (fun r1 r2 => eraseResult r1 = eraseResult r2)
    (generateTimetable infrastructure academic batchId rotations)
    (generateTimetable infrastructure academic batchId rotations).
Proof.
  unfold generateTimetable. cbv zeta.
  destruct (negb (isValid _)); [now apply agree_ret|].
  destruct (find _ _) as [batch|]; [|now apply agree_ret].
  eapply agree_bind; [apply accumulateEntries_agree|].
  cbv beta. intros a1 a2 (Hok & Hes & _ & Hexp). rewrite Hok, Hexp.
  destruct (negb (labsAllocated a2)); [now apply agree_ret|].
  rewrite (validateWorkload_same _ _ _ Hes), (hasWorkloadViolation_same _ _ _ Hes).
  destruct (hasWorkloadViolation _ _ _); [now apply agree_ret|].
  intros w1 w2. cbn. unfold eraseResult, eraseTimetable. cbn.
  pose proof (sortBy_same Hes) as Hsorted.
  rewrite (sameEntries_length Hsorted). unfold sameEntries in Hsorted. now rewrite Hsorted.
Qed.

Lemma eraseEntry_fields e1 e2 :
  eraseEntry e1 = eraseEntry e2 ->
  Entry.day e1 = Entry.day e2 /\ Entry.period e1 = Entry.period e2 /\
  Entry.subjectId e1 = Entry.subjectId e2 /\ Entry.facultyId e1 = Entry.facultyId e2 /\
  Entry.roomId e1 = Entry.roomId e2 /\ Entry.batchId e1 = Entry.batchId e2 /\
  Entry.subBatchId e1 = Entry.subBatchId e2 /\
  Entry.isLabSession e1 = Entry.isLabSession e2 /\ Entry.labSlot e1 = Entry.labSlot e2.
Proof. unfold eraseEntry. intros H. injection H as _ H1 H2 H3 H4 H5 H6 H7 H8 H9. tauto. Qed.

(** C2. Two runs of [generateTimetable] on the same inputs, whatever ids
    and times the outside source hands out in each, return the same result
    once ids and timestamps are erased: the same success flag and
    explanations, and entry lists of the same length with the same day,
    period, subjectId, facultyId, roomId, batchId, subBatchId, isLabSession
    and labSlot at every position. *)
Theorem C2_deterministic (L : Locale) infrastructure academic batchId rotations w1 w2 :
  let r1 := fst (generateTimetable infrastructure academic batchId rotations w1) in
  let r2 := fst (generateTimetable infrastructure academic batchId rotations w2) in
  eraseResult r1 = eraseResult r2 /\
  GenerationResult.success r1 = GenerationResult.success r2 /\
  GenerationResult.explanations r1 = GenerationResult.explanations r2 /\
  forall tt1 tt2,
    GenerationResult.timetable r1 = Some tt1 ->
    GenerationResult.timetable r2 = Some tt2 ->
    length (Timetable.entries tt1) = length (Timetable.entries tt2) /\
    forall i e1 e2,
      nth_error (Timetable.entries tt1) i = Some e1 ->
      nth_error (Timetable.entries tt2) i = Some e2 ->
      Entry.day e1 = Entry.day e2 /\ Entry.period e1 = Entry.period e2 /\
      Entry.subjectId e1 = Entry.subjectId e2 /\
      Entry.facultyId e1 = Entry.facultyId e2 /\
      Entry.roomId e1 = Entry.roomId e2 /\ Entry.batchId e1 = Entry.batchId e2 /\
      Entry.subBatchId e1 = Entry.subBatchId e2 /\
      Entry.isLabSession e1 = Entry.isLabSession e2 /\
      Entry.labSlot e1 = Entry.labSlot e2.
Proof.
  intros r1 r2.
  pose proof (generateTimetable_agree L infrastructure academic batchId rotations w1 w2)
    as Hsame.
  fold r1 r2 in Hsame. cbv beta in Hsame.
  split; [exact Hsame|].
  split; [exact (f_equal GenerationResult.success Hsame)|].
  split; [exact (f_equal GenerationResult.explanations Hsame)|].
  intros tt1 tt2 H1 H2.
  apply (f_equal GenerationResult.timetable) in Hsame. cbn in Hsame.
  rewrite H1, H2 in Hsame. cbn in Hsame. injection Hsame as _ Hentries.
  fold (sameEntries (Timetable.entries tt1) (Timetable.entries tt2)) in Hentries.
  split; [now apply sameEntries_length|].
  intros i e1 e2 He1 He2. apply eraseEntry_fields.
  apply (map_nth_error eraseEntry) in He1, He2.
  unfold sameEntries in Hentries. rewrite Hentries in He1. congruence.
Qed.

(** ** The loops stop by themselves *)

Lemma filter_length_lt {A} (p q : A -> bool) l x :
  (forall y, q y = true -> p y = true) -> In x l -> p x = true -> q x = false ->
  (length (filter q l) < length (filter p l))%nat.
Proof.
  intros Hqp. induction l as [|y ys IH]; cbn; intros Hin Hp Hq; [contradiction|].
  assert (length (filter q ys) <= length (filter p ys))%nat as Hle.
  { clear - Hqp. induction ys as [|z zs IH]; cbn; [lia|].
    destruct (q z) eqn:Ez; [rewrite (Hqp z Ez); cbn; lia|].
    destruct (p z); cbn; lia. }
  destruct Hin as [->|Hin].
  - rewrite Hp, Hq. cbn. lia.
  - specialize (IH Hin Hp Hq). destruct (q y) eqn:Ey; [rewrite (Hqp y Ey); cbn; lia|].
    destruct (p y); cbn; lia.
Qed.

Lemma available_in_all entries batchId slot :
  In slot (getAvailableLabSlots entries batchId) -> In slot allLabSlots.
Proof.
  intros H. apply availableLabSlots_spec in H as (Hday & Hperiods & _).
  apply availableLabSlots_spec. repeat split; auto. intros e [].
Qed.

Lemma slotsLeft_decreases used slot :
  In slot allLabSlots -> includes used (slotKey slot) = false ->
  (slotsLeft (slotKey slot :: used) < slotsLeft used)%nat.
Proof.
  intros Hin Hnew. unfold slotsLeft. apply filter_length_lt with (x := slot).
  - intros s. unfold includes. cbn [existsb]. intros H.
    apply negb_true_iff, orb_false_iff in H as (_ & H). now rewrite H.
  - exact Hin.
  - now rewrite Hnew.
  - unfold includes. cbn [existsb]. now rewrite String.eqb_refl.
Qed.

(** More fuel changes nothing once the fuel exceeds the number of unused
    (day, slot) pairs. *)
Lemma labLoop_fuel_more (L : Locale) batch sortedLabSubjects subject0 deptLabs lab0
    faculty existingEntries existingRotations : forall fuel st w,
  (slotsLeft (usedSlots st) < fuel)%nat ->
  forall fuel', (fuel <= fuel')%nat ->
  labLoop batch sortedLabSubjects subject0 deptLabs lab0 faculty existingEntries
    existingRotations fuel' st w =
  labLoop batch sortedLabSubjects subject0 deptLabs lab0 faculty existingEntries
    existingRotations fuel st w.
Proof.
  induction fuel as [|fuel IH]; intros st w Hleft fuel' Hle; [lia|].
  destruct fuel' as [|fuel']; [lia|].
  cbn [labLoop].
  destruct (_ && _); [|reflexivity].
  destruct (find _ _) as [slot|] eqn:Hfind; [|reflexivity].
  apply find_some in Hfind as (Hslot & Hnew). apply negb_true_iff in Hnew.
  apply available_in_all in Hslot.
  pose proof (@slotsLeft_decreases _ _ Hslot Hnew) as Hless.
  destruct (sortBy _ (filter _ faculty)) as [|faculty0 others].
  - apply IH; [cbn [usedSlots]|]; lia.
  - unfold bind. destruct (allocateSession _ _ _ _ _ _ _ _ _ _ _ w) as [acc' w'].
    destruct (_ && _); [reflexivity|]. apply IH; [cbn [usedSlots]|]; lia.
Qed.

(** The fuel of [allocateLabsForBatch] is enough: more fuel gives the same
    result. *)
Lemma labLoop_fuel (L : Locale) batch sortedLabSubjects subject0 deptLabs lab0 faculty
    existingEntries existingRotations extra w :
  labLoop batch sortedLabSubjects subject0 deptLabs lab0 faculty existingEntries
    existingRotations (labLoopFuel + extra) (mkLabLoop 0 [] 0 (mkLabAcc [] [] [])) w =
  labLoop batch sortedLabSubjects subject0 deptLabs lab0 faculty existingEntries
    existingRotations labLoopFuel (mkLabLoop 0 [] 0 (mkLabAcc [] [] [])) w.
Proof.
  apply labLoop_fuel_more; [|lia].
  cbn [usedSlots]. assert (slotsLeft [] = 12%nat) as -> by reflexivity.
  unfold labLoopFuel. cbn. lia.
Qed.

Lemma theoryLoop_fuel_more batch existingEntries subject assignedFaculty
    classroom periodsToPlace maxAttempts : forall fuel st w,
  (maxAttempts - attempts st <= fuel)%nat ->
  forall fuel', (fuel <= fuel')%nat ->
  theoryLoop batch existingEntries fuel' subject assignedFaculty classroom
    periodsToPlace maxAttempts st w =
  theoryLoop batch existingEntries fuel subject assignedFaculty classroom
    periodsToPlace maxAttempts st w.
Proof.
  induction fuel as [|fuel IH]; intros st w Hleft fuel' Hle.
  - destruct fuel' as [|fuel']; [reflexivity|]. cbn [theoryLoop].
    assert ((attempts st <? maxAttempts)%nat = false) as -> by (apply Nat.ltb_ge; lia).
    now rewrite andb_false_r.
  - destruct fuel' as [|fuel']; [lia|]. cbn [theoryLoop].
    destruct (_ && _) eqn:Hguard; [|reflexivity].
    apply andb_true_iff in Hguard as (_ & Hlt). apply Nat.ltb_lt in Hlt.
    unfold bind.
    destruct (_ && _).
    + destruct (placeTheoryEntry _ _ _ _ _ _ w) as [e w']. cbn [ret].
      apply IH; [cbn [attempts]|]; lia.
    + cbn [ret]. apply IH; [cbn [attempts]|]; lia.
Qed.

(** The attempt budget of step 5 is the fuel of its loop: more fuel gives
    the same result. *)
Lemma theoryLoop_fuel batch existingEntries subject assignedFaculty classroom
    periodsToPlace maxAttempts extra st w :
  theoryLoop batch existingEntries (maxAttempts + extra) subject assignedFaculty classroom
    periodsToPlace maxAttempts st w =
  theoryLoop batch existingEntries maxAttempts subject assignedFaculty classroom
    periodsToPlace maxAttempts st w.
Proof. apply theoryLoop_fuel_more; lia. Qed.

(** The erasure is needed: two sources give different ids to the same
    timetable. *)
Lemma sources_show_in_ids :
  fst (@generateTimetable codeUnitLocale infra1 acadFull "b2" [] world0) <>
  fst (@generateTimetable codeUnitLocale infra1 acadFull "b2" [] world1).
Proof.
  intros H.
  apply (f_equal (fun r => option_map Timetable.id (GenerationResult.timetable r))) in H.
  vm_compute in H. discriminate H.
Qed.

(** ** The validator *)

Lemma hasError_app l1 l2 : hasError (l1 ++ l2) = hasError l1 || hasError l2.
Proof. apply existsb_app. Qed.

Lemma hasError_flat_map {A} (f : A -> list Explanation.t) l :
  hasError (flat_map f l) = false <-> forall x, In x l -> hasError (f x) = false.
Proof.
  induction l as [|x xs IH]; cbn [flat_map].
  - split; [intros _ y []|reflexivity].
  - rewrite hasError_app, orb_false_iff, IH. split.
    + intros (Hx & Hxs) y [<-|Hy]; auto.
    + intros H. split; [apply H; now left|intros y Hy; apply H; now right].
Qed.

Lemma isEmpty_false {A} (l : list A) : isEmpty l = false <-> l <> [].
Proof. destruct l; cbn; split; congruence. Qed.

Lemma hasError_ifEmpty {A} (l : list A) msg related step :
  hasError (if isEmpty l then [explain ERROR VALIDATOR msg related step] else []) = false
  <-> l <> [].
Proof. destruct l; cbn; split; congruence. Qed.

Lemma validateInfrastructure_clean state :
  hasError (validateInfrastructure state) = false <->
  blocks state <> [] /\ departments state <> [] /\ classrooms state <> [] /\
  labs state <> [] /\
  (forall c, In c (classrooms state) -> 0 < Classroom.capacity c) /\
  (forall l, In l (labs state) -> 0 < Lab.capacity l).
Proof.
  unfold validateInfrastructure.
  rewrite !hasError_app, !orb_false_iff, !hasError_ifEmpty, !hasError_flat_map.
  assert (forall c, hasError
            (if Classroom.capacity c <=? 0
             then [explain ERROR VALIDATOR
                     ("Classroom " +++ quoted (Classroom.name c) +++
                      " has invalid capacity (" +++ showZ (Classroom.capacity c) +++
                      "). Capacity must be > 0.") (Some (Classroom.id c)) 1]
             else []) = false <-> 0 < Classroom.capacity c) as Hc.
  { intros c. destruct (Classroom.capacity c <=? 0) eqn:E; cbn.
    - apply Z.leb_le in E. split; [discriminate|lia].
    - apply Z.leb_gt in E. split; [now intros _|reflexivity]. }
  assert (forall l, hasError
            (if Lab.capacity l <=? 0
             then [explain ERROR VALIDATOR
                     ("Lab " +++ quoted (Lab.name l) +++
                      " has invalid capacity (" +++ showZ (Lab.capacity l) +++
                      "). Capacity must be > 0.") (Some (Lab.id l)) 1]
             else []) = false <-> 0 < Lab.capacity l) as Hl.
  { intros l. destruct (Lab.capacity l <=? 0) eqn:E; cbn.
    - apply Z.leb_le in E. split; [discriminate|lia].
    - apply Z.leb_gt in E. split; [now intros _|reflexivity]. }
  split.
  - intros (Hb & Hd & Hcs & Hcap & Hls & Hlcap). repeat split; auto.
    + intros c Hin. apply Hc. now apply Hcap.
    + intros l Hin. apply Hl. now apply Hlcap.
  - intros (Hb & Hd & Hcs & Hls & Hcap & Hlcap). repeat split; auto.
    + intros c Hin. apply Hc. now apply Hcap.
    + intros l Hin. apply Hl. now apply Hlcap.
Qed.

Lemma find_department departments x :
  find (fun d => String.eqb (Department.id d) x) departments = None <->
  ~ exists d, In d departments /\ Department.id d = x.
Proof.
  split.
  - intros Hnone (d & Hin & Hid).
    pose proof (find_none _ _ Hnone d Hin) as H. cbn in H.
    rewrite Hid, String.eqb_refl in H. discriminate.
  - intros Hno. apply find_none_intro. intros d Hin.
    destruct (String.eqb (Department.id d) x) eqn:E; [|reflexivity].
    apply String.eqb_eq in E. exfalso. apply Hno. now exists d.
Qed.

Lemma validateAcademic_clean academic infrastructure :
  hasError (validateAcademic academic infrastructure) = false <->
  batches academic <> [] /\
  (forall b, In b (batches academic) ->
     0 < Batch.totalStudents b /\
     exists d, In d (departments infrastructure) /\
               Department.id d = Batch.departmentId b) /\
  subjects academic <> [] /\ faculty academic <> [].
Proof.
  unfold validateAcademic.
  rewrite !hasError_app, !orb_false_iff, !hasError_ifEmpty, hasError_flat_map.
  assert (hasError
            (let labSubjects :=
               filter (fun s => SubjectType_eqb (Subject.type s) LAB) (subjects academic) in
             if isEmpty labSubjects
             then [explain WARNING VALIDATOR
                     "No lab subjects defined. Students need at least 2 lab sessions per week."
                     None 1]
             else []) = false) as Hwarn.
  { cbv zeta. now destruct (isEmpty _). }
  assert (forall b,
            hasError
              ((if Batch.totalStudents b <=? 0
                then [explain ERROR VALIDATOR
                        ("Batch " +++ quoted (Batch.name b) +++
                         " has invalid student count (" +++
                         showZ (Batch.totalStudents b) +++ ").")
                        (Some (Batch.id b)) 1]
                else []) ++
               match find (fun d => String.eqb (Department.id d) (Batch.departmentId b))
                          (departments infrastructure) with
               | Some _ => []
               | None =>
                   [explain ERROR VALIDATOR
                      ("Batch " +++ quoted (Batch.name b) +++
                       " references non-existent department.")
                      (Some (Batch.id b)) 1]
               end) = false <->
            0 < Batch.totalStudents b /\
            exists d, In d (departments infrastructure) /\
                      Department.id d = Batch.departmentId b) as Hb.
  { intros b. rewrite hasError_app, orb_false_iff.
    destruct (find _ (departments infrastructure)) as [d|] eqn:Ed.
    - apply find_some in Ed as (Hin & Heq). cbn in Heq. apply String.eqb_eq in Heq.
      destruct (Batch.totalStudents b <=? 0) eqn:E; cbn.
      + apply Z.leb_le in E. split; [intros (H & _); discriminate|intros (H & _); lia].
      + apply Z.leb_gt in E. split; [|now intros _].
        intros _. split; [exact E|now exists d].
    - apply find_department in Ed. cbn.
      split; [intros (_ & H); discriminate|intros (_ & H); contradiction]. }
  split.
  - intros (Hbs & Hall & Hs & _ & Hf). repeat split; auto; now apply Hb, Hall.
  - intros (Hbs & Hall & Hs & Hf). repeat split; auto.
    intros b Hin. apply Hb. now apply Hall.
Qed.

Lemma includes_In l x : includes l x = true <-> In x l.
Proof.
  unfold includes. rewrite existsb_exists. split.
  - intros (y & Hin & Heq). apply String.eqb_eq in Heq. now subst.
  - intros Hin. exists x. split; [exact Hin|apply String.eqb_refl].
Qed.

Lemma validateSubjectAssignments_clean subjects faculty :
  hasError (validateSubjectAssignments subjects faculty) = false <->
  forall s, In s subjects -> hasTeacher faculty s.
Proof.
  unfold validateSubjectAssignments. rewrite hasError_flat_map.
  assert (forall s (assigned : bool) msg,
            hasError (if negb assigned
                      then [explain ERROR VALIDATOR msg (Some (Subject.id s)) 1]
                      else []) = false <-> assigned = true) as Hif.
  { intros s [|] msg; cbn; split; congruence. }
  assert (forall s,
            (if SubjectType_eqb (Subject.type s) LAB
             then existsb (fun f => includes (Faculty.assignedLabSubjects f) (Subject.id s))
                          faculty
             else existsb (fun f => includes (Faculty.assignedTheorySubjects f)
                                             (Subject.id s)) faculty) = true <->
            hasTeacher faculty s) as Hassigned.
  { intros s. unfold hasTeacher.
    destruct (Subject.type s); cbn [SubjectType_eqb]; rewrite existsb_exists;
      split; intros (f & Hin & H); exists f; (split; [exact Hin|]);
      now apply includes_In. }
  split; intros H s Hin.
  - apply Hassigned. eapply Hif. now apply H.
  - cbv zeta. apply Hif. apply Hassigned. now apply H.
Qed.

Lemma theoryPeriods_fold subjects ids : forall acc,
  fold_left (fun acc subjectId =>
               match find (fun s => String.eqb (Subject.id s) subjectId) subjects with
               | Some subject => acc + Subject.periodsPerWeek subject
               | None => acc
               end) ids acc =
  acc + sumZ (map (fun subjectId =>
                     match find (fun s => String.eqb (Subject.id s) subjectId) subjects with
                     | Some subject => Subject.periodsPerWeek subject
                     | None => 0
                     end) ids).
Proof.
  induction ids as [|i ids IH]; intros acc; cbn [fold_left map sumZ fold_right].
  - lia.
  - rewrite IH. fold (sumZ (map (fun subjectId =>
                     match find (fun s => String.eqb (Subject.id s) subjectId) subjects with
                     | Some subject => Subject.periodsPerWeek subject
                     | None => 0
                     end) ids)).
    destruct (find _ subjects); lia.
Qed.

Lemma Qgtb_false x y : Qgtb x y = false <-> (x <= y)%Q.
Proof.
  unfold Qgtb. rewrite negb_false_iff. apply Qle_bool_iff.
Qed.

Lemma validateFacultyWorkload_clean faculty subjects :
  hasError (validateFacultyWorkload faculty subjects) = false <->
  forall f, In f faculty -> withinAssignedLimits subjects f.
Proof.
  unfold validateFacultyWorkload. rewrite hasError_flat_map.
  assert (forall (b : bool) msg related,
            hasError (if b then [explain ERROR WORKLOAD msg related 8] else []) = false
            <-> b = false) as Hif.
  { intros [|] msg related; cbn; split; congruence. }
  split; intros H f Hin.
  - specialize (H f Hin). cbv zeta in H.
    rewrite hasError_app, orb_false_iff, !Hif, !Qgtb_false in H.
    rewrite theoryPeriods_fold, Z.add_0_l in H. exact H.
  - cbv zeta. rewrite hasError_app, orb_false_iff, !Hif, !Qgtb_false.
    rewrite theoryPeriods_fold, Z.add_0_l. now apply H.
Qed.

Lemma nonempty_length {A} (l : list A) : (0 <? length l)%nat = true <-> l <> [].
Proof. destruct l; cbn; split; congruence. Qed.

(** X1. [validateAll] reports a valid snapshot exactly when every list of
    the snapshot is non-empty, every classroom and lab capacity and every
    batch size is positive, every batch names an existing department, every
    subject has a faculty member assigned (as a lab for LAB subjects, as
    theory otherwise) and the assignments of every faculty member are within
    the limits of the designation.  The absence of LAB subjects is only a
    warning and does not make the snapshot invalid. *)
Theorem X1_validateAll_valid_iff infrastructure academic :
  isValid (validateAll infrastructure academic) = true <->
  validInput infrastructure academic.
Proof.
  unfold validateAll. cbv zeta. cbn [isValid]. rewrite negb_true_iff.
  fold (hasError (validateInfrastructure infrastructure ++
                  validateAcademic academic infrastructure ++
                  (if (0 <? length (subjects academic))%nat &&
                      (0 <? length (faculty academic))%nat
                   then validateSubjectAssignments (subjects academic) (faculty academic)
                   else []) ++
                  (if (0 <? length (faculty academic))%nat &&
                      (0 <? length (subjects academic))%nat
                   then validateFacultyWorkload (faculty academic) (subjects academic)
                   else []))).
  rewrite !hasError_app, !orb_false_iff, validateInfrastructure_clean,
    validateAcademic_clean.
  unfold validInput. split.
  - intros ((Hb & Hd & Hc & Hl & Hcc & Hlc) & (Hbs & Hball & Hs & Hf) & Hsa & Hfw).
    apply nonempty_length in Hs as Hs', Hf as Hf'. rewrite Hs', Hf' in Hsa, Hfw.
    cbn [andb] in Hsa, Hfw.
    pose proof (proj1 (validateSubjectAssignments_clean _ _) Hsa).
    pose proof (proj1 (validateFacultyWorkload_clean _ _) Hfw). tauto.
  - intros (Hb & Hd & Hc & Hl & Hcc & Hlc & Hbs & Hball & Hs & Hf & Hsa & Hfw).
    apply nonempty_length in Hs as Hs', Hf as Hf'. rewrite Hs', Hf'. cbn [andb].
    pose proof (proj2 (validateSubjectAssignments_clean _ _) Hsa).
    pose proof (proj2 (validateFacultyWorkload_clean _ _) Hfw). tauto.
Qed.

(** ** The shape of a generation result *)

Lemma post_any {A} (c : Gen A) : post c (fun _ => True).
Proof. intros w. exact I. Qed.

Lemma generateTimetable_shape (L : Locale) infrastructure academic batchId rotations :
  post (generateTimetable infrastructure academic batchId rotations)
    (fun r =>
       (GenerationResult.success r = true <-> GenerationResult.timetable r <> None) /\
       forall tt, GenerationResult.timetable r = Some tt ->
         Timetable.batchId tt = batchId /\ Timetable.isValid tt = true /\
         isValid (validateAll infrastructure academic) = true /\
         exists batch, In batch (batches academic) /\ Batch.id batch = batchId).
Proof.
  assert (forall explanations,
            (GenerationResult.success (GenerationResult.mk false None explanations) = true
             <-> GenerationResult.timetable (GenerationResult.mk false None explanations)
                 <> None) /\
            forall tt,
              GenerationResult.timetable (GenerationResult.mk false None explanations)
              = Some tt ->
              Timetable.batchId tt = batchId /\ Timetable.isValid tt = true /\
              isValid (validateAll infrastructure academic) = true /\
              exists batch, In batch (batches academic) /\ Batch.id batch = batchId)
    as Hfail.
  { intros explanations. cbn. split; [split; [discriminate|congruence]|discriminate]. }
  unfold generateTimetable.
  destruct (isValid _) eqn:Hvalid; cbn [negb]; [|apply post_ret, Hfail].
  destruct (find _ _) as [batch|] eqn:Hfind; [|apply post_ret, Hfail].
  apply find_some in Hfind as (Hin & Hid). cbn in Hid. apply String.eqb_eq in Hid.
  eapply post_bind; [apply post_any|].
  cbv beta. intros acc _.
  destruct (labsAllocated acc); cbn [negb]; [|apply post_ret, Hfail].
  destruct (hasWorkloadViolation _ _ _); [apply post_ret, Hfail|].
  intros w. cbn. split; [split; [discriminate|reflexivity]|].
  intros tt [= <-]. cbn. repeat split; auto. now exists batch.
Qed.

(** X2. A generation result carries a timetable exactly when it reports
    success; the timetable is then marked valid and is the one of the batch
    asked for, which is a batch of a snapshot the validator accepts. *)
Theorem X2_timetable_iff_success (L : Locale) infrastructure academic batchId rotations w :
  let r := fst (generateTimetable infrastructure academic batchId rotations w) in
  (GenerationResult.success r = true <-> GenerationResult.timetable r <> None) /\
  forall tt, GenerationResult.timetable r = Some tt ->
    Timetable.batchId tt = batchId /\ Timetable.isValid tt = true /\
    isValid (validateAll infrastructure academic) = true /\
    exists batch, In batch (batches academic) /\ Batch.id batch = batchId.
Proof. apply generateTimetable_shape. Qed.

(** ** A failed run says why *)

Lemma hasError_last l e :
  Explanation.level e = ERROR -> hasError (l ++ [e]) = true.
Proof.
  intros H. rewrite hasError_app. cbn. rewrite H. cbn. apply orb_true_r.
Qed.

Lemma allocateLabs_failure_error (L : Locale) batch labSubjects labs faculty
    existingEntries existingRotations :
  post (allocateLabsForBatch batch labSubjects labs faculty existingEntries
          existingRotations)
       (fun r => labSuccess r = false -> hasError (labExplanations r) = true).
Proof.
  unfold allocateLabsForBatch.
  destruct (sortBy _ (filter _ labSubjects)) as [|subject0 ?];
    [apply post_ret; reflexivity|].
  destruct (sortBy _ (filter _ labs)) as [|lab0 ?]; [apply post_ret; reflexivity|].
  destruct (_ <? _)%nat; [apply post_ret; reflexivity|].
  eapply post_bind; [apply post_any|].
  cbv beta. intros st _.
  destruct (_ <? _)%nat; apply post_ret; cbn [labSuccess labExplanations].
  - intros _. now apply hasError_last.
  - discriminate.
Qed.

Lemma accumulateEntries_failure_error (L : Locale) infrastructure academic batch rotations :
  post (accumulateEntries infrastructure academic batch rotations)
       (fun acc => labsAllocated acc = false -> hasError (stepExplanations acc) = true).
Proof.
  unfold accumulateEntries.
  eapply post_bind; [apply allocateLabs_failure_error|].
  cbv beta. intros labResult Hlab.
  destruct (labSuccess labResult); cbn [negb].
  - eapply post_bind; [apply post_any|]. cbv beta. intros ? _.
    eapply post_bind; [apply post_any|]. cbv beta. intros ? _.
    eapply post_bind; [apply post_any|]. cbv beta. intros ? _.
    eapply post_bind; [apply post_any|]. cbv beta. intros ? _.
    apply post_ret. discriminate.
  - apply post_ret. intros _. now apply Hlab.
Qed.

Lemma generateTimetable_failure_error (L : Locale) infrastructure academic batchId
    rotations :
  post (generateTimetable infrastructure academic batchId rotations)
       (fun r => GenerationResult.success r = false ->
                 hasError (GenerationResult.explanations r) = true).
Proof.
  unfold generateTimetable.
  destruct (isValid _) eqn:Hvalid; cbn [negb].
  2:{ apply post_ret. intros _. cbn [GenerationResult.explanations].
      unfold validateAll in *. cbn [isValid vExplanations] in *.
      now apply negb_false_iff in Hvalid. }
  destruct (find _ _) as [batch|].
  2:{ apply post_ret. intros _. now apply hasError_last. }
  eapply post_bind; [apply accumulateEntries_failure_error|].
  cbv beta. intros acc Hacc.
  destruct (labsAllocated acc); cbn [negb].
  2:{ apply post_ret. intros _. cbn [GenerationResult.explanations].
      rewrite hasError_app, Hacc by reflexivity. apply orb_true_r. }
  destruct (hasWorkloadViolation _ _ _).
  - apply post_ret. intros _. now apply hasError_last.
  - intros w. cbn. discriminate.
Qed.

(** X3. Every failed generation explains itself: when [generateTimetable]
    returns success=false, its explanations contain at least one of level
    ERROR, whichever of the four gates (validation, unknown batch, lab
    allocation, workload) stopped the run. *)
Theorem X3_failure_has_error (L : Locale) infrastructure academic batchId rotations w :
  let r := fst (generateTimetable infrastructure academic batchId rotations w) in
  GenerationResult.success r = false ->
  exists e, In e (GenerationResult.explanations r) /\ Explanation.level e = ERROR.
Proof.
  intros r Hfail.
  pose proof (generateTimetable_failure_error L infrastructure academic batchId rotations
                w Hfail) as H.
  apply existsb_exists in H as (e & Hin & He). exists e. split; [exact Hin|].
  now destruct (Explanation.level e).
Qed.

Lemma X3_failure_has_error_witness :
  exists e,
    In e (GenerationResult.explanations
            (fst (@generateTimetable codeUnitLocale infra1 acadNoLab "b2" [] world0))) /\
    Explanation.level e = ERROR.
Proof.
  apply (@X3_failure_has_error codeUnitLocale infra1 acadNoLab "b2" [] world0).
  vm_compute. reflexivity.
Defined.

(** ** The order of the published entries *)

Lemma byDayThenPeriod_le a b : byDayThenPeriod a b <= 0 <-> dayPeriodLe a b.
Proof.
  unfold byDayThenPeriod, dayPeriodLe.
  destruct (Entry.day a =? Entry.day b) eqn:E; cbn [negb].
  - apply Z.eqb_eq in E. lia.
  - apply Z.eqb_neq in E. lia.
Qed.

Lemma StronglySorted_weaken {A} (R S : A -> A -> Prop) l :
  (forall a b, R a b -> S a b) -> StronglySorted R l -> StronglySorted S l.
Proof.
  intros HRS. induction 1 as [|x xs Hs IH Hall]; constructor; [exact IH|].
  eapply Forall_impl; [|exact Hall]. intros y. apply HRS.
Qed.

Lemma sortBy_byDayThenPeriod es : StronglySorted dayPeriodLe (sortBy byDayThenPeriod es).
Proof.
  apply StronglySorted_weaken with (R := fun a b => byDayThenPeriod a b <= 0).
  - intros a b. apply byDayThenPeriod_le.
  - apply sortBy_sorted.
    + intros a b c. rewrite !byDayThenPeriod_le. unfold dayPeriodLe. lia.
    + intros a b. rewrite !byDayThenPeriod_le. unfold dayPeriodLe. lia.
Qed.

(** X4. The entries of a generated timetable are in timetable order: each
    entry is on an earlier day than every later entry of the list, or on the
    same day and in no later period. *)
Theorem X4_entries_sorted (L : Locale) infrastructure academic batchId rotations w :
  let r := fst (generateTimetable infrastructure academic batchId rotations w) in
  forall tt, GenerationResult.timetable r = Some tt ->
    StronglySorted dayPeriodLe (Timetable.entries tt).
Proof.
  intros r tt Htt.
  assert (GenerationResult.success r = true) as Hsuccess.
  { apply (generateTimetable_shape L infrastructure academic batchId rotations w).
    fold r. congruence. }
  destruct (generateTimetable_success L infrastructure academic batchId rotations w Hsuccess)
    as (tt' & batch & es & Htt' & _ & _ & Hentries & _).
  fold r in Htt'. assert (tt' = tt) as -> by congruence.
  rewrite Hentries. apply sortBy_byDayThenPeriod.
Qed.

Lemma X4_entries_sorted_witness :
  exists tt,
    GenerationResult.timetable
      (fst (@generateTimetable codeUnitLocale infra1 acadFull "b2" [] world0)) = Some tt /\
    StronglySorted dayPeriodLe (Timetable.entries tt).
Proof.
  eexists. split; [vm_compute; reflexivity|].
  apply (@X4_entries_sorted codeUnitLocale infra1 acadFull "b2" [] world0).
  vm_compute. reflexivity.
Defined.

(** ** The workload report and the workload gate *)

(** X5. The step-8 gate and the step-8 report agree: [validateWorkload]
    emits an explanation of level ERROR exactly when [hasWorkloadViolation]
    is true of the same faculty and entries. *)
Theorem X5_workload_report_matches_gate (L : Locale) faculty subjects entries :
  hasError (validateWorkload faculty subjects entries) =
  hasWorkloadViolation faculty subjects entries.
Proof.
  unfold validateWorkload, hasWorkloadViolation, calculateWorkload. cbv zeta.
  induction (sortBy _ faculty) as [|f fs IH]; [reflexivity|].
  cbn [map flat_map existsb]. rewrite !hasError_app, IH. f_equal.
  cbn [theoryPeriods theoryLimit labSessions labLimit isOverloaded].
  destruct (Qgtb _ (limTheoryPeriods _)), (Qgtb _ (limLabSessions _)); reflexivity.
Qed.

(** ** Sessions never outnumber the lab subjects *)

Lemma labLoop_sessions (L : Locale) batch sortedLabSubjects subject0 deptLabs lab0
    faculty existingEntries existingRotations : forall fuel st,
  sessionNumber st = subjectIndex st ->
  (sessionNumber st <= length sortedLabSubjects)%nat ->
  post (labLoop batch sortedLabSubjects subject0 deptLabs lab0 faculty existingEntries
          existingRotations fuel st)
       (fun st' => (sessionNumber st' <= length sortedLabSubjects)%nat).
Proof.
  induction fuel as [|fuel IH]; intros st Heq Hle; cbn [labLoop];
    [now apply post_ret|].
  destruct (_ && _) eqn:Hguard; [|now apply post_ret].
  apply andb_prop in Hguard as (Hindex & _). apply Nat.ltb_lt in Hindex.
  destruct (find _ _) as [slot|]; [|now apply post_ret].
  destruct (sortBy _ (filter _ faculty)) as [|faculty0 others].
  - apply IH; cbn [sessionNumber subjectIndex]; assumption.
  - eapply post_bind; [apply post_any|]. cbv beta. intros acc' _.
    destruct (_ && _).
    + apply post_ret. cbn [sessionNumber]. lia.
    + apply IH; cbn [sessionNumber subjectIndex]; lia.
Qed.

Lemma allocateLabs_success_subjects (L : Locale) batch labSubjects labs faculty
    existingEntries existingRotations :
  post (allocateLabsForBatch batch labSubjects labs faculty existingEntries
          existingRotations)
       (fun r => labSuccess r = true ->
          (MIN_LAB_SESSIONS_PER_WEEK <=
           length (filter (fun s =>
                     String.eqb (Subject.departmentId s) (Batch.departmentId batch) &&
                     (Subject.semester s =? Batch.semester batch)%Z) labSubjects))%nat).
Proof.
  unfold allocateLabsForBatch.
  rewrite <- (sortBy_length (fun a b => localeCompare (Subject.id a) (Subject.id b))
                (filter _ labSubjects)).
  destruct (sortBy _ (filter _ labSubjects)) as [|subject0 others];
    [apply post_ret; discriminate|].
  destruct (sortBy _ (filter _ labs)) as [|lab0 ?]; [apply post_ret; discriminate|].
  destruct (_ <? _)%nat; [apply post_ret; discriminate|].
  eapply post_bind.
  { apply labLoop_sessions; cbn [sessionNumber subjectIndex]; [reflexivity|lia]. }
  cbv beta. intros st Hst.
  destruct (_ <? _)%nat eqn:Hmin; apply post_ret; cbn [labSuccess]; [discriminate|].
  intros _. apply Nat.ltb_ge in Hmin. lia.
Qed.

Lemma filter_filter {A} (p q : A -> bool) l :
  filter p (filter q l) = filter (fun x => q x && p x) l.
Proof.
  induction l as [|x xs IH]; cbn; [reflexivity|].
  destruct (q x); cbn; [destruct (p x); now rewrite IH|exact IH].
Qed.

Lemma accumulateEntries_lab_subjects (L : Locale) infrastructure academic batch rotations :
  post (accumulateEntries infrastructure academic batch rotations)
       (fun acc => labsAllocated acc = true ->
                   (2 <= length (labSubjectsOf academic batch))%nat).
Proof.
  unfold accumulateEntries.
  eapply post_bind; [apply allocateLabs_success_subjects|].
  cbv beta. intros labResult Hlab.
  destruct (labSuccess labResult); cbn [negb]; [|apply post_ret; discriminate].
  assert (2 <= length (labSubjectsOf academic batch))%nat as Htwo.
  { specialize (Hlab eq_refl). rewrite filter_filter in Hlab.
    unfold labSubjectsOf. erewrite filter_ext; [exact Hlab|].
    intros s. cbv beta. now rewrite andb_assoc. }
  eapply post_bind; [apply post_any|]. cbv beta. intros ? _.
  eapply post_bind; [apply post_any|]. cbv beta. intros ? _.
  eapply post_bind; [apply post_any|]. cbv beta. intros ? _.
  eapply post_bind; [apply post_any|]. cbv beta. intros ? _.
  apply post_ret. now intros _.
Qed.

(** X6. A timetable is only ever generated for a batch with at least two
    LAB subjects in its department and semester: the allocation loop places
    at most one session per lab subject of the batch and success needs two
    sessions, so with fewer lab subjects generation fails whatever labs,
    faculty and free slots there are. *)
Theorem X6_success_needs_two_lab_subjects (L : Locale) infrastructure academic batchId
    rotations w :
  let r := fst (generateTimetable infrastructure academic batchId rotations w) in
  GenerationResult.success r = true ->
  exists batch,
    find (fun b => String.eqb (Batch.id b) batchId) (batches academic) = Some batch /\
    (2 <= length (labSubjectsOf academic batch))%nat.
Proof.
  cbv zeta. revert w.
  change (post (generateTimetable infrastructure academic batchId rotations)
            (fun r => GenerationResult.success r = true ->
               exists batch,
                 find (fun b => String.eqb (Batch.id b) batchId) (batches academic)
                 = Some batch /\
                 (2 <= length (labSubjectsOf academic batch))%nat)).
  unfold generateTimetable.
  destruct (isValid _); cbn [negb]; [|apply post_ret; discriminate].
  destruct (find _ _) as [batch|] eqn:Hfind; [|apply post_ret; discriminate].
  eapply post_bind; [apply accumulateEntries_lab_subjects|].
  cbv beta. intros acc Hacc.
  destruct (labsAllocated acc); cbn [negb]; [|apply post_ret; discriminate].
  destruct (hasWorkloadViolation _ _ _); [apply post_ret; discriminate|].
  intros w _. exists batch. split; [reflexivity|]. now apply Hacc.
Qed.

Lemma X6_success_needs_two_lab_subjects_witness :
  exists batch,
    find (fun b => String.eqb (Batch.id b) "b2") (batches acadFull) = Some batch /\
    (2 <= length (labSubjectsOf acadFull batch))%nat.
Proof.
  apply (@X6_success_needs_two_lab_subjects codeUnitLocale infra1 acadFull "b2" []
           world0).
  vm_compute. reflexivity.
Defined.

(** ** What the phases put into an entry *)

Lemma scopedSubjects_scope (L : Locale) ty batch subjects s :
  In s (scopedSubjects ty batch subjects) ->
  In s subjects /\ Subject.type s = ty /\
  Subject.departmentId s = Batch.departmentId batch /\
  Subject.semester s = Batch.semester batch.
Proof.
  intros H. destruct (@scopedSubjects_In L ty batch subjects s H) as (Hin & Hty).
  unfold scopedSubjects in H. apply sortBy_In, filter_In in H as (_ & H).
  apply andb_true_iff in H as (H & Hsem). apply andb_true_iff in H as (_ & Hdept).
  apply String.eqb_eq in Hdept. apply Z.eqb_eq in Hsem. auto.
Qed.

Lemma firstTheoryFaculty_some (L : Locale) faculty subject f :
  firstTheoryFaculty faculty subject = Some f ->
  In f faculty /\ In (Subject.id subject) (Faculty.assignedTheorySubjects f).
Proof.
  unfold firstTheoryFaculty. intros H.
  assert (In f (sortBy (fun a b => localeCompare (Faculty.id a) (Faculty.id b))
                  (filter (fun f => includes (Faculty.assignedTheorySubjects f)
                                             (Subject.id subject)) faculty))) as Hin.
  { destruct (sortBy _ _) as [|x xs]; [discriminate|]. injection H as ->. now left. }
  apply sortBy_In, filter_In in Hin as (Hin & Hinc). split; [exact Hin|].
  now apply includes_In.
Qed.

Lemma hd_error_In {A} (l : list A) x : hd_error l = Some x -> In x l.
Proof. destruct l; [discriminate|]. intros [= ->]. now left. Qed.

Lemma nth_mod_In (l : list Z) i : l <> [] -> In (nth (i mod length l)%nat l 0) l.
Proof.
  intros Hne. apply nth_In. apply Nat.mod_upper_bound.
  destruct l; [contradiction|discriminate].
Qed.

Lemma nth_In_or_default {A} (l : list A) i d : In d l -> In (nth i l d) l.
Proof.
  intros Hd. destruct (Nat.lt_ge_cases i (length l)) as [Hlt|Hge].
  - now apply nth_In.
  - now rewrite nth_overflow.
Qed.

Section EntryShape.
Context {L : Locale}.
Variable infrastructure : InfrastructureState.
Variable academic : AcademicState.
Variable batch : Batch.t.

Let good := wellFormedEntry infrastructure academic batch.

Lemma theoryEntry_good subject f c day period (sized : bool) :
  In subject (subjects academic) ->
  Subject.departmentId subject = Batch.departmentId batch ->
  Subject.semester subject = Batch.semester batch ->
  In f (faculty academic) ->
  In (Subject.id subject) (Faculty.assignedTheorySubjects f) ->
  In c (classrooms infrastructure) ->
  Classroom.departmentId c = Batch.departmentId batch ->
  (sized = true -> Batch.totalStudents batch <= Classroom.capacity c) ->
  match Subject.type subject with
  | THEORY => sized = true /\ In day WORKING_DAYS /\ In period [2; 4; 5; 6; 7]
  | MANDATORY => sized = true /\ In day [0; 1] /\ period = 3
  | OPEN_ELECTIVE => sized = false /\ In day [0; 1; 2] /\ period = 1
  | _ => False
  end ->
  post (placeTheoryEntry batch subject (Faculty.id f) (Classroom.id c) day period) good.
Proof.
  intros Hs Hdept Hsem Hf Hassigned Hc Hcdept Hcap Hty w. cbn.
  split; [reflexivity|]. split; [reflexivity|].
  exists subject. repeat (split; [assumption || reflexivity|]).
  assert (taughtBy academic Faculty.assignedTheorySubjects subject
            (fst (placeTheoryEntry batch subject (Faculty.id f) (Classroom.id c)
                    day period w))) as Hteach.
  { exists f. now repeat split. }
  assert (forall b, (b = true -> sized = true) ->
            inClassroom infrastructure batch b
              (fst (placeTheoryEntry batch subject (Faculty.id f) (Classroom.id c)
                      day period w))) as Hroom.
  { intros b Hb. exists c. repeat split; auto. }
  unfold entryFor. cbn in Hteach, Hroom |- *.
  destruct (Subject.type subject); try contradiction;
    destruct Hty as (Hsized & Hday & Hperiod);
    (split; [now repeat split|]); (split; [exact Hday|]); (split; [exact Hperiod|]);
    (split; [exact Hteach|]); apply Hroom; congruence.
Qed.

Lemma classroom_found (q : Classroom.t -> bool) c :
  In c (sortBy (fun a b => localeCompare (Classroom.id a) (Classroom.id b))
          (filter q (classrooms infrastructure))) ->
  In c (classrooms infrastructure) /\ q c = true.
Proof. intros H. now apply sortBy_In, filter_In in H. Qed.

Lemma placeMandatorySubject_good existingEntries index subject acc :
  In subject (scopedSubjects MANDATORY batch (subjects academic)) ->
  Forall good (placed acc) ->
  post (placeMandatorySubject batch (faculty academic) (classrooms infrastructure)
          existingEntries index subject acc)
       (fun acc' => Forall good (placed acc')).
Proof.
  intros Hs Hacc. apply scopedSubjects_scope in Hs as (Hin & Hty & Hdept & Hsem).
  unfold placeMandatorySubject.
  destruct (_ <=? index)%nat eqn:Hindex; [apply post_ret; exact Hacc|].
  apply Nat.leb_gt in Hindex. cbn [length] in Hindex.
  destruct (isSlotAvailable _ _ _ _); cbn [negb]; [|apply post_ret; exact Hacc].
  destruct (firstTheoryFaculty _ subject) as [f|] eqn:Hf; [|apply post_ret; exact Hacc].
  apply firstTheoryFaculty_some in Hf as (Hf & Hassigned).
  destruct (negb (isFacultyAvailable _ _ _ _)); [apply post_ret; exact Hacc|].
  destruct (find _ _) as [c|] eqn:Hc; [|apply post_ret; exact Hacc].
  apply find_some in Hc as (Hc & _). apply classroom_found in Hc as (Hc & Hq).
  apply andb_true_iff in Hq as (Hcdept & Hcap).
  apply String.eqb_eq in Hcdept. apply Z.leb_le in Hcap.
  eapply post_bind.
  - apply theoryEntry_good with (sized := true); eauto. rewrite Hty.
    split; [reflexivity|]. split; [|reflexivity].
    destruct index as [|[|n]]; cbn; auto. lia.
  - intros e He. apply post_ret. cbn [placed]. apply Forall_app. split; [exact Hacc|].
    now constructor.
Qed.

Lemma placeOpenElective_good existingEntries index subject acc :
  In subject (scopedSubjects OPEN_ELECTIVE batch (subjects academic)) ->
  Forall good (placed acc) ->
  post (placeOpenElective batch (faculty academic) (classrooms infrastructure)
          existingEntries index subject acc)
       (fun acc' => Forall good (placed acc')).
Proof.
  intros Hs Hacc. apply scopedSubjects_scope in Hs as (Hin & Hty & Hdept & Hsem).
  unfold placeOpenElective.
  destruct (_ <=? index)%nat eqn:Hindex; [apply post_ret; exact Hacc|].
  apply Nat.leb_gt in Hindex. cbn [length] in Hindex.
  destruct (isSlotAvailable _ _ _ _); cbn [negb]; [|apply post_ret; exact Hacc].
  destruct (firstTheoryFaculty _ subject) as [f|] eqn:Hf; [|apply post_ret; exact Hacc].
  apply firstTheoryFaculty_some in Hf as (Hf & Hassigned).
  destruct (negb (isFacultyAvailable _ _ _ _)); [apply post_ret; exact Hacc|].
  destruct (find _ _) as [c|] eqn:Hc; [|apply post_ret; exact Hacc].
  apply find_some in Hc as (Hc & _). apply classroom_found in Hc as (Hc & Hcdept).
  apply String.eqb_eq in Hcdept.
  eapply post_bind.
  - apply theoryEntry_good with (sized := false); eauto; [discriminate|]. rewrite Hty.
    split; [reflexivity|]. split; [|reflexivity].
    destruct index as [|[|[|n]]]; cbn; auto. lia.
  - intros e He. apply post_ret. cbn [placed]. apply Forall_app. split; [exact Hacc|].
    now constructor.
Qed.

Lemma theoryLoop_good existingEntries subject f c periodsToPlace maxAttempts :
  In subject (scopedSubjects THEORY batch (subjects academic)) ->
  In f (faculty academic) ->
  In (Subject.id subject) (Faculty.assignedTheorySubjects f) ->
  In c (classrooms infrastructure) ->
  Classroom.departmentId c = Batch.departmentId batch ->
  Batch.totalStudents batch <= Classroom.capacity c ->
  forall fuel st,
    Forall good (cursorEntries st) ->
    post (theoryLoop batch existingEntries fuel subject f c periodsToPlace maxAttempts st)
         (fun st' => Forall good (cursorEntries st')).
Proof.
  intros Hs Hf Hassigned Hc Hcdept Hcap.
  apply scopedSubjects_scope in Hs as (Hin & Hty & Hdept & Hsem).
  induction fuel as [|fuel IH]; intros st Hst; [now apply post_ret|].
  cbn [theoryLoop]. destruct (_ && _); [|now apply post_ret].
  eapply post_bind with (P := fun st1 => Forall good (cursorEntries st1)).
  - destruct (_ && _); [|now apply post_ret].
    eapply post_bind.
    + apply theoryEntry_good with (sized := true); eauto. rewrite Hty.
      split; [reflexivity|]. split.
      * rewrite sortedWorkingDays_eq. apply nth_mod_In. discriminate.
      * apply (@nth_mod_In theoryPeriodList). discriminate.
    + intros e He. apply post_ret. cbn [cursorEntries]. apply Forall_app.
      split; [exact Hst|]. now constructor.
  - intros st1 Hst1. now apply IH.
Qed.

Lemma distributeTheorySubjects_good existingEntries :
  post (distributeTheorySubjects batch (faculty academic) (classrooms infrastructure)
          existingEntries (subjects academic))
       (fun p => Forall good (placed p)).
Proof.
  unfold distributeTheorySubjects. eapply post_bind.
  - apply post_forEach with (I := fun st => Forall good (placed (theoryPlacement st))).
    + intros i s st Hs Hst. unfold distributeTheorySubject.
      destruct (firstTheoryFaculty _ s) as [f|] eqn:Hf; [|now apply post_ret].
      apply firstTheoryFaculty_some in Hf as (Hf & Hassigned).
      destruct (hd_error _) as [c|] eqn:Hc; [|now apply post_ret].
      apply hd_error_In, classroom_found in Hc as (Hc & Hq).
      apply andb_true_iff in Hq as (Hcdept & Hcap).
      apply String.eqb_eq in Hcdept. apply Z.leb_le in Hcap.
      eapply post_bind; [now apply theoryLoop_good|].
      cbv beta. intros cur Hcur. now apply post_ret.
    + constructor.
  - cbv beta. intros st Hst. now apply post_ret.
Qed.

Lemma autoFillLibrary_good existingEntries :
  post (autoFillLibrary batch existingEntries (subjects academic))
       (fun p => Forall good (placed p)).
Proof.
  unfold autoFillLibrary.
  destruct (hd_error _) as [s|] eqn:Hs; [|apply post_ret; constructor].
  apply hd_error_In, scopedSubjects_scope in Hs as (Hin & Hty & Hdept & Hsem).
  destruct (find _ _) as [[day period]|] eqn:Hfind; [|apply post_ret; constructor].
  apply find_some in Hfind as (Hdp & _). apply in_prod_iff in Hdp as (Hday & Hperiod).
  rewrite sortedWorkingDays_eq in Hday.
  intros w. cbn [bind uuidv4 Date_now ret fst placed].
  constructor; [|constructor].
  split; [reflexivity|]. split; [reflexivity|].
  exists s. repeat (split; [assumption || reflexivity|]).
  unfold entryFor. rewrite Hty. split; [now repeat split|].
  split; [exact Hday|]. split; [exact Hperiod|]. now split.
Qed.

(** *** The lab allocator *)

Lemma labEntry_good subject f lab sb slot period :
  In subject (subjects academic) -> Subject.type subject = LAB ->
  Subject.departmentId subject = Batch.departmentId batch ->
  Subject.semester subject = Batch.semester batch ->
  In f (faculty academic) -> In (Subject.id subject) (Faculty.assignedLabSubjects f) ->
  In lab (labs infrastructure) -> Lab.departmentId lab = Batch.departmentId batch ->
  In (sessionDay slot) WORKING_DAYS ->
  In period (slotPeriods (sessionSlot slot)) ->
  match sb with
  | None => ~ isSplit batch
  | Some i => isSplit batch /\
              exists x, In x (Batch.subBatches batch) /\ SubBatch.id x = i
  end ->
  post (labEntry batch subject f lab sb slot period) good.
Proof.
  intros Hs Hty Hdept Hsem Hf Hassigned Hlab Hldept Hday Hperiod Hsb w. cbn.
  split; [reflexivity|]. split; [reflexivity|].
  exists subject. repeat (split; [assumption || reflexivity|]).
  unfold entryFor. rewrite Hty. cbn. split; [reflexivity|].
  split; [now exists (sessionSlot slot)|]. split; [exact Hday|].
  split; [exists f; now repeat split|]. split; [exists lab; now repeat split|].
  exact Hsb.
Qed.

Section OneSession.
Variable deptLabs : list Lab.t.
Variable lab0 : Lab.t.
Variable existingEntries : list Entry.t.
Variable existingRotations : list LabRotation.t.
Variable subject : Subject.t.
Variable labFaculty : list Faculty.t.
Variable faculty0 : Faculty.t.
Variable slot : LabSession.
Variable sessionNumber : nat.

Hypothesis subject_ok :
  In subject (subjects academic) /\ Subject.type subject = LAB /\
  Subject.departmentId subject = Batch.departmentId batch /\
  Subject.semester subject = Batch.semester batch.
Hypothesis labs_ok : forall l, In l (lab0 :: deptLabs) ->
  In l (labs infrastructure) /\ Lab.departmentId l = Batch.departmentId batch.
Hypothesis lab0_in : In lab0 deptLabs.
Hypothesis faculty_ok : forall f, In f (faculty0 :: labFaculty) ->
  In f (faculty academic) /\ In (Subject.id subject) (Faculty.assignedLabSubjects f).
Hypothesis faculty0_in : In faculty0 labFaculty.
Hypothesis slot_ok :
  In (sessionDay slot) WORKING_DAYS /\
  sessionPeriods slot = slotPeriods (sessionSlot slot).

Lemma pushLabEntries_good f lab sb es :
  In f labFaculty -> In lab deptLabs ->
  match sb with
  | None => ~ isSplit batch
  | Some i => isSplit batch /\
              exists x, In x (Batch.subBatches batch) /\ SubBatch.id x = i
  end ->
  Forall good es ->
  post (pushLabEntries batch subject f lab sb slot es) (Forall good).
Proof.
  intros Hf Hlab Hsb Hes. unfold pushLabEntries.
  destruct subject_ok as (Hs & Hty & Hdept & Hsem). destruct slot_ok as (Hday & Hperiods).
  apply post_forEach; [|exact Hes].
  intros i period es0 Hperiod Hes0.
  eapply post_bind.
  - apply labEntry_good; eauto.
    + apply faculty_ok. now right.
    + apply faculty_ok. now right.
    + apply labs_ok. now right.
    + apply labs_ok. now right.
    + now rewrite <- Hperiods.
  - intros e He. apply post_ret. apply Forall_app. split; [exact Hes0|]. now constructor.
Qed.

Lemma allocateSession_good acc :
  Forall good (accEntries acc) ->
  post (allocateSession batch deptLabs lab0 existingEntries existingRotations subject
          labFaculty faculty0 slot sessionNumber acc)
       (fun acc' => Forall good (accEntries acc')).
Proof.
  intros Hacc. unfold allocateSession.
  destruct (1 <? length (Batch.subBatches batch))%nat eqn:Hsplit.
  - apply Nat.ltb_lt in Hsplit.
    apply post_forEach with (I := fun acc' => Forall good (accEntries acc'));
      [|exact Hacc].
    intros i sb acc0 Hsb Hacc0. apply sortBy_In in Hsb. unfold allocateSubBatch.
    assert (forall f rotations explanations,
              In f labFaculty ->
              post (entries <- pushLabEntries batch subject f
                                 (nth
                                    match
                                      find (fun r =>
                                        String.eqb (LabRotation.batchId r) (Batch.id batch) &&
                                        String.eqb (LabRotation.subBatchId r)
                                                   (SubBatch.id sb)) existingRotations
                                    with
                                    | Some previous =>
                                        Z.to_nat
                                          ((findIndex (fun l =>
                                              String.eqb (Lab.id l)
                                                         (LabRotation.labId previous))
                                              deptLabs + 1) mod Z.of_nat (length deptLabs))
                                    | None => (i mod length deptLabs)%nat
                                    end deptLabs lab0)
                                 (Some (SubBatch.id sb)) slot (accEntries acc0) ;;
                    ret (mkLabAcc entries rotations explanations))
                   (fun acc' => Forall good (accEntries acc'))) as Hpush.
    { intros f rotations explanations Hf. eapply post_bind.
      - apply pushLabEntries_good; [exact Hf| | |exact Hacc0].
        + now apply nth_In_or_default.
        + split; [exact Hsplit|]. now exists sb.
      - cbv beta. intros es Hes. now apply post_ret. }
    destruct (isFacultyAvailableForSlot _ (Faculty.id (nth _ labFaculty faculty0)) _ _).
    + apply Hpush. now apply nth_In_or_default.
    + destruct (find _ labFaculty) as [f|] eqn:Hfind; [|now apply post_ret].
      apply find_some in Hfind as (Hf & _). now apply Hpush.
  - apply Nat.ltb_ge in Hsplit. eapply post_bind.
    + apply pushLabEntries_good; [exact faculty0_in|exact lab0_in| |exact Hacc].
      unfold isSplit. lia.
    + cbv beta. intros es Hes. now apply post_ret.
Qed.
End OneSession.

Lemma labLoop_good sortedLabSubjects subject0 deptLabs lab0 existingEntries
    existingRotations :
  (forall s, In s (subject0 :: sortedLabSubjects) ->
     In s (subjects academic) /\ Subject.type s = LAB /\
     Subject.departmentId s = Batch.departmentId batch /\
     Subject.semester s = Batch.semester batch) ->
  In subject0 sortedLabSubjects ->
  (forall l, In l (lab0 :: deptLabs) ->
     In l (labs infrastructure) /\ Lab.departmentId l = Batch.departmentId batch) ->
  In lab0 deptLabs ->
  forall fuel st,
    Forall good (accEntries (loopAcc st)) ->
    post (labLoop batch sortedLabSubjects subject0 deptLabs lab0 (faculty academic)
            existingEntries existingRotations fuel st)
         (fun st' => Forall good (accEntries (loopAcc st'))).
Proof.
  intros Hsubjects Hsubject0 Hlabs Hlab0.
  induction fuel as [|fuel IH]; intros st Hst; cbn [labLoop]; [now apply post_ret|].
  destruct (_ && _); [|now apply post_ret].
  destruct (find _ _) as [slot|] eqn:Hslot; [|now apply post_ret].
  apply find_some in Hslot as (Hslot & _).
  apply availableLabSlots_spec in Hslot.
  destruct (sortBy _ (filter _ (faculty academic))) as [|faculty0 others] eqn:Hfaculty.
  - apply IH. exact Hst.
  - eapply post_bind.
    + apply allocateSession_good; try eassumption.
      * apply Hsubjects. right. now apply nth_In_or_default.
      * intros f Hf.
        assert (In f (faculty0 :: others)) as Hf' by (destruct Hf as [<-|Hf]; [now left|exact Hf]).
        rewrite <- Hfaculty in Hf'. apply sortBy_In, filter_In in Hf' as (Hin & Hinc).
        split; [exact Hin|]. now apply includes_In.
      * now left.
      * destruct Hslot as (Hday & Hperiods & _). now split.
    + cbv beta. intros acc' Hacc'. destruct (_ && _); [now apply post_ret|].
      now apply IH.
Qed.
Lemma allocateLabs_good labSubjects labs0 existingEntries existingRotations :
  (forall s, In s labSubjects -> In s (subjects academic) /\ Subject.type s = LAB) ->
  (forall l, In l labs0 -> In l (labs infrastructure)) ->
  post (allocateLabsForBatch batch labSubjects labs0 (faculty academic) existingEntries
          existingRotations)
       (fun r => Forall good (labEntries r)).
Proof.
  intros Hsubjects Hlabs. unfold allocateLabsForBatch.
  destruct (sortBy _ (filter _ labSubjects)) as [|subject0 others] eqn:Hsorted;
    [apply post_ret; constructor|].
  destruct (sortBy _ (filter _ labs0)) as [|lab0 otherLabs] eqn:HsortedLabs;
    [apply post_ret; constructor|].
  destruct (_ <? _)%nat; [apply post_ret; constructor|].
  eapply post_bind.
  - apply labLoop_good.
    + intros s Hs.
      assert (In s (subject0 :: others)) as Hs' by (destruct Hs as [<-|Hs]; [now left|exact Hs]).
      rewrite <- Hsorted in Hs'. apply sortBy_In, filter_In in Hs' as (Hin & Hscope).
      apply andb_true_iff in Hscope as (Hdept & Hsem).
      apply String.eqb_eq in Hdept. apply Z.eqb_eq in Hsem.
      destruct (Hsubjects s Hin). auto.
    + now left.
    + intros l Hl.
      assert (In l (lab0 :: otherLabs)) as Hl' by (destruct Hl as [<-|Hl]; [now left|exact Hl]).
      rewrite <- HsortedLabs in Hl'. apply sortBy_In, filter_In in Hl' as (Hin & Hdept).
      apply String.eqb_eq in Hdept. split; [now apply Hlabs|exact Hdept].
    + now left.
    + constructor.
  - cbv beta. intros st Hst. destruct (_ <? _)%nat; now apply post_ret.
Qed.

Lemma accumulateEntries_good rotations :
  post (accumulateEntries infrastructure academic batch rotations)
       (fun acc => Forall good (allEntries acc)).
Proof.
  unfold accumulateEntries. eapply post_bind.
  { apply allocateLabs_good.
    - intros s Hs. apply filter_In in Hs as (Hin & Hty). split; [exact Hin|].
      destruct (Subject.type s); (reflexivity || discriminate).
    - intros l Hl. now apply filter_In in Hl as (Hin & _). }
  cbv beta. intros labResult Hlab.
  destruct (labSuccess labResult); cbn [negb]; [|now apply post_ret].
  eapply post_bind.
  { unfold placeMandatorySubjects.
    apply post_forEach with (I := fun p => Forall good (placed p)); [|constructor].
    intros i s acc Hs Hacc. now apply placeMandatorySubject_good. }
  cbv beta. intros mandatory Hm.
  eapply post_bind; [apply distributeTheorySubjects_good|].
  cbv beta. intros theory Ht.
  eapply post_bind.
  { unfold placeOpenElectives.
    apply post_forEach with (I := fun p => Forall good (placed p)); [|constructor].
    intros i s acc Hs Hacc. now apply placeOpenElective_good. }
  cbv beta. intros elective He.
  eapply post_bind; [apply autoFillLibrary_good|].
  cbv beta. intros library Hl.
  apply post_ret. cbn [allEntries app]. repeat (apply Forall_app; split); assumption.
Qed.
End EntryShape.

(** Every entry of a generated timetable is well formed. *)
Lemma generateTimetable_good (L : Locale) infrastructure academic batchId rotations :
  post (generateTimetable infrastructure academic batchId rotations)
    (fun r => forall tt, GenerationResult.timetable r = Some tt ->
       exists batch,
         find (fun b => String.eqb (Batch.id b) batchId) (batches academic) = Some batch /\
         Forall (wellFormedEntry infrastructure academic batch) (Timetable.entries tt)).
Proof.
  unfold generateTimetable.
  destruct (isValid _); cbn [negb]; [|apply post_ret; discriminate].
  destruct (find _ _) as [batch|] eqn:Hfind; [|apply post_ret; discriminate].
  eapply post_bind; [apply accumulateEntries_good|].
  cbv beta. intros acc Hacc.
  destruct (labsAllocated acc); cbn [negb]; [|apply post_ret; discriminate].
  destruct (hasWorkloadViolation _ _ _); [apply post_ret; discriminate|].
  intros w tt [= <-]. exists batch. split; [reflexivity|]. cbn [Timetable.entries].
  apply (Permutation_Forall (sortBy_perm _ _)). exact Hacc.
Qed.

(** X7. Every entry of a generated timetable is the batch's, has the slot
    id that spells its day and period, and was placed for a subject of the
    snapshot in the batch's department and semester, in the way of the
    subject's type: a LAB entry is a lab session in one of the three periods
    of its lab slot on a working day, taught by a faculty member assigned the
    lab, in a lab of the batch's department, for one of the batch's
    sub-batches if the batch is split; a THEORY or MANDATORY entry is taught
    by a faculty member assigned the subject in a classroom of the
    department that holds the whole batch; an OPEN_ELECTIVE entry likewise
    but in any classroom of the department, whatever its capacity; a LIBRARY
    entry has neither faculty nor room. *)
Theorem X7_entries_well_formed (L : Locale) infrastructure academic batchId rotations w :
  let r := fst (generateTimetable infrastructure academic batchId rotations w) in
  forall tt, GenerationResult.timetable r = Some tt ->
    exists batch,
      find (fun b => String.eqb (Batch.id b) batchId) (batches academic) = Some batch /\
      Forall (wellFormedEntry infrastructure academic batch) (Timetable.entries tt).
Proof. apply generateTimetable_good. Qed.

Lemma X7_entries_well_formed_witness :
  exists tt batch,
    GenerationResult.timetable
      (fst (@generateTimetable codeUnitLocale infra1 acadFull "b2" [] world0)) = Some tt /\
    find (fun b => String.eqb (Batch.id b) "b2") (batches acadFull) = Some batch /\
    Forall (wellFormedEntry infra1 acadFull batch) (Timetable.entries tt).
Proof.
  assert (exists tt,
            GenerationResult.timetable
              (fst (@generateTimetable codeUnitLocale infra1 acadFull "b2" [] world0))
            = Some tt) as (tt & Htt).
  { vm_compute. eexists. reflexivity. }
  exists tt.
  destruct (@X7_entries_well_formed codeUnitLocale infra1 acadFull "b2" [] world0 tt Htt)
    as (batch & Hfind & Hall).
  exists batch. split; [exact Htt|]. split; assumption.
Defined.

(** ** Days and periods of the published entries *)

Lemma entryFor_in_week infrastructure academic batch s e :
  entryFor infrastructure academic batch s e ->
  0 <= Entry.day e <= 5 /\ 1 <= Entry.period e <= 7.
Proof.
  unfold entryFor.
  destruct (Subject.type s).
  - intros (_ & Hday & Hperiod & _). cbn in Hday, Hperiod. lia.
  - intros (_ & (slot & _ & Hperiod) & Hday & _).
    destruct slot; cbn in Hday, Hperiod; lia.
  - intros (_ & Hday & Hperiod & _). cbn in Hday. lia.
  - intros (_ & Hday & Hperiod & _). cbn in Hday. lia.
  - intros (_ & Hday & Hperiod & _). cbn in Hday, Hperiod. lia.
Qed.

(** X8. The entries of a generated timetable lie in the working week: the
    day is one of 0..5 and the period one of 1..7, never period 8; and the
    slot id of an entry is its day and period joined by a dash. *)
Theorem X8_entries_in_week (L : Locale) infrastructure academic batchId rotations w :
  let r := fst (generateTimetable infrastructure academic batchId rotations w) in
  forall tt e, GenerationResult.timetable r = Some tt -> In e (Timetable.entries tt) ->
    0 <= Entry.day e <= 5 /\ 1 <= Entry.period e <= 7 /\
    Entry.slotId e = showZ (Entry.day e) +++ "-" +++ showZ (Entry.period e).
Proof.
  intros r tt e Htt He.
  destruct (generateTimetable_good L infrastructure academic batchId rotations w Htt)
    as (batch & _ & Hall).
  rewrite Forall_forall in Hall.
  destruct (Hall e He) as (_ & Hslot & s & _ & _ & _ & _ & Hfor).
  apply entryFor_in_week in Hfor. tauto.
Qed.

Lemma X8_entries_in_week_witness :
  Forall (fun e =>
            0 <= Entry.day e <= 5 /\ 1 <= Entry.period e <= 7 /\
            Entry.slotId e = showZ (Entry.day e) +++ "-" +++ showZ (Entry.period e))
    (match GenerationResult.timetable
             (fst (@generateTimetable codeUnitLocale infra1 acadFull "b2" [] world0))
     with Some t => Timetable.entries t | None => [] end).
Proof.
  apply Forall_forall. intros e He.
  eapply (@X8_entries_in_week codeUnitLocale infra1 acadFull "b2" [] world0);
    [vm_compute; reflexivity|exact He].
Defined.

(** ** The scheduler and the slot rules of the constants *)

Lemma includesZ_In l x : includesZ l x = true <-> In x l.
Proof.
  unfold includesZ. rewrite existsb_exists. split.
  - intros (y & Hin & Heq). apply Z.eqb_eq in Heq. now subst.
  - intros Hin. exists x. split; [exact Hin|apply Z.eqb_refl].
Qed.

Lemma entryFor_valid_slot infrastructure academic batch s e :
  entryFor infrastructure academic batch s e ->
  isValidSlotForSubject (Subject.type s) (Entry.day e) (Entry.period e) None = true.
Proof.
  intros Hfor. pose proof (@entryFor_in_week _ _ _ _ _ Hfor) as (_ & Hperiod).
  assert ((Entry.period e =? 8) = false) as Hnot8 by (apply Z.eqb_neq; lia).
  unfold isValidSlotForSubject, entryFor in *.
  destruct (Subject.type s); cbn; rewrite ?Hnot8; try reflexivity.
  - destruct Hfor as (_ & Hday & -> & _). cbn.
    apply includesZ_In in Hday. cbn in Hday. rewrite Hday. reflexivity.
  - destruct Hfor as (_ & Hday & -> & _). cbn.
    apply includesZ_In in Hday. cbn in Hday. rewrite Hday. reflexivity.
Qed.

(** X9. The scheduler places by rules of its own and never calls
    [isValidSlotForSubject]; the two agree all the same.  When the subject
    ids of the snapshot are distinct, every entry of a generated timetable
    is in a slot that [isValidSlotForSubject] accepts for the type of the
    entry's subject, with the default constraints of the type (the fourth
    argument left out or given as [getDefaultConstraints]). *)
Theorem X9_entries_in_valid_slots (L : Locale) infrastructure academic batchId rotations w :
  NoDup (map Subject.id (subjects academic)) ->
  let r := fst (generateTimetable infrastructure academic batchId rotations w) in
  forall tt e s, GenerationResult.timetable r = Some tt -> In e (Timetable.entries tt) ->
    In s (subjects academic) -> Subject.id s = Entry.subjectId e ->
    isValidSlotForSubject (Subject.type s) (Entry.day e) (Entry.period e) None = true /\
    isValidSlotForSubject (Subject.type s) (Entry.day e) (Entry.period e)
      (Some (getDefaultConstraints (Subject.type s))) = true.
Proof.
  intros Hnd r tt e s Htt He Hs Hid.
  destruct (generateTimetable_good L infrastructure academic batchId rotations w Htt)
    as (batch & _ & Hall).
  rewrite Forall_forall in Hall.
  destruct (Hall e He) as (_ & _ & s' & Hs' & Hid' & _ & _ & Hfor).
  assert (s' = s) as ->.
  { apply (@subject_by_id (subjects academic)); auto. congruence. }
  apply entryFor_valid_slot in Hfor. split; exact Hfor.
Qed.

Lemma X9_entries_in_valid_slots_witness :
  Forall (fun e =>
            forall s, In s (subjects acadFull) -> Subject.id s = Entry.subjectId e ->
              isValidSlotForSubject (Subject.type s) (Entry.day e) (Entry.period e) None
              = true)
    (match GenerationResult.timetable
             (fst (@generateTimetable codeUnitLocale infra1 acadFull "b2" [] world0))
     with Some t => Timetable.entries t | None => [] end).
Proof.
  apply Forall_forall. intros e He s Hs Hid.
  eapply (@X9_entries_in_valid_slots codeUnitLocale infra1 acadFull "b2" [] world0).
  - repeat constructor; cbn; intuition discriminate.
  - vm_compute. reflexivity.
  - exact He.
  - exact Hs.
  - exact Hid.
Defined.

(** ** The time structure *)

Lemma isLabSlotA_iff periods : isLabSlotA periods = true <-> periods = LAB_SLOT_A.
Proof.
  split.
  - unfold isLabSlotA. destruct periods as [|a [|b [|c [|d rest]]]]; try discriminate.
    cbn. intros H. apply andb_true_iff in H as (H & Hc).
    apply andb_true_iff in H as (Ha & Hb).
    apply Z.eqb_eq in Ha, Hb, Hc. now subst.
  - intros ->. reflexivity.
Qed.

Lemma isLabSlotB_iff periods : isLabSlotB periods = true <-> periods = LAB_SLOT_B.
Proof.
  split.
  - unfold isLabSlotB. destruct periods as [|a [|b [|c [|d rest]]]]; try discriminate.
    cbn. intros H. apply andb_true_iff in H as (H & Hc).
    apply andb_true_iff in H as (Ha & Hb).
    apply Z.eqb_eq in Ha, Hb, Hc. now subst.
  - intros ->. reflexivity.
Qed.

(** X10. [isLabSlotA] and [isLabSlotB] accept exactly the two lab windows,
    periods 2-3-4 and periods 5-6-7, and the allocator only ever offers
    those: of a session returned by [getAvailableLabSlots] the test of its
    own slot is true and the other one false. *)
Theorem X10_lab_slot_tests :
  (forall periods, isLabSlotA periods = true <-> periods = [2; 3; 4]) /\
  (forall periods, isLabSlotB periods = true <-> periods = [5; 6; 7]) /\
  (forall entries batchId s, In s (getAvailableLabSlots entries batchId) ->
     isLabSlotA (sessionPeriods s) = LabSlot_eqb (sessionSlot s) SlotA /\
     isLabSlotB (sessionPeriods s) = LabSlot_eqb (sessionSlot s) SlotB).
Proof.
  split; [exact isLabSlotA_iff|]. split; [exact isLabSlotB_iff|].
  intros entries batchId s Hs. apply availableLabSlots_spec in Hs as (_ & -> & _).
  now destruct (sessionSlot s).
Qed.

Lemma getPeriodInfo_cases period :
  (1 <= period <= 8 /\ exists info, getPeriodInfo period = Some info /\
                                    PeriodInfo.period info = period) \/
  (~ 1 <= period <= 8 /\ getPeriodInfo period = None).
Proof.
  destruct (Z_le_gt_dec 1 period) as [Hlo|Hlo]; [|right; split; [lia|]].
  - destruct (Z_le_gt_dec period 8) as [Hhi|Hhi]; [|right; split; [lia|]].
    + left. split; [lia|].
      assert (period = 1 \/ period = 2 \/ period = 3 \/ period = 4 \/ period = 5 \/
              period = 6 \/ period = 7 \/ period = 8) as Hcases by lia.
      repeat (destruct Hcases as [->|Hcases]; [eexists; split; reflexivity|]).
      subst. eexists. split; reflexivity.
    + unfold getPeriodInfo. apply find_none_intro. intros p Hp. cbn in Hp.
      repeat (destruct Hp as [<-|Hp]; [apply Z.eqb_neq; cbn; lia|]). contradiction.
  - unfold getPeriodInfo. apply find_none_intro. intros p Hp. cbn in Hp.
    repeat (destruct Hp as [<-|Hp]; [apply Z.eqb_neq; cbn; lia|]). contradiction.
Qed.

(** X11. The period table answers for periods 1 to 8 and for no other
    number, and the info found is the one of the period asked for;
    [formatPeriodTime] is empty exactly outside 1..8.  The one period
    marked special is period 8, and [isValidSlotForSubject] rejects a
    special period for every subject type, day and constraints. *)
Theorem X11_period_table period :
  (getPeriodInfo period <> None <-> 1 <= period <= 8) /\
  (forall info, getPeriodInfo period = Some info -> PeriodInfo.period info = period) /\
  (formatPeriodTime period = EmptyString <-> ~ 1 <= period <= 8) /\
  (forall info, getPeriodInfo period = Some info ->
     (PeriodInfo.isSpecial info = Some true <-> period = 8) /\
     (PeriodInfo.isSpecial info = Some true ->
      forall type day constraints,
        isValidSlotForSubject type day period constraints = false)).
Proof.
  destruct (getPeriodInfo_cases period) as [(Hin & info & Hinfo & Hp)|(Hout & Hnone)].
  - split; [rewrite Hinfo; split; [now intros _|discriminate]|].
    split; [intros info' H; congruence|].
    assert (forall type day constraints,
              period = 8 -> isValidSlotForSubject type day period constraints = false)
      as Hreject.
    { intros type day constraints ->. unfold isValidSlotForSubject.
      destruct (match allowedPeriods _ with Some _ => _ | None => _ end); [reflexivity|].
      destruct (match allowedDays _ with Some _ => _ | None => _ end); reflexivity. }
    assert (period = 1 \/ period = 2 \/ period = 3 \/ period = 4 \/ period = 5 \/
            period = 6 \/ period = 7 \/ period = 8) as Hcases by lia.
    split.
    + unfold formatPeriodTime. rewrite Hinfo. split; [|intros H; contradiction].
      destruct (PeriodInfo.startTime info); discriminate.
    + intros info' Hinfo'.
      assert (PeriodInfo.isSpecial info' = Some true <-> period = 8) as Hspecial.
      { clear Hp.
        repeat (destruct Hcases as [->|Hcases];
                [vm_compute in Hinfo'; injection Hinfo' as <-; cbn;
                 split; [discriminate|lia]|]).
        subst. vm_compute in Hinfo'. injection Hinfo' as <-. cbn. split; reflexivity. }
      split; [exact Hspecial|]. intros Hs type day constraints.
      apply Hreject. now apply Hspecial.
  - split; [rewrite Hnone; split; [congruence|contradiction]|].
    split; [intros info H; congruence|].
    split; [|intros info H; congruence].
    unfold formatPeriodTime. rewrite Hnone. split; auto.
Qed.

(** X12. How the lab windows sit in the day.  Window B is unbroken: each of
    its periods starts when the one before ends.  Window A is not: period 2
    ends at 10:10 and period 3 starts at 10:25, the break lying between
    them.  Neither window contains the lunch, which lies between period 4,
    the last of window A, and period 5, the first of window B.  The label of
    a window runs from the start of its first period to the end of its
    last. *)
Theorem X12_lab_windows_in_the_day :
  (forall p a b, In p LAB_SLOT_B -> In (p + 1) LAB_SLOT_B ->
     getPeriodInfo p = Some a -> getPeriodInfo (p + 1) = Some b ->
     PeriodInfo.endTime a = PeriodInfo.startTime b) /\
  In 2 LAB_SLOT_A /\ In 3 LAB_SLOT_A /\
  option_map PeriodInfo.endTime (getPeriodInfo 2) = Some (fst BREAK_TIME) /\
  option_map PeriodInfo.startTime (getPeriodInfo 3) = Some (snd BREAK_TIME) /\
  fst BREAK_TIME <> snd BREAK_TIME /\
  option_map PeriodInfo.endTime (getPeriodInfo 4) = Some (fst LUNCH_TIME) /\
  option_map PeriodInfo.startTime (getPeriodInfo 5) = Some (snd LUNCH_TIME) /\
  (forall p, In p LAB_SLOT_A -> p <= 4) /\ (forall p, In p LAB_SLOT_B -> 5 <= p) /\
  getLabSlotLabel SlotA = "09:20 - 12:05" /\ getLabSlotLabel SlotB = "12:45 - 15:15".
Proof.
  split.
  { intros p a b Hp Hq Ha Hb. cbn in Hp, Hq.
    assert (p = 5 \/ p = 6) as Hcases by lia.
    destruct Hcases as [->| ->]; vm_compute in Ha, Hb;
      injection Ha as <-; injection Hb as <-; reflexivity. }
  repeat split; cbn; auto; try discriminate; intros p Hp; lia.
Qed.

(** ** Lab sessions are blocks of three periods *)

Lemma post_and {A} (c : Gen A) (P Q : A -> Prop) :
  post c P -> post c Q -> post c (fun a => P a /\ Q a).
Proof. intros HP HQ w. split; [apply HP|apply HQ]. Qed.

Lemma labEntryOf_fields batch subject f lab sb slot period e :
  labEntryOf batch subject f lab sb slot period e ->
  Entry.day e = sessionDay slot /\ Entry.period e = period /\
  Entry.subjectId e = Subject.id subject /\ Entry.facultyId e = Faculty.id f /\
  Entry.roomId e = Lab.id lab /\ Entry.batchId e = Batch.id batch /\
  Entry.subBatchId e = sb /\ Entry.isLabSession e = true /\
  Entry.labSlot e = Some (sessionSlot slot).
Proof.
  unfold labEntryOf, eraseEntry. intros H. injection H as _ Hd Hp Hs Hf Hr Hb Hsb Hl Hslot.
  now repeat split.
Qed.

(** The entries of a session pushed for one (sub-)batch: one for each period
    of the slot, and nothing else. *)
Lemma pushLabEntries_block batch subject f lab sb slot : forall ps i es,
  post (forEachFrom (fun (_ : nat) period entries =>
                       e <- labEntry batch subject f lab sb slot period ;;
                       ret (entries ++ [e])) ps i es)
    (fun es' => exists new, es' = es ++ new /\
       (forall e, In e new -> exists p, In p ps /\
                                        labEntryOf batch subject f lab sb slot p e) /\
       (forall p, In p ps -> exists e, In e new /\
                                       labEntryOf batch subject f lab sb slot p e)).
Proof.
  induction ps as [|p ps IH]; intros i es.
  - apply post_ret. exists []. rewrite app_nil_r. split; [reflexivity|].
    split; [intros e []|intros p []].
  - cbn [forEachFrom].
    eapply post_bind with
      (P := fun es1 => exists e, es1 = es ++ [e] /\
                                 labEntryOf batch subject f lab sb slot p e).
    + intros w. cbn. eexists. split; reflexivity.
    + cbv beta. intros es1 (e & -> & He). eapply post_weaken; [apply IH|].
      cbv beta. intros es' (new & -> & Hnew & Hall).
      exists (e :: new). rewrite <- app_assoc. split; [reflexivity|]. split.
      * intros e' [<-|He']; [exists p; split; [now left|exact He]|].
        destruct (Hnew e' He') as (q & Hq & Hfields). exists q. split; [now right|exact Hfields].
      * intros q [<-|Hq]; [exists e; split; [now left|exact He]|].
        destruct (Hall q Hq) as (e' & He' & Hfields). exists e'. split; [now right|exact Hfields].
Qed.

Lemma blocksComplete_app es new :
  blocksComplete es -> blocksComplete new -> blocksComplete (es ++ new).
Proof.
  intros Hes Hnew e slot He Hslot p Hp. apply in_app_or in He as [He|He].
  - destruct (Hes e slot He Hslot p Hp) as (e' & He' & H). exists e'.
    split; [apply in_or_app; now left|exact H].
  - destruct (Hnew e slot He Hslot p Hp) as (e' & He' & H). exists e'.
    split; [apply in_or_app; now right|exact H].
Qed.

Lemma blocksComplete_plain es :
  Forall (fun e => Entry.labSlot e = None) es -> blocksComplete es.
Proof.
  intros H e slot He Hslot. rewrite Forall_forall in H. rewrite (H e He) in Hslot.
  discriminate.
Qed.

Lemma blocksComplete_perm es es' :
  Permutation es es' -> blocksComplete es -> blocksComplete es'.
Proof.
  intros Hperm H e slot He Hslot p Hp.
  apply (Permutation_in _ (Permutation_sym Hperm)) in He.
  destruct (H e slot He Hslot p Hp) as (e' & He' & Hsame). exists e'.
  split; [now apply (Permutation_in _ Hperm)|exact Hsame].
Qed.

Lemma pushLabEntries_blocks batch subject f lab sb slot es :
  sessionPeriods slot = slotPeriods (sessionSlot slot) ->
  blocksComplete es ->
  post (pushLabEntries batch subject f lab sb slot es)
       (fun es' => blocksComplete es' /\ incl es es' /\
          forall p, In p (sessionPeriods slot) ->
            exists e, In e es' /\ labEntryOf batch subject f lab sb slot p e).
Proof.
  intros Hperiods Hes. unfold pushLabEntries, forEach.
  eapply post_weaken; [apply pushLabEntries_block|].
  cbv beta. intros es' (new & -> & Hnew & Hall). split; [|split].
  - apply blocksComplete_app; [exact Hes|].
    intros e slot' He Hslot p Hp.
    destruct (Hnew e He) as (q & _ & Hq). apply labEntryOf_fields in Hq.
    assert (slot' = sessionSlot slot) as -> by (destruct Hq as (_&_&_&_&_&_&_&_&Hq); congruence).
    rewrite <- Hperiods in Hp. destruct (Hall p Hp) as (e' & He' & Hfields).
    apply labEntryOf_fields in Hfields. exists e'. split; [exact He'|].
    unfold sameSession. intuition congruence.
  - intros e He. apply in_or_app. now left.
  - intros p Hp. destruct (Hall p Hp) as (e & He & Hfields). exists e.
    split; [apply in_or_app; now right|exact Hfields].
Qed.

Section LabBlocks.
Context {L : Locale}.
Variable batch : Batch.t.
Variable existingEntries : list Entry.t.
Variable existingRotations : list LabRotation.t.

Lemma allocateSubBatch_blocks deptLabs lab0 subject labFaculty faculty0 slot sessionNumber
    index subBatch acc :
  sessionPeriods slot = slotPeriods (sessionSlot slot) ->
  blocksComplete (accEntries acc) ->
  post (allocateSubBatch batch deptLabs lab0 existingEntries existingRotations subject
          labFaculty faculty0 slot sessionNumber index subBatch acc)
       (fun acc' => blocksComplete (accEntries acc') /\
                    incl (accEntries acc) (accEntries acc')).
Proof.
  intros Hperiods Hacc. unfold allocateSubBatch.
  assert (forall f lab rotations explanations,
            post (entries <- pushLabEntries batch subject f lab
                               (Some (SubBatch.id subBatch)) slot (accEntries acc) ;;
                  ret (mkLabAcc entries rotations explanations))
                 (fun acc' => blocksComplete (accEntries acc') /\
                              incl (accEntries acc) (accEntries acc'))) as Hpush.
  { intros f lab rotations explanations. eapply post_bind.
    - now apply pushLabEntries_blocks.
    - cbv beta. intros es (Hes & Hincl & _). apply post_ret. now split. }
  destruct (isFacultyAvailableForSlot _ (Faculty.id (nth _ labFaculty faculty0)) _ _);
    [apply Hpush|].
  destruct (find _ labFaculty); [apply Hpush|].
  apply post_ret. split; [exact Hacc|apply incl_refl].
Qed.

Lemma forEachFrom_blocks {A} (f : nat -> A -> LabAcc -> Gen LabAcc) l :
  (forall i x acc, In x l -> blocksComplete (accEntries acc) ->
     post (f i x acc) (fun acc' => blocksComplete (accEntries acc') /\
                                   incl (accEntries acc) (accEntries acc'))) ->
  forall i acc, blocksComplete (accEntries acc) ->
    post (forEachFrom f l i acc)
         (fun acc' => blocksComplete (accEntries acc') /\
                      incl (accEntries acc) (accEntries acc')).
Proof.
  induction l as [|x xs IH]; intros Hf i acc Hacc.
  - apply post_ret. split; [exact Hacc|apply incl_refl].
  - cbn [forEachFrom]. eapply post_bind; [apply Hf; [now left|exact Hacc]|].
    cbv beta. intros acc1 (Hacc1 & Hincl1). eapply post_weaken.
    + apply IH; [|exact Hacc1]. intros j y acc0 Hy. apply Hf. now right.
    + cbv beta. intros acc' (Hacc' & Hincl'). split; [exact Hacc'|].
      now apply incl_tran with (accEntries acc1).
Qed.

(** One session: the blocks stay complete, nothing is lost, and unless the
    batch is split and nobody could take the first sub-batch, the slot is
    now filled. *)
Lemma allocateSession_blocks deptLabs lab0 subject labFaculty faculty0 slot sessionNumber
    acc :
  sessionPeriods slot = slotPeriods (sessionSlot slot) ->
  blocksComplete (accEntries acc) ->
  post (allocateSession batch deptLabs lab0 existingEntries existingRotations subject
          labFaculty faculty0 slot sessionNumber acc)
       (fun acc' => blocksComplete (accEntries acc') /\
                    incl (accEntries acc) (accEntries acc')).
Proof.
  intros Hperiods Hacc. unfold allocateSession.
  destruct (1 <? length (Batch.subBatches batch))%nat.
  - unfold forEach. apply forEachFrom_blocks; [|exact Hacc].
    intros i sb acc0 _ Hacc0. now apply allocateSubBatch_blocks.
  - eapply post_bind; [now apply pushLabEntries_blocks|].
    cbv beta. intros es (Hes & Hincl & _). apply post_ret. now split.
Qed.

Lemma labLoop_blocks sortedLabSubjects subject0 deptLabs lab0 faculty : forall fuel st,
  blocksComplete (accEntries (loopAcc st)) ->
  post (labLoop batch sortedLabSubjects subject0 deptLabs lab0 faculty existingEntries
          existingRotations fuel st)
       (fun st' => blocksComplete (accEntries (loopAcc st')) /\
                   incl (accEntries (loopAcc st)) (accEntries (loopAcc st'))).
Proof.
  induction fuel as [|fuel IH]; intros st Hst; cbn [labLoop].
  { apply post_ret. split; [exact Hst|apply incl_refl]. }
  destruct (_ && _); [|apply post_ret; split; [exact Hst|apply incl_refl]].
  destruct (find _ _) as [slot|] eqn:Hslot;
    [|apply post_ret; split; [exact Hst|apply incl_refl]].
  apply find_some in Hslot as (Hslot & _).
  apply availableLabSlots_spec in Hslot as (_ & Hperiods & _).
  destruct (sortBy _ (filter _ faculty)) as [|faculty0 others].
  - eapply post_weaken; [apply IH; exact Hst|]. cbv beta. intros st' H. exact H.
  - eapply post_bind; [now apply allocateSession_blocks|].
    cbv beta. intros acc' (Hacc' & Hincl).
    destruct (_ && _); [apply post_ret; now split|].
    eapply post_weaken; [apply IH; exact Hacc'|].
    cbv beta. intros st' (Hst' & Hincl'). split; [exact Hst'|].
    now apply incl_tran with (accEntries acc').
Qed.

Lemma allocateLabs_blocks labSubjects labs faculty :
  post (allocateLabsForBatch batch labSubjects labs faculty existingEntries
          existingRotations)
       (fun r => blocksComplete (labEntries r)).
Proof.
  assert (blocksComplete []) as Hnil by (intros e slot []).
  unfold allocateLabsForBatch.
  destruct (sortBy _ (filter _ labSubjects)) as [|subject0 ?]; [now apply post_ret|].
  destruct (sortBy _ (filter _ labs)) as [|lab0 ?]; [now apply post_ret|].
  destruct (_ <? _)%nat; [now apply post_ret|].
  eapply post_bind; [apply labLoop_blocks; exact Hnil|].
  cbv beta. intros st (Hst & _). destruct (_ <? _)%nat; now apply post_ret.
Qed.
End LabBlocks.

(** *** The other phases place entries without a lab slot *)

Section PlainPhases.
Context {L : Locale}.
Variable batch : Batch.t.
Variable faculty : list Faculty.t.
Variable classrooms : list Classroom.t.
Variable existingEntries : list Entry.t.

Let plain (es : list Entry.t) := Forall plainEntry es.

Lemma placeTheoryEntry_plain subject facultyId classroomId day period es :
  plain es ->
  post (e <- placeTheoryEntry batch subject facultyId classroomId day period ;;
        ret (es ++ [e])) plain.
Proof.
  intros Hes w. cbn. apply Forall_app. split; [exact Hes|].
  constructor; [|constructor]. now repeat split.
Qed.

Lemma placeMandatorySubjects_plain subjects :
  post (placeMandatorySubjects batch faculty classrooms existingEntries subjects)
       (fun p => plain (placed p)).
Proof.
  unfold placeMandatorySubjects.
  apply post_forEach with (I := fun p => plain (placed p)); [|constructor].
  intros i s acc _ Hacc. unfold placeMandatorySubject.
  destruct (_ <=? i)%nat; [now apply post_ret|].
  destruct (isSlotAvailable _ _ _ _); cbn [negb]; [|now apply post_ret].
  destruct (firstTheoryFaculty faculty s) as [f|]; [|now apply post_ret].
  destruct (negb (isFacultyAvailable _ _ _ _)); [now apply post_ret|].
  destruct (find _ _) as [c|]; [|now apply post_ret].
  intros w. cbn. apply Forall_app. split; [exact Hacc|].
  constructor; [|constructor]. now repeat split.
Qed.

Lemma placeOpenElectives_plain subjects :
  post (placeOpenElectives batch faculty classrooms existingEntries subjects)
       (fun p => plain (placed p)).
Proof.
  unfold placeOpenElectives.
  apply post_forEach with (I := fun p => plain (placed p)); [|constructor].
  intros i s acc _ Hacc. unfold placeOpenElective.
  destruct (_ <=? i)%nat; [now apply post_ret|].
  destruct (isSlotAvailable _ _ _ _); cbn [negb]; [|now apply post_ret].
  destruct (firstTheoryFaculty faculty s) as [f|]; [|now apply post_ret].
  destruct (negb (isFacultyAvailable _ _ _ _)); [now apply post_ret|].
  destruct (find _ _) as [c|]; [|now apply post_ret].
  intros w. cbn. apply Forall_app. split; [exact Hacc|].
  constructor; [|constructor]. now repeat split.
Qed.

Lemma theoryLoop_plain subject f c periodsToPlace maxAttempts : forall fuel st,
  plain (cursorEntries st) ->
  post (theoryLoop batch existingEntries fuel subject f c periodsToPlace maxAttempts st)
       (fun st' => plain (cursorEntries st')).
Proof.
  induction fuel as [|fuel IH]; intros st Hst; [now apply post_ret|].
  cbn [theoryLoop]. destruct (_ && _); [|now apply post_ret].
  eapply post_bind with (P := fun st1 => plain (cursorEntries st1)).
  - destruct (_ && _); [|now apply post_ret].
    intros w. cbn. apply Forall_app. split; [exact Hst|].
    constructor; [|constructor]. now repeat split.
  - intros st1 Hst1. now apply IH.
Qed.

Lemma distributeTheorySubjects_plain subjects :
  post (distributeTheorySubjects batch faculty classrooms existingEntries subjects)
       (fun p => plain (placed p)).
Proof.
  unfold distributeTheorySubjects. eapply post_bind.
  - apply post_forEach with (I := fun st => plain (placed (theoryPlacement st)));
      [|constructor].
    intros i s st _ Hst. unfold distributeTheorySubject.
    destruct (firstTheoryFaculty faculty s) as [f|]; [|now apply post_ret].
    destruct (hd_error _) as [c|]; [|now apply post_ret].
    eapply post_bind; [now apply theoryLoop_plain|].
    cbv beta. intros cur Hcur. now apply post_ret.
  - cbv beta. intros st Hst. now apply post_ret.
Qed.

Lemma autoFillLibrary_plain subjects :
  post (autoFillLibrary batch existingEntries subjects) (fun p => plain (placed p)).
Proof.
  unfold autoFillLibrary.
  destruct (hd_error _) as [s|]; [|apply post_ret; constructor].
  destruct (find _ _) as [[day period]|]; [|apply post_ret; constructor].
  intros w. cbn. constructor; [|constructor]. now repeat split.
Qed.
End PlainPhases.

Lemma plain_blocks es : Forall plainEntry es -> blocksComplete es.
Proof.
  intros H. apply blocksComplete_plain. eapply Forall_impl; [|exact H].
  now intros e (_ & Hslot & _).
Qed.

Lemma accumulateEntries_blocks (L : Locale) infrastructure academic batch rotations :
  post (accumulateEntries infrastructure academic batch rotations)
       (fun acc => blocksComplete (allEntries acc)).
Proof.
  unfold accumulateEntries. eapply post_bind; [apply allocateLabs_blocks|].
  cbv beta. intros labResult Hlab.
  destruct (labSuccess labResult); cbn [negb]; [|now apply post_ret].
  eapply post_bind; [apply placeMandatorySubjects_plain|]. cbv beta. intros m Hm.
  eapply post_bind; [apply distributeTheorySubjects_plain|]. cbv beta. intros t Ht.
  eapply post_bind; [apply placeOpenElectives_plain|]. cbv beta. intros o Ho.
  eapply post_bind; [apply autoFillLibrary_plain|]. cbv beta. intros l Hl.
  apply post_ret. cbn [allEntries app].
  repeat apply blocksComplete_app; auto using plain_blocks.
Qed.

(** X13. In a generated timetable every lab session is a complete block:
    for an entry with lab slot A (B) and each of the periods 2, 3, 4
    (5, 6, 7) the timetable has an entry in that period with the same day,
    subject, faculty, lab, batch, sub-batch and lab slot. *)
Theorem X13_lab_sessions_are_blocks (L : Locale) infrastructure academic batchId rotations
    w :
  let r := fst (generateTimetable infrastructure academic batchId rotations w) in
  forall tt, GenerationResult.timetable r = Some tt ->
    blocksComplete (Timetable.entries tt).
Proof.
  cbv zeta. revert w.
  change (post (generateTimetable infrastructure academic batchId rotations)
            (fun r => forall tt, GenerationResult.timetable r = Some tt ->
                        blocksComplete (Timetable.entries tt))).
  unfold generateTimetable.
  destruct (isValid _); cbn [negb]; [|apply post_ret; discriminate].
  destruct (find _ _) as [batch|]; [|apply post_ret; discriminate].
  eapply post_bind; [apply accumulateEntries_blocks|].
  cbv beta. intros acc Hacc.
  destruct (labsAllocated acc); cbn [negb]; [|apply post_ret; discriminate].
  destruct (hasWorkloadViolation _ _ _); [apply post_ret; discriminate|].
  intros w tt [= <-]. cbn [Timetable.entries].
  apply (blocksComplete_perm (sortBy_perm _ _)). exact Hacc.
Qed.

Lemma X13_lab_sessions_are_blocks_witness :
  exists tt,
    GenerationResult.timetable
      (fst (@generateTimetable codeUnitLocale infra1 acad1 "b1" [] world0)) = Some tt /\
    blocksComplete (Timetable.entries tt).
Proof.
  assert (exists tt,
            GenerationResult.timetable
              (fst (@generateTimetable codeUnitLocale infra1 acad1 "b1" [] world0))
            = Some tt) as (tt & Htt).
  { vm_compute. eexists. reflexivity. }
  exists tt. split; [exact Htt|].
  exact (@X13_lab_sessions_are_blocks codeUnitLocale infra1 acad1 "b1" [] world0 tt Htt).
Defined.

(** ** The first lab session takes Monday's window A *)

Lemma isFacultyAvailableForSlot_nil facultyId day periods :
  isFacultyAvailableForSlot [] facultyId day periods = true.
Proof.
  unfold isFacultyAvailableForSlot. apply negb_true_iff.
  induction periods as [|p ps IH]; [reflexivity|exact IH].
Qed.

Lemma labAt_incl batchId day period es es' :
  incl es es' -> labAt batchId day period es -> labAt batchId day period es'.
Proof. intros Hincl (e & He & H). exists e. split; [now apply Hincl|exact H]. Qed.

Lemma labAt_pushed batch subject f lab sb slot p e es :
  In e es -> labEntryOf batch subject f lab sb slot p e ->
  labAt (Batch.id batch) (sessionDay slot) p es.
Proof.
  intros He Hfields. apply labEntryOf_fields in Hfields.
  exists e. split; [exact He|]. tauto.
Qed.

Lemma getAvailableLabSlots_nil batchId :
  getAvailableLabSlots [] batchId =
  [ mkLabSession 0 SlotA LAB_SLOT_A; mkLabSession 0 SlotB LAB_SLOT_B;
    mkLabSession 1 SlotA LAB_SLOT_A; mkLabSession 1 SlotB LAB_SLOT_B;
    mkLabSession 2 SlotA LAB_SLOT_A; mkLabSession 2 SlotB LAB_SLOT_B;
    mkLabSession 3 SlotA LAB_SLOT_A; mkLabSession 3 SlotB LAB_SLOT_B;
    mkLabSession 4 SlotA LAB_SLOT_A; mkLabSession 4 SlotB LAB_SLOT_B;
    mkLabSession 5 SlotA LAB_SLOT_A; mkLabSession 5 SlotB LAB_SLOT_B ].
Proof. reflexivity. Qed.

Section FirstSession.
Context {L : Locale}.
Variable batch : Batch.t.
Variable existingRotations : list LabRotation.t.

(** With nothing placed yet, a session fills every period of its slot. *)
Lemma allocateSession_first deptLabs lab0 subject labFaculty faculty0 slot sessionNumber
    acc :
  sessionPeriods slot = slotPeriods (sessionSlot slot) ->
  accEntries acc = [] ->
  post (allocateSession batch deptLabs lab0 [] existingRotations subject labFaculty
          faculty0 slot sessionNumber acc)
       (fun acc' => blocksComplete (accEntries acc') /\
          forall p, In p (sessionPeriods slot) ->
            labAt (Batch.id batch) (sessionDay slot) p (accEntries acc')).
Proof.
  intros Hperiods Hempty.
  assert (blocksComplete (accEntries acc)) as Hacc by (rewrite Hempty; intros e s []).
  unfold allocateSession.
  destruct (1 <? length (Batch.subBatches batch))%nat eqn:Hsplit.
  - apply Nat.ltb_lt in Hsplit.
    destruct (sortBy _ (Batch.subBatches batch)) as [|sb sbs] eqn:Hsorted.
    { apply (f_equal (@length _)) in Hsorted. rewrite sortBy_length in Hsorted.
      cbn in Hsorted. lia. }
    unfold forEach. cbn [forEachFrom].
    eapply post_bind with
      (P := fun acc1 => blocksComplete (accEntries acc1) /\
              forall p, In p (sessionPeriods slot) ->
                labAt (Batch.id batch) (sessionDay slot) p (accEntries acc1)).
    + unfold allocateSubBatch. rewrite Hempty. cbn [app].
      rewrite isFacultyAvailableForSlot_nil.
      eapply post_bind.
      * apply pushLabEntries_blocks; [exact Hperiods|intros e s []].
      * cbv beta. intros es (Hes & _ & Hall). apply post_ret. cbn [accEntries].
        split; [exact Hes|]. intros p Hp. destruct (Hall p Hp) as (e & He & Hfields).
        eapply labAt_pushed; eassumption.
    + cbv beta. intros acc1 (Hacc1 & Hfilled). eapply post_weaken.
      * apply forEachFrom_blocks; [|exact Hacc1].
        intros i x acc0 _ Hacc0. now apply allocateSubBatch_blocks.
      * cbv beta. intros acc' (Hacc' & Hincl). split; [exact Hacc'|].
        intros p Hp. eapply labAt_incl; [exact Hincl|now apply Hfilled].
  - eapply post_bind; [now apply pushLabEntries_blocks|].
    cbv beta. intros es (Hes & _ & Hall). apply post_ret. cbn [accEntries].
    split; [exact Hes|]. intros p Hp. destruct (Hall p Hp) as (e & He & Hfields).
    eapply labAt_pushed; eassumption.
Qed.

Lemma labLoop_first subject0 others deptLabs lab0 faculty fuel :
  (exists f, In f faculty /\ In (Subject.id subject0) (Faculty.assignedLabSubjects f)) ->
  post (labLoop batch (subject0 :: others) subject0 deptLabs lab0 faculty []
          existingRotations (S fuel) (mkLabLoop 0 [] 0 (mkLabAcc [] [] [])))
       (fun st => labAt (Batch.id batch) 0 3 (accEntries (loopAcc st))).
Proof.
  intros (f & Hf & Hassigned). cbn [labLoop].
  cbn [subjectIndex sessionNumber loopAcc accEntries usedSlots app length Nat.ltb Nat.leb
       Nat.max MIN_LAB_SESSIONS_PER_WEEK andb].
  rewrite getAvailableLabSlots_nil. cbn [find includes existsb negb].
  replace (0 mod S (length others))%nat with 0%nat
    by (symmetry; apply Nat.mod_small; lia).
  cbn [nth].
  destruct (sortBy _ (filter _ faculty)) as [|faculty0 rest] eqn:Efac.
  { exfalso. apply sortBy_nil_inv in Efac.
    assert (In f []) as []. rewrite <- Efac. apply filter_In. split; [exact Hf|].
    now apply includes_In. }
  eapply post_bind.
  { apply allocateSession_first; reflexivity. }
  cbv beta. intros acc' (Hacc' & Hfilled).
  assert (labAt (Batch.id batch) 0 3 (accEntries acc')) as Hmonday.
  { apply (Hfilled 3). cbn. auto. }
  eapply post_weaken; [apply labLoop_blocks; exact Hacc'|].
  cbv beta. intros st (_ & Hincl). cbn [loopAcc] in Hincl.
  eapply labAt_incl; eassumption.
Qed.

Lemma allocateLabs_first labSubjects labs faculty :
  (forall s, In s labSubjects ->
     exists f, In f faculty /\ In (Subject.id s) (Faculty.assignedLabSubjects f)) ->
  post (allocateLabsForBatch batch labSubjects labs faculty [] existingRotations)
       (fun r => labSuccess r = true -> labAt (Batch.id batch) 0 3 (labEntries r)).
Proof.
  intros Hteachers. unfold allocateLabsForBatch.
  destruct (sortBy _ (filter _ labSubjects)) as [|subject0 others] eqn:Hsorted;
    [apply post_ret; discriminate|].
  assert (In subject0 labSubjects) as Hin.
  { assert (In subject0 (subject0 :: others)) as H by now left.
    rewrite <- Hsorted in H. now apply sortBy_In, filter_In in H as (H & _). }
  destruct (sortBy _ (filter _ labs)) as [|lab0 otherLabs]; [apply post_ret; discriminate|].
  destruct (_ <? _)%nat; [apply post_ret; discriminate|].
  eapply post_bind; [apply labLoop_first; now apply Hteachers|].
  cbv beta. intros st Hst. destruct (_ <? _)%nat; apply post_ret; [discriminate|].
  now intros _.
Qed.
End FirstSession.

Lemma accumulateEntries_monday (L : Locale) infrastructure academic batch rotations :
  (forall s, In s (subjects academic) -> hasTeacher (faculty academic) s) ->
  post (accumulateEntries infrastructure academic batch rotations)
       (fun acc => labsAllocated acc = true ->
                   labAt (Batch.id batch) 0 3 (allEntries acc)).
Proof.
  intros Hteachers. unfold accumulateEntries. eapply post_bind.
  { apply allocateLabs_first. intros s Hs. apply filter_In in Hs as (Hin & Hty).
    destruct (Hteachers s Hin) as (f & Hf & Hassigned). exists f. split; [exact Hf|].
    destruct (Subject.type s); (exact Hassigned || discriminate). }
  cbv beta. intros labResult Hlab.
  destruct (labSuccess labResult); cbn [negb]; [|apply post_ret; discriminate].
  eapply post_bind; [apply post_any|]. cbv beta. intros m _.
  eapply post_bind; [apply post_any|]. cbv beta. intros t _.
  eapply post_bind; [apply post_any|]. cbv beta. intros o _.
  eapply post_bind; [apply post_any|]. cbv beta. intros l _.
  apply post_ret. intros _. cbn [allEntries app].
  eapply labAt_incl; [|now apply Hlab].
  intros e He. repeat (apply in_or_app; left). exact He.
Qed.

Lemma valid_hasTeacher infrastructure academic :
  isValid (validateAll infrastructure academic) = true ->
  forall s, In s (subjects academic) -> hasTeacher (faculty academic) s.
Proof.
  unfold validateAll. cbv zeta. cbn [isValid]. rewrite negb_true_iff.
  fold (hasError (validateInfrastructure infrastructure ++
                  validateAcademic academic infrastructure ++
                  (if (0 <? length (subjects academic))%nat &&
                      (0 <? length (faculty academic))%nat
                   then validateSubjectAssignments (subjects academic) (faculty academic)
                   else []) ++
                  (if (0 <? length (faculty academic))%nat &&
                      (0 <? length (subjects academic))%nat
                   then validateFacultyWorkload (faculty academic) (subjects academic)
                   else []))).
  rewrite !hasError_app, !orb_false_iff, validateAcademic_clean.
  intros (_ & (_ & _ & Hs & Hf) & Hsa & _).
  apply nonempty_length in Hs, Hf. rewrite Hs, Hf in Hsa. cbn [andb] in Hsa.
  exact (proj1 (validateSubjectAssignments_clean _ _) Hsa).
Qed.

(** What a successful run leaves, all invariants together. *)
Lemma generateTimetable_all (L : Locale) infrastructure academic batchId rotations :
  post (generateTimetable infrastructure academic batchId rotations)
    (fun r => forall tt, GenerationResult.timetable r = Some tt ->
       exists batch,
         Batch.id batch = batchId /\
         placementInv batch (Timetable.entries tt) /\
         Forall (wellFormedEntry infrastructure academic batch) (Timetable.entries tt) /\
         labAt (Batch.id batch) 0 3 (Timetable.entries tt)).
Proof.
  unfold generateTimetable.
  destruct (isValid _) eqn:Hvalid; cbn [negb]; [|apply post_ret; discriminate].
  destruct (find _ _) as [batch|] eqn:Hfind; [|apply post_ret; discriminate].
  apply find_some in Hfind as (_ & Hid). cbn in Hid. apply String.eqb_eq in Hid.
  eapply post_bind.
  { apply post_and; [apply accumulateEntries_inv|].
    apply post_and; [apply accumulateEntries_good|].
    apply accumulateEntries_monday. now apply valid_hasTeacher with infrastructure. }
  cbv beta. intros acc ((Hinv & _) & Hgood & Hmonday).
  destruct (labsAllocated acc); cbn [negb]; [|apply post_ret; discriminate].
  destruct (hasWorkloadViolation _ _ _); [apply post_ret; discriminate|].
  intros w tt [= <-]. exists batch. cbn [Timetable.entries].
  split; [exact Hid|]. split; [|split].
  - eapply placementInv_perm; [apply sortBy_perm|exact Hinv].
  - apply (Permutation_Forall (sortBy_perm _ _)). exact Hgood.
  - eapply labAt_incl; [|now apply Hmonday].
    intros e He. now apply sortBy_In.
Qed.

Lemma FOP_In_neq {A} (R : A -> A -> Prop) l a b :
  (forall x y, R x y -> R y x) -> ForallOrdPairs R l ->
  In a l -> In b l -> a <> b -> R a b.
Proof.
  intros Hsym Hl Ha Hb Hne.
  apply In_nth_error in Ha as (i & Hi). apply In_nth_error in Hb as (j & Hj).
  apply (FOP_nth Hsym Hl) with i j; [|exact Hi|exact Hj].
  intros ->. apply Hne. congruence.
Qed.

Lemma FOP_impl_In {A} (R S : A -> A -> Prop) l :
  (forall a b, In a l -> In b l -> R a b -> S a b) ->
  ForallOrdPairs R l -> ForallOrdPairs S l.
Proof.
  intros Himpl H. induction H as [|a l Ha Hl IH]; constructor.
  - apply Forall_forall. intros b Hb. rewrite Forall_forall in Ha.
    apply Himpl; [now left|now right|now apply Ha].
  - apply IH. intros x y Hx Hy. apply Himpl; now right.
Qed.

Lemma countIf_at_most_one {A} (p : A -> bool) l :
  ForallOrdPairs (fun a b => ~ (p a = true /\ p b = true)) l -> (countIf p l <= 1)%nat.
Proof.
  induction 1 as [|a l Ha Hl IH]; cbn [countIf]; [lia|].
  destruct (p a) eqn:Hpa; [|cbn; exact IH].
  rewrite (@countIf_none _ p l); [lia|].
  eapply Forall_impl; [|exact Ha]. cbv beta. intros b Hb.
  destruct (p b); [exfalso; now apply Hb|reflexivity].
Qed.

(** X14. The first lab session of a run always takes Monday's window A, so
    in every generated timetable Monday period 3 holds a lab entry of the
    batch.  The mandatory phase puts its first subject on Monday period 3
    and its second on Tuesday period 3, and skips a subject whose slot is
    taken; hence, the subject ids being distinct, an entry of a MANDATORY
    subject is always on Tuesday (day 1) in period 3, and a generated
    timetable has at most one such entry, however many mandatory subjects
    the batch has. *)
Theorem X14_mandatory_only_on_tuesday (L : Locale) infrastructure academic batchId
    rotations w :
  NoDup (map Subject.id (subjects academic)) ->
  let r := fst (generateTimetable infrastructure academic batchId rotations w) in
  forall tt, GenerationResult.timetable r = Some tt ->
    labAt batchId 0 3 (Timetable.entries tt) /\
    (forall e s, In e (Timetable.entries tt) -> In s (subjects academic) ->
       Subject.id s = Entry.subjectId e -> Subject.type s = MANDATORY ->
       Entry.day e = 1 /\ Entry.period e = 3) /\
    (countIf (entryOfType (subjects academic) MANDATORY) (Timetable.entries tt) <= 1)%nat.
Proof.
  intros Hnd r tt Htt.
  destruct (generateTimetable_all L infrastructure academic batchId rotations w Htt)
    as (batch & Hid & (Hbatch & Hpairs) & Hgood & Hmonday).
  rewrite Forall_forall in Hgood.
  assert (forall e s, In e (Timetable.entries tt) -> In s (subjects academic) ->
            Subject.id s = Entry.subjectId e -> Subject.type s = MANDATORY ->
            plainEntry e /\ In (Entry.day e) [0; 1] /\ Entry.period e = 3) as Hshape.
  { intros e s He Hs Hsid Hty.
    destruct (Hgood e He) as (_ & _ & s' & Hs' & Hid' & _ & _ & Hfor).
    assert (s' = s) as -> by (apply (@subject_by_id (subjects academic)); auto; congruence).
    unfold entryFor in Hfor. rewrite Hty in Hfor. tauto. }
  assert (forall e s, In e (Timetable.entries tt) -> In s (subjects academic) ->
            Subject.id s = Entry.subjectId e -> Subject.type s = MANDATORY ->
            Entry.day e = 1 /\ Entry.period e = 3) as Htuesday.
  { intros e s He Hs Hsid Hty.
    destruct (Hshape e s He Hs Hsid Hty) as ((Hplain & _) & Hday & Hperiod).
    split; [|exact Hperiod].
    destruct Hday as [Hday|[Hday|[]]]; [|now symmetry].
    exfalso. destruct Hmonday as (e0 & He0 & Hb0 & Hd0 & Hp0 & Hlab0).
    assert (e <> e0) as Hne by (intros ->; congruence).
    destruct (FOP_In_neq (@compatible_sym (isSplit batch)) Hpairs He He0 Hne)
      as (_ & (Hlab & _) & _); [split; congruence|congruence]. }
  split; [now rewrite <- Hid|]. split; [exact Htuesday|].
  apply countIf_at_most_one.
  apply FOP_impl_In with (R := compatible (isSplit batch)); [|exact Hpairs].
  intros a b Ha Hb Hcompatible (Hpa & Hpb).
  apply entryOfType_true in Hpa as (sa & Hsa & Hida & Htya).
  apply entryOfType_true in Hpb as (sb & Hsb & Hidb & Htyb).
  destruct (Htuesday a sa Ha Hsa Hida Htya) as (Hda & Hperioda).
  destruct (Htuesday b sb Hb Hsb Hidb Htyb) as (Hdb & Hperiodb).
  destruct (Hshape a sa Ha Hsa Hida Htya) as ((Hplain & _) & _).
  destruct Hcompatible as (_ & (Hlab & _) & _); [split; congruence|congruence].
Qed.

Lemma X14_mandatory_only_on_tuesday_witness :
  exists tt,
    GenerationResult.timetable
      (fst (@generateTimetable codeUnitLocale infra1 acadFull "b2" [] world0)) = Some tt /\
    labAt "b2" 0 3 (Timetable.entries tt) /\
    (countIf (entryOfType (subjects acadFull) MANDATORY) (Timetable.entries tt) <= 1)%nat.
Proof.
  assert (exists tt,
            GenerationResult.timetable
              (fst (@generateTimetable codeUnitLocale infra1 acadFull "b2" [] world0))
            = Some tt) as (tt & Htt).
  { vm_compute. eexists. reflexivity. }
  exists tt. split; [exact Htt|].
  destruct (@X14_mandatory_only_on_tuesday codeUnitLocale infra1 acadFull "b2" [] world0)
    with (tt := tt) as (Hmonday & _ & Hone).
  - repeat constructor; cbn; intuition discriminate.
  - exact Htt.
  - split; assumption.
Defined.

(** ** The two while loops end *)


(** ** A whole batch always meets in the first lab *)

Section WholeBatch.
Context {L : Locale}.
Variable batch : Batch.t.
Variable existingEntries : list Entry.t.
Variable existingRotations : list LabRotation.t.
Hypothesis whole : (length (Batch.subBatches batch) <= 1)%nat.

Let firstLab (lab0 : Lab.t) (acc : LabAcc) : Prop :=
  accRotations acc = [] /\
  Forall (fun e => Entry.roomId e = Lab.id lab0 /\ Entry.subBatchId e = None)
         (accEntries acc).

Lemma allocateSession_whole deptLabs lab0 subject labFaculty faculty0 slot sessionNumber
    acc :
  firstLab lab0 acc ->
  post (allocateSession batch deptLabs lab0 existingEntries existingRotations subject
          labFaculty faculty0 slot sessionNumber acc)
       (firstLab lab0).
Proof.
  intros (Hrot & Hentries). unfold allocateSession.
  assert ((1 <? length (Batch.subBatches batch))%nat = false) as ->
    by (apply Nat.ltb_ge; exact whole).
  eapply post_bind; [apply pushLabEntries_block|].
  cbv beta. intros es (new & -> & Hnew & _). apply post_ret. split; [exact Hrot|].
  cbn [accEntries]. apply Forall_app. split; [exact Hentries|].
  apply Forall_forall. intros e He. destruct (Hnew e He) as (p & _ & Hfields).
  apply labEntryOf_fields in Hfields. tauto.
Qed.

Lemma labLoop_whole sortedLabSubjects subject0 deptLabs lab0 faculty : forall fuel st,
  firstLab lab0 (loopAcc st) ->
  post (labLoop batch sortedLabSubjects subject0 deptLabs lab0 faculty existingEntries
          existingRotations fuel st)
       (fun st' => firstLab lab0 (loopAcc st')).
Proof.
  induction fuel as [|fuel IH]; intros st Hst; cbn [labLoop]; [now apply post_ret|].
  destruct (_ && _); [|now apply post_ret].
  destruct (find _ _) as [slot|]; [|now apply post_ret].
  destruct (sortBy _ (filter _ faculty)) as [|faculty0 others].
  - apply IH. exact Hst.
  - eapply post_bind; [now apply allocateSession_whole|].
    cbv beta. intros acc' Hacc'. destruct (_ && _); [now apply post_ret|].
    now apply IH.
Qed.
End WholeBatch.

(** X16. For a batch that is not split (at most one sub-batch) the
    allocator records no rotation and holds every session in one lab: the
    first, in id order, of the labs of the batch's department.  Neither the
    capacity of that lab nor what else is placed in it is looked at; the
    entries carry no sub-batch id. *)
Theorem X16_whole_batch_first_lab (L : Locale) batch labSubjects labs faculty
    existingEntries existingRotations w :
  (length (Batch.subBatches batch) <= 1)%nat ->
  let r := fst (allocateLabsForBatch batch labSubjects labs faculty existingEntries
                  existingRotations w) in
  labRotations r = [] /\
  forall e, In e (labEntries r) ->
    Entry.subBatchId e = None /\
    exists lab0,
      hd_error (sortBy (fun a b => localeCompare (Lab.id a) (Lab.id b))
                  (filter (fun l => String.eqb (Lab.departmentId l)
                                               (Batch.departmentId batch)) labs))
      = Some lab0 /\
      Entry.roomId e = Lab.id lab0.
Proof.
  intros Hwhole. cbv zeta. revert w.
  change (post (allocateLabsForBatch batch labSubjects labs faculty existingEntries
                  existingRotations)
            (fun r => labRotations r = [] /\
               forall e, In e (labEntries r) ->
                 Entry.subBatchId e = None /\
                 exists lab0,
                   hd_error (sortBy (fun a b => localeCompare (Lab.id a) (Lab.id b))
                               (filter (fun l => String.eqb (Lab.departmentId l)
                                                            (Batch.departmentId batch))
                                       labs))
                   = Some lab0 /\
                   Entry.roomId e = Lab.id lab0)).
  unfold allocateLabsForBatch.
  destruct (sortBy _ (filter _ labSubjects)) as [|subject0 ?];
    [apply post_ret; split; [reflexivity|intros e []]|].
  destruct (sortBy _ (filter _ labs)) as [|lab0 otherLabs];
    [apply post_ret; split; [reflexivity|intros e []]|].
  destruct (_ <? _)%nat; [apply post_ret; split; [reflexivity|intros e []]|].
  eapply post_bind.
  { apply labLoop_whole with (lab0 := lab0); [exact Hwhole|]. split; constructor. }
  cbv beta. intros st (Hrot & Hentries). rewrite Forall_forall in Hentries.
  destruct (_ <? _)%nat; apply post_ret; cbn [labRotations labEntries];
    (split; [exact Hrot|]); intros e He; destruct (Hentries e He) as (Hroom & Hsb);
    (split; [exact Hsb|]); exists lab0; now split.
Qed.

Lemma X16_whole_batch_first_lab_witness :
  labRotations (fst (@allocateLabsForBatch codeUnitLocale wholeBatch [labL1; labL2]
                       (labs infra1) [facultyF1; facultyF2] [] [] world0)) = [].
Proof.
  apply (@X16_whole_batch_first_lab codeUnitLocale wholeBatch [labL1; labL2] (labs infra1)
           [facultyF1; facultyF2] [] [] world0).
  cbn. lia.
Defined.

(** ** How often a subject is placed *)

Lemma entriesOf_app sid es es' :
  entriesOf sid (es ++ es') = (entriesOf sid es + entriesOf sid es')%nat.
Proof. apply countIf_app. Qed.

Lemma entriesOf_none sid es :
  Forall (fun e => Entry.subjectId e <> sid) es -> entriesOf sid es = 0%nat.
Proof.
  intros H. apply countIf_none. eapply Forall_impl; [|exact H].
  cbv beta. intros e He. now apply String.eqb_neq.
Qed.

Lemma entriesOf_le_length sid es : (entriesOf sid es <= length es)%nat.
Proof. apply countIf_le_length. Qed.

(** A phase that adds, for each subject in turn, at most [bound] entries,
    all of that subject, places no subject more often than [bound]. *)
Lemma forEach_counts {St} (f : nat -> Subject.t -> St -> Gen St)
    (entries : St -> list Entry.t) (bound : Subject.t -> nat) whole s0 :
  NoDup (map Subject.id whole) ->
  (forall i x s, In x whole ->
     post (f i x s)
          (fun s' => exists new, entries s' = entries s ++ new /\
             Forall (fun e => Entry.subjectId e = Subject.id x) new /\
             (length new <= bound x)%nat)) ->
  entries s0 = [] ->
  post (forEach f whole s0)
       (fun s' => Forall (fun e => In (Entry.subjectId e) (map Subject.id whole))
                         (entries s') /\
                  forall x, In x whole ->
                    (entriesOf (Subject.id x) (entries s') <= bound x)%nat).
Proof.
  intros Hnd Hstep Hs0. unfold forEach.
  apply post_forEachFrom_split with
    (I := fun pre s =>
            Forall (fun e => In (Entry.subjectId e) (map Subject.id pre)) (entries s) /\
            forall x, In x pre -> (entriesOf (Subject.id x) (entries s) <= bound x)%nat)
    (pre := []).
  - intros i pre x rest s Hwhole (Hids & Hcounts).
    assert (~ In (Subject.id x) (map Subject.id pre)) as Hfresh.
    { rewrite Hwhole, map_app in Hnd. cbn [map] in Hnd.
      apply NoDup_remove_2 in Hnd. intros Hin. apply Hnd. apply in_or_app. now left. }
    eapply post_weaken.
    { apply Hstep. rewrite Hwhole. apply in_or_app. right. now left. }
    cbv beta. intros s' (new & -> & Hnew & Hlen). split.
    + apply Forall_app. split.
      * eapply Forall_impl; [|exact Hids]. cbv beta. intros e He.
        rewrite map_app. apply in_or_app. now left.
      * eapply Forall_impl; [|exact Hnew]. cbv beta. intros e ->.
        rewrite map_app. apply in_or_app. right. now left.
    + intros y Hy. rewrite entriesOf_app. apply in_app_or in Hy as [Hy|[<-|[]]].
      * rewrite (@entriesOf_none (Subject.id y) new).
        { specialize (Hcounts y Hy). lia. }
        eapply Forall_impl; [|exact Hnew]. cbv beta. intros e -> Heq.
        apply Hfresh. rewrite Heq. now apply in_map.
      * rewrite (@entriesOf_none (Subject.id x) (entries s)).
        { pose proof (entriesOf_le_length (Subject.id x) new). lia. }
        eapply Forall_impl; [|exact Hids]. cbv beta. intros e He Heq.
        apply Hfresh. now rewrite <- Heq.
  - reflexivity.
  - rewrite Hs0. split; [constructor|intros x []].
Qed.

Section PhaseCounts.
Context {L : Locale}.
Variable batch : Batch.t.
Variable faculty : list Faculty.t.
Variable classrooms : list Classroom.t.
Variable existingEntries : list Entry.t.

Lemma placeMandatorySubject_count index subject acc :
  post (placeMandatorySubject batch faculty classrooms existingEntries index subject acc)
       (fun acc' => exists new, placed acc' = placed acc ++ new /\
          Forall (fun e => Entry.subjectId e = Subject.id subject) new /\
          (length new <= 1)%nat).
Proof.
  assert (forall e, placed (note acc e) = placed acc ++ [] /\
                    Forall (fun e => Entry.subjectId e = Subject.id subject) [] /\
                    (length (@nil Entry.t) <= 1)%nat) as Hskip.
  { intros e. cbn. rewrite app_nil_r. repeat split; [constructor|lia]. }
  unfold placeMandatorySubject.
  destruct (_ <=? index)%nat; [apply post_ret; eexists; apply Hskip|].
  destruct (isSlotAvailable _ _ _ _); cbn [negb]; [|apply post_ret; eexists; apply Hskip].
  destruct (firstTheoryFaculty faculty subject) as [f|];
    [|apply post_ret; eexists; apply Hskip].
  destruct (negb (isFacultyAvailable _ _ _ _)); [apply post_ret; eexists; apply Hskip|].
  destruct (find _ _) as [c|]; [|apply post_ret; eexists; apply Hskip].
  intros w. cbn. eexists. split; [reflexivity|]. split; [|cbn; lia].
  constructor; [reflexivity|constructor].
Qed.

Lemma placeOpenElective_count index subject acc :
  post (placeOpenElective batch faculty classrooms existingEntries index subject acc)
       (fun acc' => exists new, placed acc' = placed acc ++ new /\
          Forall (fun e => Entry.subjectId e = Subject.id subject) new /\
          (length new <= 1)%nat).
Proof.
  assert (placed acc = placed acc ++ [] /\
          Forall (fun e => Entry.subjectId e = Subject.id subject) [] /\
          (length (@nil Entry.t) <= 1)%nat) as Hskip.
  { rewrite app_nil_r. repeat split; [constructor|cbn; lia]. }
  unfold placeOpenElective.
  destruct (_ <=? index)%nat; [apply post_ret; eexists; apply Hskip|].
  destruct (isSlotAvailable _ _ _ _); cbn [negb]; [|apply post_ret; eexists; apply Hskip].
  destruct (firstTheoryFaculty faculty subject) as [f|];
    [|apply post_ret; eexists; apply Hskip].
  destruct (negb (isFacultyAvailable _ _ _ _)); [apply post_ret; eexists; apply Hskip|].
  destruct (find _ _) as [c|]; [|apply post_ret; eexists; apply Hskip].
  intros w. cbn. eexists. split; [reflexivity|]. split; [|cbn; lia].
  constructor; [reflexivity|constructor].
Qed.

Lemma theoryLoop_count subject f c periodsToPlace maxAttempts : forall fuel st,
  post (theoryLoop batch existingEntries fuel subject f c periodsToPlace maxAttempts st)
       (fun st' => exists new, cursorEntries st' = cursorEntries st ++ new /\
          Forall (fun e => Entry.subjectId e = Subject.id subject) new /\
          placedCount st' = (placedCount st + length new)%nat /\
          Z.of_nat (placedCount st') <= Z.max (Z.of_nat (placedCount st)) periodsToPlace).
Proof.
  induction fuel as [|fuel IH]; intros st.
  { apply post_ret. exists []. rewrite app_nil_r. repeat split; [constructor|cbn; lia|lia]. }
  cbn [theoryLoop]. destruct (_ && _) eqn:Hguard.
  2:{ apply post_ret. exists []. rewrite app_nil_r.
      repeat split; [constructor|cbn; lia|lia]. }
  apply andb_true_iff in Hguard as (Hless & _). apply Z.ltb_lt in Hless.
  eapply post_bind with
    (P := fun st1 => exists new, cursorEntries st1 = cursorEntries st ++ new /\
            Forall (fun e => Entry.subjectId e = Subject.id subject) new /\
            placedCount st1 = (placedCount st + length new)%nat /\
            Z.of_nat (placedCount st1) <= periodsToPlace).
  - destruct (_ && _).
    + intros w. cbn. eexists. split; [reflexivity|].
      split; [constructor; [reflexivity|constructor]|]. cbn. split; lia.
    + apply post_ret. exists []. rewrite app_nil_r.
      repeat split; [constructor|cbn; lia|lia].
  - intros st1 (new1 & Hentries1 & Hnew1 & Hcount1 & Hle1).
    eapply post_weaken; [apply IH|].
    cbv beta. cbn [cursorEntries placedCount].
    intros st' (new2 & Hentries2 & Hnew2 & Hcount2 & Hle2).
    exists (new1 ++ new2). rewrite Hentries2, Hentries1, app_assoc.
    split; [reflexivity|]. split; [now apply Forall_app|].
    rewrite length_app. split; lia.
Qed.

Lemma distributeTheorySubject_count index subject st :
  post (distributeTheorySubject batch faculty classrooms existingEntries index subject st)
       (fun st' => exists new,
          placed (theoryPlacement st') = placed (theoryPlacement st) ++ new /\
          Forall (fun e => Entry.subjectId e = Subject.id subject) new /\
          (length new <= Z.to_nat (Subject.periodsPerWeek subject))%nat).
Proof.
  assert (placed (theoryPlacement st) = placed (theoryPlacement st) ++ [] /\
          Forall (fun e => Entry.subjectId e = Subject.id subject) [] /\
          (length (@nil Entry.t) <= Z.to_nat (Subject.periodsPerWeek subject))%nat)
    as Hskip.
  { rewrite app_nil_r. repeat split; [constructor|cbn; lia]. }
  unfold distributeTheorySubject.
  destruct (firstTheoryFaculty faculty subject) as [f|];
    [|apply post_ret; eexists; apply Hskip].
  destruct (hd_error _) as [c|]; [|apply post_ret; eexists; apply Hskip].
  eapply post_bind; [apply theoryLoop_count|].
  cbv beta. cbn [cursorEntries placedCount].
  intros cur (new & Hentries & Hnew & Hcount & Hle). apply post_ret.
  cbn [theoryPlacement placed]. exists new. split; [exact Hentries|].
  split; [exact Hnew|]. lia.
Qed.

Lemma scopedSubjects_NoDup ty subjects :
  NoDup (map Subject.id subjects) ->
  NoDup (map Subject.id (scopedSubjects ty batch subjects)).
Proof.
  intros Hnd. unfold scopedSubjects.
  eapply Permutation_NoDup; [apply Permutation_map, sortBy_perm|].
  induction subjects as [|s ss IH]; cbn [filter map]; [constructor|].
  cbn [map] in Hnd. apply NoDup_cons_iff in Hnd as (Hnot & Hnd).
  destruct (_ && _); [|now apply IH]. cbn [map]. constructor; [|now apply IH].
  intros Hin. apply Hnot. apply in_map_iff in Hin as (x & Hid & Hx).
  apply filter_In in Hx as (Hx & _). apply in_map_iff. now exists x.
Qed.
End PhaseCounts.

(** What a phase leaves for every subject of the snapshot: entries of
    subjects of its type only, and no subject more often than [bound]. *)
Lemma phase_counts (L : Locale) subjects batch ty (bound : Subject.t -> nat) es :
  NoDup (map Subject.id subjects) ->
  Forall (fun e => In (Entry.subjectId e)
                      (map Subject.id (scopedSubjects ty batch subjects))) es ->
  (forall x, In x (scopedSubjects ty batch subjects) ->
     (entriesOf (Subject.id x) es <= bound x)%nat) ->
  forall s, In s subjects ->
    (entriesOf (Subject.id s) es <= if SubjectType_eqb (Subject.type s) ty
                                    then bound s else 0)%nat.
Proof.
  intros Hnd Hids Hcounts s Hs.
  destruct (in_dec string_dec (Subject.id s)
              (map Subject.id (scopedSubjects ty batch subjects))) as [Hin|Hout].
  - apply in_map_iff in Hin as (x & Hid & Hx).
    destruct (@scopedSubjects_In L ty batch subjects x Hx) as (Hxin & Hxty).
    assert (x = s) as -> by (apply (@subject_by_id subjects); auto).
    rewrite Hxty. assert (SubjectType_eqb ty ty = true) as -> by now destruct ty.
    now apply Hcounts.
  - rewrite entriesOf_none; [lia|].
    eapply Forall_impl; [|exact Hids]. cbv beta. intros e He Heq.
    apply Hout. now rewrite <- Heq.
Qed.

Lemma accumulateEntries_counts (L : Locale) infrastructure academic batch rotations :
  NoDup (map Subject.id (subjects academic)) ->
  post (accumulateEntries infrastructure academic batch rotations)
    (fun acc => forall s, In s (subjects academic) ->
       match Subject.type s with
       | LAB => True
       | THEORY =>
           (entriesOf (Subject.id s) (allEntries acc)
            <= Z.to_nat (Subject.periodsPerWeek s))%nat
       | _ => (entriesOf (Subject.id s) (allEntries acc) <= 1)%nat
       end).
Proof.
  intros Hnd. unfold accumulateEntries.
  eapply post_bind.
  { apply allocateLabsForBatch_inv with (subjects := subjects academic).
    - intros s Hs. apply filter_In in Hs as (Hin & Hty). split; [exact Hin|].
      destruct (Subject.type s); (reflexivity || discriminate).
    - apply placementInv_nil. }
  cbv beta. intros labResult (_ & HlabAs).
  destruct (labSuccess labResult); cbn [negb].
  2:{ apply post_ret. cbn [allEntries app]. intros s Hs.
      assert (Subject.type s <> LAB -> entriesOf (Subject.id s) (labEntries labResult)
                                       = 0%nat) as Hzero.
      { intros Hty. apply entriesOf_none. eapply Forall_impl; [|exact HlabAs].
        cbv beta. intros e Has Heq.
        destruct (@placedAs_type _ _ _ _ Hnd Has Hs (eq_sym Heq)) as (Hty' & _).
        contradiction. }
      destruct (Subject.type s); try exact I; rewrite Hzero by discriminate; lia. }
  eapply post_bind.
  { unfold placeMandatorySubjects.
    apply forEach_counts with (entries := placed) (bound := fun _ => 1%nat);
      [now apply scopedSubjects_NoDup| |reflexivity].
    intros i x acc _. apply placeMandatorySubject_count. }
  cbv beta. intros m (Hm & Hmc).
  eapply post_bind with
    (P := fun t =>
            Forall (fun e => In (Entry.subjectId e)
                      (map Subject.id (scopedSubjects THEORY batch (subjects academic))))
                   (placed t) /\
            forall x, In x (scopedSubjects THEORY batch (subjects academic)) ->
              (entriesOf (Subject.id x) (placed t)
               <= Z.to_nat (Subject.periodsPerWeek x))%nat).
  { unfold distributeTheorySubjects. eapply post_bind.
    - apply forEach_counts with
        (entries := fun st => placed (theoryPlacement st))
        (bound := fun x => Z.to_nat (Subject.periodsPerWeek x));
        [now apply scopedSubjects_NoDup| |reflexivity].
      intros i x st _. apply distributeTheorySubject_count.
    - cbv beta. intros st Hst. apply post_ret. exact Hst. }
  cbv beta. intros t (Ht & Htc).
  eapply post_bind.
  { unfold placeOpenElectives.
    apply forEach_counts with (entries := placed) (bound := fun _ => 1%nat);
      [now apply scopedSubjects_NoDup| |reflexivity].
    intros i x acc _. apply placeOpenElective_count. }
  cbv beta. intros o (Ho & Hoc).
  eapply post_bind.
  { apply post_and with
      (P := fun p => (length (placed p) <= 1)%nat)
      (Q := fun p => Forall (fun e => In (Entry.subjectId e)
                        (map Subject.id (scopedSubjects LIBRARY batch (subjects academic))))
                      (placed p)).
    - unfold autoFillLibrary. destruct (hd_error _); [|apply post_ret; cbn; lia].
      destruct (find _ _) as [[day period]|]; [|apply post_ret; cbn; lia].
      intros w. cbn. lia.
    - unfold autoFillLibrary. destruct (hd_error _) as [s|] eqn:Hs;
        [|apply post_ret; constructor].
      apply hd_error_In in Hs.
      destruct (find _ _) as [[day period]|]; [|apply post_ret; constructor].
      intros w. cbn. constructor; [|constructor].
      change (In (Subject.id s)
                (map Subject.id (scopedSubjects LIBRARY batch (subjects academic)))).
      now apply in_map. }
  cbv beta. intros l (Hll & Hl).
  apply post_ret. cbn [allEntries app]. intros s Hs.
  assert (entriesOf (Subject.id s) (labEntries labResult) =
          if SubjectType_eqb (Subject.type s) LAB
          then entriesOf (Subject.id s) (labEntries labResult) else 0%nat) as Hlab.
  { destruct (SubjectType_eqb (Subject.type s) LAB) eqn:Hty; [reflexivity|].
    apply entriesOf_none. eapply Forall_impl; [|exact HlabAs].
    cbv beta. intros e Has Heq.
    destruct (@placedAs_type _ _ _ _ Hnd Has Hs (eq_sym Heq)) as (Hty' & _).
    rewrite Hty' in Hty. discriminate. }
  pose proof (@phase_counts L _ batch MANDATORY _ _ Hnd Hm Hmc s Hs) as Hm'.
  pose proof (@phase_counts L _ batch THEORY _ _ Hnd Ht Htc s Hs) as Ht'.
  pose proof (@phase_counts L _ batch OPEN_ELECTIVE _ _ Hnd Ho Hoc s Hs) as Ho'.
  assert (forall x, In x (scopedSubjects LIBRARY batch (subjects academic)) ->
            (entriesOf (Subject.id x) (placed l) <= 1)%nat) as Hlc.
  { intros x _. pose proof (entriesOf_le_length (Subject.id x) (placed l)). lia. }
  pose proof (@phase_counts L _ batch LIBRARY (fun _ => 1%nat) _ Hnd Hl Hlc s Hs) as Hl'.
  rewrite !entriesOf_app.
  destruct (Subject.type s); cbn [SubjectType_eqb] in *; try exact I; lia.
Qed.

(** X17. When the subject ids of the snapshot are distinct, a generated
    timetable never has more entries of a THEORY subject than the subject's
    periodsPerWeek (none if that is zero or negative), and never more than
    one entry of a MANDATORY, OPEN_ELECTIVE or LIBRARY subject, whatever
    periodsPerWeek says for these. *)
Theorem X17_subject_entry_counts (L : Locale) infrastructure academic batchId rotations w :
  NoDup (map Subject.id (subjects academic)) ->
  let r := fst (generateTimetable infrastructure academic batchId rotations w) in
  forall tt s, GenerationResult.timetable r = Some tt -> In s (subjects academic) ->
    match Subject.type s with
    | LAB => True
    | THEORY =>
        Z.of_nat (entriesOf (Subject.id s) (Timetable.entries tt))
        <= Z.max 0 (Subject.periodsPerWeek s)
    | _ => (entriesOf (Subject.id s) (Timetable.entries tt) <= 1)%nat
    end.
Proof.
  intros Hnd. cbv zeta. revert w.
  change (post (generateTimetable infrastructure academic batchId rotations)
            (fun r => forall tt s, GenerationResult.timetable r = Some tt ->
               In s (subjects academic) ->
               match Subject.type s with
               | LAB => True
               | THEORY =>
                   Z.of_nat (entriesOf (Subject.id s) (Timetable.entries tt))
                   <= Z.max 0 (Subject.periodsPerWeek s)
               | _ => (entriesOf (Subject.id s) (Timetable.entries tt) <= 1)%nat
               end)).
  unfold generateTimetable.
  destruct (isValid _); cbn [negb]; [|apply post_ret; discriminate].
  destruct (find _ _) as [batch|]; [|apply post_ret; discriminate].
  eapply post_bind; [now apply accumulateEntries_counts|].
  cbv beta. intros acc Hacc.
  destruct (labsAllocated acc); cbn [negb]; [|apply post_ret; discriminate].
  destruct (hasWorkloadViolation _ _ _); [apply post_ret; discriminate|].
  intros w tt s [= <-] Hs. cbn [Timetable.entries].
  specialize (Hacc s Hs). unfold entriesOf in *.
  rewrite <- (@countIf_perm _ _ _ _ (sortBy_perm byDayThenPeriod (allEntries acc))).
  destruct (Subject.type s); try exact Hacc. lia.
Qed.

Lemma X17_subject_entry_counts_witness :
  exists tt,
    GenerationResult.timetable
      (fst (@generateTimetable codeUnitLocale infra1 acadFull "b2" [] world0)) = Some tt /\
    Z.of_nat (entriesOf (Subject.id theoryT1) (Timetable.entries tt))
    <= Z.max 0 (Subject.periodsPerWeek theoryT1).
Proof.
  assert (exists tt,
            GenerationResult.timetable
              (fst (@generateTimetable codeUnitLocale infra1 acadFull "b2" [] world0))
            = Some tt) as (tt & Htt).
  { vm_compute. eexists. reflexivity. }
  exists tt. split; [exact Htt|].
  apply (@X17_subject_entry_counts codeUnitLocale infra1 acadFull "b2" [] world0)
    with (tt := tt) (s := theoryT1).
  - repeat constructor; cbn; intuition discriminate.
  - exact Htt.
  - cbn. auto.
Defined.
